(** * The download orchestrator of main.py: store, progress parser, workers

    A shallow embedding of [DatabaseManager] and [YTDLPManager] of
    [src/main.py], and the properties of the specification that concern them.

    Conventions of the model.
    - A Python [str] is a Rocq [string]; each character stands for one code
      point below 256, so that [str.isspace], [\s] and [\d] are exact on it.
    - [float(text)] is the exact rational the decimal text denotes.  IEEE
      rounding is monotone and exact at 0 and 100, so order and bound
      statements carry over to the stored doubles.
    - A row of the [downloads] table holds dynamically typed SQLite values;
      the conversions of column affinity are not modelled, every caller
      passing values of the declared type of the column.
    - The store fails only on a statement SQLite rejects; locking and I/O
      errors are outside the model.
    - Threads are interleaved at the granularity of one statement that
      touches shared state (the [finally] block counts as one); what the
      operating system, the subprocess and the clock answer is an input of
      each step. *)

From Stdlib Require Import ZArith QArith Qreduction String Ascii List Lia Bool.
From Stdlib Require Import Sorted.
From stdpp Require Import base option list gmap.

Local Open Scope string_scope.

(* ===================================================================== *)
(** ** Text: character classes and the [str] methods the parser uses      *)
(* ===================================================================== *)

Module Text.

Definition code (c : ascii) : N := N_of_ascii c.

(** [\d] and [[0-9]] on code points below 256. *)
Definition isdigit (c : ascii) : bool :=
  ((48 <=? code c) && (code c <=? 57))%N.

(** [str.isspace] / [\s]: TAB..CR, FS..US, SPACE, NEL and NBSP. *)
Definition isspace (c : ascii) : bool :=
  (((9 <=? code c) && (code c <=? 13))
   || ((28 <=? code c) && (code c <=? 32))
   || (code c =? 133) || (code c =? 160))%N.

Fixpoint lstrip (s : string) : string :=
  match s with
  | String c s' => if isspace c then lstrip s' else s
  | EmptyString => EmptyString
  end.

Fixpoint rstrip (s : string) : string :=
  match s with
  | EmptyString => EmptyString
  | String c s' =>
      match rstrip s' with
      | EmptyString => if isspace c then EmptyString else String c EmptyString
      | t => String c t
      end
  end.

(** [s.strip()] *)
Definition strip (s : string) : string := rstrip (lstrip s).

Fixpoint startswith (p s : string) : bool :=
  match p, s with
  | EmptyString, _ => true
  | String a p', String b s' => Ascii.eqb a b && startswith p' s'
  | String _ _, EmptyString => false
  end.

(** [needle in hay] *)
Fixpoint contains (needle hay : string) : bool :=
  startswith needle hay
  || match hay with
     | String _ hay' => contains needle hay'
     | EmptyString => false
     end.

(** [all(p(c) for c in s)] *)
Fixpoint all (p : ascii -> bool) (s : string) : bool :=
  match s with
  | EmptyString => true
  | String c s' => p c && all p s'
  end.

(** The longest prefix of [s] made of characters of [p], and what follows
    it. *)
Fixpoint take_while (p : ascii -> bool) (s : string) : string :=
  match s with
  | String c s' => if p c then String c (take_while p s') else EmptyString
  | EmptyString => EmptyString
  end.

Fixpoint drop_while (p : ascii -> bool) (s : string) : string :=
  match s with
  | String c s' => if p c then drop_while p s' else s
  | EmptyString => EmptyString
  end.

(** [s[:n]] *)
Fixpoint take (n : nat) (s : string) : string :=
  match n, s with
  | S n', String c s' => String c (take n' s')
  | _, _ => EmptyString
  end.

(** [s[n:]] *)
Fixpoint drop (n : nat) (s : string) : string :=
  match n, s with
  | S n', String _ s' => drop n' s'
  | _, _ => s
  end.

End Text.

(* ===================================================================== *)
(** ** Regex: the fragment of [re] the parser uses, matched by backtracking *)
(* ===================================================================== *)

Module Regex.

(** Every repetition in the three patterns of [parse_progress] ranges over
    a character class, so the pattern language is kept to that. *)
Inductive re : Type :=
| Lit (l : string)              (* literal text *)
| Cls (p : ascii -> bool)       (* one character of a class *)
| Cat (r1 r2 : re)              (* r1 r2 *)
| Opt (r : re)                  (* r?   greedy *)
| Star (p : ascii -> bool)      (* [p]* greedy *)
| Plus (p : ascii -> bool)      (* [p]+ greedy *)
| Grp (r : re).                 (* ( r ), the group read by .group(1) *)

Section Matcher.
Variable R : Type.

Fixpoint lit (l s : string) (k : string -> option R) : option R :=
  match l with
  | EmptyString => k s
  | String a l' =>
      match s with
      | String c s' => if Ascii.eqb a c then lit l' s' k else None
      | EmptyString => None
      end
  end.

(** Greedy repetition: take one more character first, and fall back to
    stopping here when the rest of the pattern fails after it. *)
Fixpoint star (p : ascii -> bool) (s : string) (k : string -> option R)
  : option R :=
  match s with
  | String c s' =>
      if p c then
        match star p s' k with
        | Some x => Some x
        | None => k s
        end
      else k s
  | EmptyString => k s
  end.

(** [mt r s cap k]: match [r] at the head of [s], then continue with [k]
    on the current capture and the unread text. *)
Fixpoint mt (r : re) (s : string) (cap : option string)
         (k : option string -> string -> option R) : option R :=
  match r with
  | Lit l => lit l s (k cap)
  | Cls p =>
      match s with
      | String c s' => if p c then k cap s' else None
      | EmptyString => None
      end
  | Cat r1 r2 => mt r1 s cap (fun cap' s' => mt r2 s' cap' k)
  | Opt r1 =>
      match mt r1 s cap k with
      | Some x => Some x
      | None => k cap s
      end
  | Star p => star p s (k cap)
  | Plus p =>
      match s with
      | String c s' => if p c then star p s' (k cap) else None
      | EmptyString => None
      end
  | Grp r1 =>
      mt r1 s cap
         (fun _ s' =>
            k (Some (Text.take (String.length s - String.length s') s)) s')
  end.
End Matcher.

Arguments lit {R}.
Arguments star {R}.
Arguments mt {R}.

(** What [re.search] returns: where the match starts and [.group(1)]. *)
Record match_obj := { m_start : nat; m_group1 : option string }.

Definition match_here (r : re) (s : string) : option (option string) :=
  mt r s None (fun cap _ => Some cap).

(** [re.search]: the leftmost start position at which the pattern matches. *)
Fixpoint search_from (r : re) (i : nat) (s : string) : option match_obj :=
  match match_here r s with
  | Some cap => Some {| m_start := i; m_group1 := cap |}
  | None =>
      match s with
      | String _ s' => search_from r (S i) s'
      | EmptyString => None
      end
  end.

Definition search (r : re) (s : string) : option match_obj :=
  search_from r 0 s.

End Regex.

(* ===================================================================== *)
(** ** Progress patterns and [float] on what they capture                 *)
(* ===================================================================== *)

Module Patterns.
Import Regex.

Definition is_dot (c : ascii) : bool := Ascii.eqb c "."%char.
Definition is_num_dot (c : ascii) : bool := Text.isdigit c || is_dot c.
Definition is_num_colon (c : ascii) : bool :=
  Text.isdigit c || Ascii.eqb c ":"%char.
Definition is_KMG (c : ascii) : bool :=
  Ascii.eqb c "K"%char || Ascii.eqb c "M"%char || Ascii.eqb c "G"%char.

(** The pattern [(\d+\.?\d{0,})%] of line 350 (written there with a star). *)
Definition percent_re : re :=
  Cat (Grp (Cat (Plus Text.isdigit) (Cat (Opt (Lit ".")) (Star Text.isdigit))))
      (Lit "%").

(** The pattern [at\s+([0-9.]+[KMG]?iB/s)] of line 355. *)
Definition speed_re : re :=
  Cat (Lit "at")
      (Cat (Plus Text.isspace)
           (Grp (Cat (Plus is_num_dot) (Cat (Opt (Cls is_KMG)) (Lit "iB/s"))))).

(** The pattern [ETA\s+([0-9:]+)] of line 359. *)
Definition eta_re : re :=
  Cat (Lit "ETA") (Cat (Plus Text.isspace) (Grp (Plus is_num_colon))).

Definition digit_value (c : ascii) : Z := Z.of_N (Text.code c) - 48.

(** Horner evaluation of a run of digits; [None] on any other character. *)
Fixpoint digits (acc : Z) (s : string) : option Z :=
  match s with
  | EmptyString => Some acc
  | String c s' =>
      if Text.isdigit c then digits (10 * acc + digit_value c) s' else None
  end.

Fixpoint split_dot (s : string) : string * option string :=
  match s with
  | EmptyString => (EmptyString, None)
  | String c s' =>
      if is_dot c then (EmptyString, Some s')
      else let '(a, b) := split_dot s' in (String c a, b)
  end.

(** [float(text)] on unsigned decimal text [ddd], [ddd.] , [ddd.ddd] or
    [.ddd]; [None] stands for [ValueError].  Signs, exponents, [inf],
    [nan] and underscores, which [float] also reads, cannot come out of
    [percent_re] and are not modelled. *)
Definition float (text : string) : option Q :=
  let '(int_part, frac) := split_dot text in
  let frac_part := match frac with Some f => f | None => EmptyString end in
  if (String.length int_part + String.length frac_part =? 0)%nat then None
  else
    match digits 0 (int_part ++ frac_part) with
    | Some n =>
        Some (Qred (Qmake n (Z.to_pos (10 ^ Z.of_nat (String.length frac_part)))))
    | None => None
    end.

End Patterns.

(* ===================================================================== *)
(** ** Py: exceptions as values                                           *)
(* ===================================================================== *)

Module Py.

(** An instance of a subclass of [Exception]; [exn_str e] is [str(e)]. *)
Record exn := { exn_class : string; exn_str : string }.

Inductive outcome (A : Type) : Type :=
| Ret (a : A)
| Raise (e : exn).

Arguments Ret {A}.
Arguments Raise {A}.

End Py.

(* ===================================================================== *)
(** ** Store: the [downloads] table and [DatabaseManager]                 *)
(* ===================================================================== *)

Module Store.
Import Py.

(** A value of SQLite, which is what a column of a fetched row holds in
    Python: [None], an [int], a [float] or a [str]. *)
Inductive value : Type :=
| VNull
| VInt (z : Z)
| VReal (q : Q)
| VText (s : string).

(** [class DownloadItem] (lines 32-51).  A stored row is a [DownloadItem]
    whose key is the key of the table, [item_id] being the field [id]. *)
Record DownloadItem := {
  item_id : option Z;
  url : value;
  title : value;
  platform : value;
  format_id : value;
  quality : value;
  file_type : value;
  file_path : value;
  file_size : value;
  progress : value;
  status : value;
  created_at : value;
  completed_at : value;
  speed : value;
  eta : value;
  error_message : value;
  thumbnail_url : value;
  duration : value
}.

(** The names a caller of [update_download] may pass as keywords: the
    columns of the table other than its primary key. *)
Inductive column : Type :=
| K_url
| K_title
| K_platform
| K_format_id
| K_quality
| K_file_type
| K_file_path
| K_file_size
| K_progress
| K_status
| K_created_at
| K_completed_at
| K_speed
| K_eta
| K_error_message
| K_thumbnail_url
| K_duration.

Definition get_col (c : column) (d : DownloadItem) : value :=
  match c with
  | K_url => url d
  | K_title => title d
  | K_platform => platform d
  | K_format_id => format_id d
  | K_quality => quality d
  | K_file_type => file_type d
  | K_file_path => file_path d
  | K_file_size => file_size d
  | K_progress => progress d
  | K_status => status d
  | K_created_at => created_at d
  | K_completed_at => completed_at d
  | K_speed => speed d
  | K_eta => eta d
  | K_error_message => error_message d
  | K_thumbnail_url => thumbnail_url d
  | K_duration => duration d
  end.

Definition set_col (c : column) (v : value) (d : DownloadItem) : DownloadItem :=
  match c with
  | K_url =>
      {| item_id := item_id d; url := v; title := title d;
         platform := platform d; format_id := format_id d;
         quality := quality d; file_type := file_type d;
         file_path := file_path d; file_size := file_size d;
         progress := progress d; status := status d;
         created_at := created_at d; completed_at := completed_at d;
         speed := speed d; eta := eta d; error_message := error_message d;
         thumbnail_url := thumbnail_url d; duration := duration d |}
  | K_title =>
      {| item_id := item_id d; url := url d; title := v;
         platform := platform d; format_id := format_id d;
         quality := quality d; file_type := file_type d;
         file_path := file_path d; file_size := file_size d;
         progress := progress d; status := status d;
         created_at := created_at d; completed_at := completed_at d;
         speed := speed d; eta := eta d; error_message := error_message d;
         thumbnail_url := thumbnail_url d; duration := duration d |}
  | K_platform =>
      {| item_id := item_id d; url := url d; title := title d; platform := v;
         format_id := format_id d; quality := quality d;
         file_type := file_type d; file_path := file_path d;
         file_size := file_size d; progress := progress d;
         status := status d; created_at := created_at d;
         completed_at := completed_at d; speed := speed d; eta := eta d;
         error_message := error_message d; thumbnail_url := thumbnail_url d;
         duration := duration d |}
  | K_format_id =>
      {| item_id := item_id d; url := url d; title := title d;
         platform := platform d; format_id := v; quality := quality d;
         file_type := file_type d; file_path := file_path d;
         file_size := file_size d; progress := progress d;
         status := status d; created_at := created_at d;
         completed_at := completed_at d; speed := speed d; eta := eta d;
         error_message := error_message d; thumbnail_url := thumbnail_url d;
         duration := duration d |}
  | K_quality =>
      {| item_id := item_id d; url := url d; title := title d;
         platform := platform d; format_id := format_id d; quality := v;
         file_type := file_type d; file_path := file_path d;
         file_size := file_size d; progress := progress d;
         status := status d; created_at := created_at d;
         completed_at := completed_at d; speed := speed d; eta := eta d;
         error_message := error_message d; thumbnail_url := thumbnail_url d;
         duration := duration d |}
  | K_file_type =>
      {| item_id := item_id d; url := url d; title := title d;
         platform := platform d; format_id := format_id d;
         quality := quality d; file_type := v; file_path := file_path d;
         file_size := file_size d; progress := progress d;
         status := status d; created_at := created_at d;
         completed_at := completed_at d; speed := speed d; eta := eta d;
         error_message := error_message d; thumbnail_url := thumbnail_url d;
         duration := duration d |}
  | K_file_path =>
      {| item_id := item_id d; url := url d; title := title d;
         platform := platform d; format_id := format_id d;
         quality := quality d; file_type := file_type d; file_path := v;
         file_size := file_size d; progress := progress d;
         status := status d; created_at := created_at d;
         completed_at := completed_at d; speed := speed d; eta := eta d;
         error_message := error_message d; thumbnail_url := thumbnail_url d;
         duration := duration d |}
  | K_file_size =>
      {| item_id := item_id d; url := url d; title := title d;
         platform := platform d; format_id := format_id d;
         quality := quality d; file_type := file_type d;
         file_path := file_path d; file_size := v; progress := progress d;
         status := status d; created_at := created_at d;
         completed_at := completed_at d; speed := speed d; eta := eta d;
         error_message := error_message d; thumbnail_url := thumbnail_url d;
         duration := duration d |}
  | K_progress =>
      {| item_id := item_id d; url := url d; title := title d;
         platform := platform d; format_id := format_id d;
         quality := quality d; file_type := file_type d;
         file_path := file_path d; file_size := file_size d; progress := v;
         status := status d; created_at := created_at d;
         completed_at := completed_at d; speed := speed d; eta := eta d;
         error_message := error_message d; thumbnail_url := thumbnail_url d;
         duration := duration d |}
  | K_status =>
      {| item_id := item_id d; url := url d; title := title d;
         platform := platform d; format_id := format_id d;
         quality := quality d; file_type := file_type d;
         file_path := file_path d; file_size := file_size d;
         progress := progress d; status := v; created_at := created_at d;
         completed_at := completed_at d; speed := speed d; eta := eta d;
         error_message := error_message d; thumbnail_url := thumbnail_url d;
         duration := duration d |}
  | K_created_at =>
      {| item_id := item_id d; url := url d; title := title d;
         platform := platform d; format_id := format_id d;
         quality := quality d; file_type := file_type d;
         file_path := file_path d; file_size := file_size d;
         progress := progress d; status := status d; created_at := v;
         completed_at := completed_at d; speed := speed d; eta := eta d;
         error_message := error_message d; thumbnail_url := thumbnail_url d;
         duration := duration d |}
  | K_completed_at =>
      {| item_id := item_id d; url := url d; title := title d;
         platform := platform d; format_id := format_id d;
         quality := quality d; file_type := file_type d;
         file_path := file_path d; file_size := file_size d;
         progress := progress d; status := status d;
         created_at := created_at d; completed_at := v; speed := speed d;
         eta := eta d; error_message := error_message d;
         thumbnail_url := thumbnail_url d; duration := duration d |}
  | K_speed =>
      {| item_id := item_id d; url := url d; title := title d;
         platform := platform d; format_id := format_id d;
         quality := quality d; file_type := file_type d;
         file_path := file_path d; file_size := file_size d;
         progress := progress d; status := status d;
         created_at := created_at d; completed_at := completed_at d;
         speed := v; eta := eta d; error_message := error_message d;
         thumbnail_url := thumbnail_url d; duration := duration d |}
  | K_eta =>
      {| item_id := item_id d; url := url d; title := title d;
         platform := platform d; format_id := format_id d;
         quality := quality d; file_type := file_type d;
         file_path := file_path d; file_size := file_size d;
         progress := progress d; status := status d;
         created_at := created_at d; completed_at := completed_at d;
         speed := speed d; eta := v; error_message := error_message d;
         thumbnail_url := thumbnail_url d; duration := duration d |}
  | K_error_message =>
      {| item_id := item_id d; url := url d; title := title d;
         platform := platform d; format_id := format_id d;
         quality := quality d; file_type := file_type d;
         file_path := file_path d; file_size := file_size d;
         progress := progress d; status := status d;
         created_at := created_at d; completed_at := completed_at d;
         speed := speed d; eta := eta d; error_message := v;
         thumbnail_url := thumbnail_url d; duration := duration d |}
  | K_thumbnail_url =>
      {| item_id := item_id d; url := url d; title := title d;
         platform := platform d; format_id := format_id d;
         quality := quality d; file_type := file_type d;
         file_path := file_path d; file_size := file_size d;
         progress := progress d; status := status d;
         created_at := created_at d; completed_at := completed_at d;
         speed := speed d; eta := eta d; error_message := error_message d;
         thumbnail_url := v; duration := duration d |}
  | K_duration =>
      {| item_id := item_id d; url := url d; title := title d;
         platform := platform d; format_id := format_id d;
         quality := quality d; file_type := file_type d;
         file_path := file_path d; file_size := file_size d;
         progress := progress d; status := status d;
         created_at := created_at d; completed_at := completed_at d;
         speed := speed d; eta := eta d; error_message := error_message d;
         thumbnail_url := thumbnail_url d; duration := v |}
  end.

(** The row as [get_download_by_id] rebuilds it: [id=row[0]] is the key. *)
Definition with_id (download_id : Z) (d : DownloadItem) : DownloadItem :=
  {| item_id := Some download_id; url := url d; title := title d;
     platform := platform d; format_id := format_id d; quality := quality d;
     file_type := file_type d; file_path := file_path d;
     file_size := file_size d; progress := progress d; status := status d;
     created_at := created_at d; completed_at := completed_at d;
     speed := speed d; eta := eta d; error_message := error_message d;
     thumbnail_url := thumbnail_url d; duration := duration d |}.

Definition column_eqb (a b : column) : bool :=
  match a, b with
  | K_url, K_url => true
  | K_title, K_title => true
  | K_platform, K_platform => true
  | K_format_id, K_format_id => true
  | K_quality, K_quality => true
  | K_file_type, K_file_type => true
  | K_file_path, K_file_path => true
  | K_file_size, K_file_size => true
  | K_progress, K_progress => true
  | K_status, K_status => true
  | K_created_at, K_created_at => true
  | K_completed_at, K_completed_at => true
  | K_speed, K_speed => true
  | K_eta, K_eta => true
  | K_error_message, K_error_message => true
  | K_thumbnail_url, K_thumbnail_url => true
  | K_duration, K_duration => true
  | _, _ => false
  end.

(** [DownloadItem()] with the defaults of the dataclass. *)
Definition default_item : DownloadItem :=
  {| item_id := None;
     url := VText ""; title := VText ""; platform := VText "";
     format_id := VText ""; quality := VText ""; file_type := VText "";
     file_path := VText ""; file_size := VInt 0; progress := VReal 0;
     status := VText "pending"; created_at := VText "";
     completed_at := VText ""; speed := VText ""; eta := VText "";
     error_message := VText ""; thumbnail_url := VText "";
     duration := VText "" |}.

(** The table with the counter that AUTOINCREMENT keeps in sqlite_sequence. *)
Record database := {
  rows : gmap Z DownloadItem;
  last_rowid : Z
}.

Definition empty_db : database := {| rows := ∅; last_rowid := 0 |}.

Definition max_key (m : gmap Z DownloadItem) : Z :=
  map_fold (fun k _ acc => Z.max k acc) 0%Z m.

(** [add_download] (lines 112-130): thirteen columns are inserted, the
    other four ([completed_at], [speed], [eta], [error_message]) are NULL. *)
Definition add_download (item : DownloadItem) (d : database) : Z * database :=
  let download_id := (Z.max (last_rowid d) (max_key (rows d)) + 1)%Z in
  let row :=
    {| item_id := Some download_id;
       url := url item; title := title item; platform := platform item;
       format_id := format_id item; quality := quality item;
       file_type := file_type item; file_path := file_path item;
       file_size := file_size item; progress := progress item;
       status := status item; created_at := created_at item;
       completed_at := VNull; speed := VNull; eta := VNull;
       error_message := VNull; thumbnail_url := thumbnail_url item;
       duration := duration item |} in
  (download_id,
   {| rows := <[download_id := row]> (rows d); last_rowid := download_id |}).

(** The SET clause: the assignments in the order of the keywords. *)
Definition assign (kwargs : list (column * value)) (d : DownloadItem)
  : DownloadItem :=
  fold_left (fun r kv => set_col (fst kv) (snd kv) r) kwargs d.

(** [update_download] (lines 132-141).  With no keyword the statement is
    [UPDATE downloads SET  WHERE id = ?], which SQLite rejects; with some,
    the row with that key, if there is one, gets the assignments. *)
Definition update_download (download_id : Z) (kwargs : list (column * value))
           (d : database) : outcome database :=
  match kwargs with
  | [] =>
      Raise {| exn_class := "sqlite3.OperationalError";
               exn_str := "near WHERE: syntax error" |}
  | _ :: _ =>
      Ret {| rows := alter (assign kwargs) download_id (rows d);
             last_rowid := last_rowid d |}
  end.

(** [get_download_by_id] (lines 169-186) *)
Definition get_download_by_id (download_id : Z) (d : database)
  : option DownloadItem :=
  match rows d !! download_id with
  | Some row => Some (with_id download_id row)
  | None => None
  end.

(** [delete_download] (lines 188-193) *)
Definition delete_download (download_id : Z) (d : database) : database :=
  {| rows := delete download_id (rows d); last_rowid := last_rowid d |}.

End Store.

(* ===================================================================== *)
(** ** Clock: [datetime.now().isoformat()]                                *)
(* ===================================================================== *)

Module Clock.

Record datetime := {
  year : Z; month : Z; day : Z;
  hour : Z; minute : Z; second : Z; microsecond : Z
}.

Definition digit_char (d : Z) : ascii := ascii_of_N (48 + Z.to_N (d mod 10)).

(** The [width] low decimal digits of [n], most significant first. *)
Fixpoint pad (width : nat) (n : Z) (tail : string) : string :=
  match width with
  | O => tail
  | S w => pad w (n / 10) (String (digit_char n) tail)
  end.

(** YYYY-MM-DDTHH:MM:SS, followed by .ffffff unless the microsecond is 0. *)
Definition isoformat (t : datetime) : string :=
  pad 4 (year t)
    (String "-" (pad 2 (month t)
    (String "-" (pad 2 (day t)
    (String "T" (pad 2 (hour t)
    (String ":" (pad 2 (minute t)
    (String ":" (pad 2 (second t)
    (if (microsecond t =? 0)%Z then EmptyString
     else String "." (pad 6 (microsecond t) EmptyString)))))))))))).

End Clock.

(* ===================================================================== *)
(** ** Manager: [YTDLPManager] and its worker threads                     *)
(* ===================================================================== *)

Module Manager.
Import Py Store Clock.

Inductive signal : Type := SIGSTOP | SIGCONT | SIGTERM.

(** Where a thread running [download_worker] stands.  A [Popen] object is
    known by its handle, the index of its command in [spawned]. *)
Inductive pc : Type :=
| AtStart                           (* about to run line 266 *)
| AtSpawn                           (* about to run lines 269-291 *)
| AtRegister (process : nat)        (* about to run line 293 *)
| AtRead (process : nat)            (* at the head of the loop, line 297 *)
| AtFinal (process : nat) (returncode : Z)   (* about to run line 305 *)
| AtExcept (e : exn)                (* in the handler, about to run line 320 *)
| AtFinally (uncaught : option exn) (* about to run lines 328-334 *)
| Done (uncaught : option exn).     (* returned, or died of [uncaught] *)

(** A thread of [download_worker]: the variables its closure captured
    and its position. *)
Record worker := {
  w_download_id : Z;
  w_url : value;
  w_format_id : value;
  w_output_path : value;
  w_callback : option nat;
  w_pc : pc
}.

(** What the world outside answers to the statement a worker runs next. *)
Record oracle := {
  fault : option exn;   (* the exception [Popen] or [readline] raises *)
  output : string;      (* what [readline] returns *)
  poll : option Z;      (* what [process.poll()] returns *)
  now : datetime        (* what [datetime.now()] returns *)
}.

(** The manager object, its threads, and what it did to the outside. *)
Record system := {
  db : database;
  active_downloads : gmap Z nat;
  download_threads : gmap Z nat;
  max_concurrent : Z;
  max_speed : string;
  workers : list worker;
  spawned : list (list value);        (* the command of each [Popen] *)
  signals : list (nat * signal);      (* signals sent, oldest first *)
  notified : list (nat * Z)           (* calls of progress callbacks *)
}.

Definition set_db (d : database) (s : system) : system :=
  {| db := d; active_downloads := active_downloads s;
     download_threads := download_threads s;
     max_concurrent := max_concurrent s; max_speed := max_speed s;
     workers := workers s; spawned := spawned s; signals := signals s;
     notified := notified s |}.

Definition set_active (a : gmap Z nat) (s : system) : system :=
  {| db := db s; active_downloads := a;
     download_threads := download_threads s;
     max_concurrent := max_concurrent s; max_speed := max_speed s;
     workers := workers s; spawned := spawned s; signals := signals s;
     notified := notified s |}.

Definition set_threads (t : gmap Z nat) (s : system) : system :=
  {| db := db s; active_downloads := active_downloads s;
     download_threads := t;
     max_concurrent := max_concurrent s; max_speed := max_speed s;
     workers := workers s; spawned := spawned s; signals := signals s;
     notified := notified s |}.

Definition set_workers (w : list worker) (s : system) : system :=
  {| db := db s; active_downloads := active_downloads s;
     download_threads := download_threads s;
     max_concurrent := max_concurrent s; max_speed := max_speed s;
     workers := w; spawned := spawned s; signals := signals s;
     notified := notified s |}.

Definition set_spawned (c : list (list value)) (s : system) : system :=
  {| db := db s; active_downloads := active_downloads s;
     download_threads := download_threads s;
     max_concurrent := max_concurrent s; max_speed := max_speed s;
     workers := workers s; spawned := c; signals := signals s;
     notified := notified s |}.

Definition set_signals (g : list (nat * signal)) (s : system) : system :=
  {| db := db s; active_downloads := active_downloads s;
     download_threads := download_threads s;
     max_concurrent := max_concurrent s; max_speed := max_speed s;
     workers := workers s; spawned := spawned s; signals := g;
     notified := notified s |}.

Definition set_notified (n : list (nat * Z)) (s : system) : system :=
  {| db := db s; active_downloads := active_downloads s;
     download_threads := download_threads s;
     max_concurrent := max_concurrent s; max_speed := max_speed s;
     workers := workers s; spawned := spawned s; signals := signals s;
     notified := n |}.

(** [YTDLPManager(db_manager)] with the two settings already read. *)
Definition new_manager (d : database) (limit : Z) (speed_cap : string)
  : system :=
  {| db := d; active_downloads := ∅; download_threads := ∅;
     max_concurrent := limit; max_speed := speed_cap;
     workers := []; spawned := []; signals := []; notified := [] |}.

(** [self.db_manager.update_download(download_id, **kwargs)] *)
Definition db_update (download_id : Z) (kwargs : list (column * value))
           (s : system) : outcome unit * system :=
  match update_download download_id kwargs (db s) with
  | Ret d => (Ret tt, set_db d s)
  | Raise e => (Raise e, s)
  end.

(** [if progress_callback: progress_callback(download_id)] *)
Definition call_back (cb : option nat) (download_id : Z) (s : system)
  : system :=
  match cb with
  | Some f => set_notified (notified s ++ [(f, download_id)]) s
  | None => s
  end.

(** [m.group(1) if m else ''] as the value bound to a keyword. *)
Definition group_or_empty (m : option Regex.match_obj) : value :=
  match m with
  | Some mo =>
      match Regex.m_group1 mo with
      | Some g => VText g
      | None => VNull
      end
  | None => VText ""
  end.

(** Lines 348-360 of [parse_progress], before the store is touched: the
    keywords of the update of line 363, or [None] when there is no update. *)
Definition parse_line (output : string)
  : outcome (option (list (column * value))) :=
  if Text.contains "[download]" output then
    match Regex.search Patterns.percent_re output with
    | Some percent_match =>
        match Regex.m_group1 percent_match with
        | Some g =>
            match Patterns.float g with
            | Some p =>
                Ret (Some
                  [ (K_progress, VReal p);
                    (K_speed,
                     group_or_empty (Regex.search Patterns.speed_re output));
                    (K_eta,
                     group_or_empty (Regex.search Patterns.eta_re output)) ])
            | None =>
                Raise {| exn_class := "ValueError";
                         exn_str := "could not convert string to float" |}
            end
        | None =>
            Raise {| exn_class := "TypeError";
                     exn_str := "float() argument must be a string" |}
        end
    | None => Ret None
    end
  else Ret None.

(** The body of the [try] of [parse_progress]. *)
Definition parse_progress_body (download_id : Z) (output : string)
           (cb : option nat) (s : system) : outcome unit * system :=
  match parse_line output with
  | Ret (Some kwargs) =>
      match db_update download_id kwargs s with
      | (Ret _, s1) => (Ret tt, call_back cb download_id s1)
      | (Raise e, s1) => (Raise e, s1)
      end
  | Ret None => (Ret tt, s)
  | Raise e => (Raise e, s)
  end.

(** [parse_progress] (lines 344-374): [except Exception: pass] turns either
    end of the body into a normal return. *)
Definition parse_progress (download_id : Z) (output : string)
           (cb : option nat) (s : system) : outcome unit * system :=
  match parse_progress_body download_id output cb s with
  | (Ret _, s1) => (Ret tt, s1)
  | (Raise _, s1) => (Ret tt, s1)
  end.

(** Lines 269-281: the command line. *)
Definition build_cmd (speed_cap : string) (url format_id output_path : value)
  : list value :=
  [VText "yt-dlp"; VText "-f"; format_id; VText "-o"; output_path;
   VText "--newline"; VText "--no-playlist"]
  ++ (if String.eqb speed_cap "0" then []
      else [VText "--limit-rate"; VText (speed_cap ++ "K")])
  ++ [url].

(** The thread [w] moved to [p]. *)
Definition at_pc (w : worker) (p : pc) : worker :=
  {| w_download_id := w_download_id w; w_url := w_url w;
     w_format_id := w_format_id w; w_output_path := w_output_path w;
     w_callback := w_callback w; w_pc := p |}.

Definition set_pc (tid : nat) (w : worker) (p : pc) (s : system) : system :=
  set_workers (<[tid := at_pc w p]> (workers s)) s.

(** After a store update inside the [try]: go on, or enter the handler. *)
Definition continue_or_except (tid : nat) (w : worker) (next : pc)
           (r : outcome unit * system) : system :=
  match r with
  | (Ret _, s1) => set_pc tid w next s1
  | (Raise e, s1) => set_pc tid w (AtExcept e) s1
  end.

(** One statement of [download_worker] (lines 264-334) run by thread [tid]. *)
Definition worker_step (tid : nat) (o : oracle) (s : system) : system :=
  match workers s !! tid with
  | None => s
  | Some w =>
      let download_id := w_download_id w in
      match w_pc w with
      | AtStart =>
          continue_or_except tid w AtSpawn
            (db_update download_id [(K_status, VText "downloading")] s)
      | AtSpawn =>
          match fault o with
          | Some e => set_pc tid w (AtExcept e) s
          | None =>
              let cmd := build_cmd (max_speed s) (w_url w) (w_format_id w)
                                   (w_output_path w) in
              set_pc tid w (AtRegister (length (spawned s)))
                     (set_spawned (spawned s ++ [cmd]) s)
          end
      | AtRegister process =>
          set_pc tid w (AtRead process)
                 (set_active (<[download_id := process]> (active_downloads s)) s)
      | AtRead process =>
          match fault o with
          | Some e => set_pc tid w (AtExcept e) s
          | None =>
              if String.eqb (output o) "" then
                match poll o with
                | Some returncode => set_pc tid w (AtFinal process returncode) s
                | None => s
                end
              else
                snd (parse_progress download_id (Text.strip (output o))
                                    (w_callback w) s)
          end
      | AtFinal process returncode =>
          if (returncode =? 0)%Z then
            continue_or_except tid w (AtFinally None)
              (db_update download_id
                 [(K_status, VText "completed");
                  (K_progress, VReal 100);
                  (K_completed_at, VText (isoformat (now o)))] s)
          else
            continue_or_except tid w (AtFinally None)
              (db_update download_id
                 [(K_status, VText "failed");
                  (K_error_message, VText "Download failed")] s)
      | AtExcept e =>
          match db_update download_id
                  [(K_status, VText "failed");
                   (K_error_message, VText (exn_str e))] s with
          | (Ret _, s1) => set_pc tid w (AtFinally None) s1
          | (Raise e', s1) => set_pc tid w (AtFinally (Some e')) s1
          end
      | AtFinally uncaught =>
          let s1 := set_active (delete download_id (active_downloads s)) s in
          let s2 := set_threads (delete download_id (download_threads s1)) s1 in
          set_pc tid w (Done uncaught) (call_back (w_callback w) download_id s2)
      | Done _ => s
      end
  end.

(** [start_download] (lines 258-342): the admission test, then the thread. *)
Definition start_download (download_id : Z) (url format_id output_path : value)
           (progress_callback : option nat) (s : system) : bool * system :=
  if (max_concurrent s <=? Z.of_nat (size (active_downloads s)))%Z then
    (false, s)
  else
    let thread := length (workers s) in
    let w := {| w_download_id := download_id; w_url := url;
                w_format_id := format_id; w_output_path := output_path;
                w_callback := progress_callback; w_pc := AtStart |} in
    (true,
     set_workers (workers s ++ [w])
       (set_threads (<[download_id := thread]> (download_threads s)) s)).

(** The body shared by [pause_download], [resume_download] and
    [cancel_download] (lines 376-404): signal the registered process and
    write the status.  [sent] tells whether [send_signal] or [terminate]
    returned; when it raised, the bare [except] skips the write. *)
Definition signal_and_mark (sig : signal) (new_status : string)
           (download_id : Z) (sent : bool) (s : system)
  : outcome unit * system :=
  match active_downloads s !! download_id with
  | Some process =>
      if sent then
        (Ret tt,
         snd (db_update download_id [(K_status, VText new_status)]
                (set_signals (signals s ++ [(process, sig)]) s)))
      else (Ret tt, s)
  | None => (Ret tt, s)
  end.

Definition pause_download : Z -> bool -> system -> outcome unit * system :=
  signal_and_mark SIGSTOP "paused".

Definition resume_download : Z -> bool -> system -> outcome unit * system :=
  signal_and_mark SIGCONT "downloading".

Definition cancel_download : Z -> bool -> system -> outcome unit * system :=
  signal_and_mark SIGTERM "cancelled".

(** [retry_download] (lines 406-416); the result of the start is dropped. *)
Definition retry_download (download_id : Z) (progress_callback : option nat)
           (s : system) : system :=
  match get_download_by_id download_id (db s) with
  | Some download =>
      snd (start_download download_id (url download) (format_id download)
             (file_path download) progress_callback s)
  | None => s
  end.

(** What can happen next: a call of the manager, or a step of a thread. *)
Inductive action : Type :=
| Start (download_id : Z) (url format_id output_path : value)
        (progress_callback : option nat)
| Pause (download_id : Z) (sent : bool)
| Resume (download_id : Z) (sent : bool)
| Cancel (download_id : Z) (sent : bool)
| Retry (download_id : Z) (progress_callback : option nat)
| Work (tid : nat) (o : oracle).

Definition step (a : action) (s : system) : system :=
  match a with
  | Start i u f p cb => snd (start_download i u f p cb s)
  | Pause i ok => snd (pause_download i ok s)
  | Resume i ok => snd (resume_download i ok s)
  | Cancel i ok => snd (cancel_download i ok s)
  | Retry i cb => retry_download i cb s
  | Work tid o => worker_step tid o s
  end.

Definition run (trace : list action) (s : system) : system :=
  fold_left (fun acc a => step a acc) trace s.

(** The states a run passes through, the first one included. *)
Fixpoint history (trace : list action) (s : system) : list system :=
  s :: match trace with
       | [] => []
       | a :: rest => history rest (step a s)
       end.

(** Observations on the store. *)
Definition column_of (c : column) (download_id : Z) (s : system)
  : option value :=
  match rows (db s) !! download_id with
  | Some row => Some (get_col c row)
  | None => None
  end.

Definition has_status (st : string) (d : DownloadItem) : bool :=
  match status d with
  | VText t => String.eqb t st
  | _ => false
  end.

(** The number of jobs whose stored status is [st]. *)
Definition count_status (st : string) (s : system) : nat :=
  length (List.filter (fun kv => has_status st (snd kv))
                      (map_to_list (rows (db s)))).

End Manager.

(* ===================================================================== *)
(** ** Spec: the notions the specification speaks in                      *)
(* ===================================================================== *)

Module Spec.
Import Py Store Clock Manager.

(** A numeric value: digits, then possibly a dot and possibly more digits. *)
Definition numeric (g : string) : bool :=
  match Patterns.split_dot g with
  | (a, None) => negb (String.eqb a "") && Text.all Text.isdigit a
  | (a, Some b) =>
      negb (String.eqb a "") && Text.all Text.isdigit a
      && Text.all Text.isdigit b
  end.

(** A percentage token: the numeric value [g] stands at offset [i] of the
    line and the percent sign follows it immediately. *)
Definition percent_token_at (line : string) (i : nat) (g : string) : bool :=
  numeric g && Text.startswith (g ++ "%") (Text.drop i line).

Definition not_percent (c : ascii) : bool := negb (Ascii.eqb c "%").






(** The value the keywords bind to column [c]: the rightmost binding. *)
Fixpoint supplied (c : column) (kwargs : list (column * value))
  : option value :=
  match kwargs with
  | [] => None
  | kv :: rest =>
      match supplied c rest with
      | Some v => Some v
      | None => if column_eqb (fst kv) c then Some (snd kv) else None
      end
  end.

(** [completed_at] holds a timestamp. *)
Definition completed_at_set (d : DownloadItem) : bool :=
  match completed_at d with
  | VText t => negb (String.eqb t "")
  | _ => false
  end.

(** Every job marked completed carries its completion timestamp. *)
Definition completed_are_stamped (s : system) : Prop :=
  forall download_id row,
    rows (db s) !! download_id = Some row ->
    has_status "completed" row = true -> completed_at_set row = true.

(** A worker that was admitted and has not yet registered its process. *)
Definition launching (w : worker) : bool :=
  match w_pc w with
  | AtStart | AtSpawn | AtRegister _ => true
  | _ => false
  end.

Definition launching_count (s : system) : nat :=
  length (List.filter launching (workers s)).

(** Registered processes and admitted threads short of registering. *)
Definition occupied (s : system) : nat :=
  (size (active_downloads s) + launching_count s)%nat.

(** Every start and retry of the trace is made while no admitted worker is
    still short of registering its process. *)
Fixpoint starts_are_serialised (trace : list action) (s : system) : bool :=
  match trace with
  | [] => true
  | a :: rest =>
      match a with
      | Start _ _ _ _ _ | Retry _ _ => (launching_count s =? 0)%nat
      | _ => true
      end
      && starts_are_serialised rest (step a s)
  end.

(** The exception a thread died of, if it did. *)
Definition uncaught_of (p : pc) : option exn :=
  match p with
  | AtFinally u | Done u => u
  | _ => None
  end.

(** No thread carries an exception out of [download_worker]. *)
Definition nothing_propagates (s : system) : Prop :=
  forall tid w, workers s !! tid = Some w -> uncaught_of (w_pc w) = None.

Definition pc_of (tid : nat) (s : system) : option pc :=
  match workers s !! tid with
  | Some w => Some (w_pc w)
  | None => None
  end.

(** The control flow of [download_worker]: from where to where one step
    of a thread can take it. *)
Inductive follows : pc -> pc -> Prop :=
| follows_start : follows AtStart AtSpawn
| follows_start_raise e : follows AtStart (AtExcept e)
| follows_spawn process : follows AtSpawn (AtRegister process)
| follows_spawn_raise e : follows AtSpawn (AtExcept e)
| follows_register process : follows (AtRegister process) (AtRead process)
| follows_read process : follows (AtRead process) (AtRead process)
| follows_read_end process rc : follows (AtRead process) (AtFinal process rc)
| follows_read_raise process e : follows (AtRead process) (AtExcept e)
| follows_final process rc : follows (AtFinal process rc) (AtFinally None)
| follows_final_raise process rc e : follows (AtFinal process rc) (AtExcept e)
| follows_except e : follows (AtExcept e) (AtFinally None)
| follows_finally u : follows (AtFinally u) (Done u)
| follows_done u : follows (Done u) (Done u).

(** The keyword lists that the manager and its workers pass to
    [update_download]: lines 266, 382, 392 and 402; 306; 313 and 320; 363. *)
Inductive written : list (column * value) -> Prop :=
| written_status (st : string) :
    st <> "completed" -> written [(K_status, VText st)]
| written_completed (t : datetime) :
    written [(K_status, VText "completed"); (K_progress, VReal 100);
             (K_completed_at, VText (isoformat t))]
| written_failed (msg : string) :
    written [(K_status, VText "failed"); (K_error_message, VText msg)]
| written_progress (p : Q) (sp e : value) :
    written [(K_progress, VReal p); (K_speed, sp); (K_eta, e)].

(** The store [d'] is [d], or [d] after one such update. *)
Definition db_written (d d' : database) : Prop :=
  d' = d
  \/ exists download_id kwargs,
      written kwargs
      /\ d' = {| rows := alter (assign kwargs) download_id (rows d);
                 last_rowid := last_rowid d |}.

End Spec.

(* ===================================================================== *)
(** ** Fixtures: the concrete jobs, answers and runs of the examples      *)
(* ===================================================================== *)

Module Fixtures.
Import Py Store Clock Manager.

Definition item (u : string) : DownloadItem :=
  set_col K_file_path (VText "/home/u/Downloads/clip.%(ext)s")
    (set_col K_format_id (VText "22") (set_col K_url (VText u) default_item)).

(** Two jobs as the interface creates them: pending, ids 1 and 2. *)
Definition two_jobs : database :=
  snd (add_download (item "https://youtu.be/b")
         (snd (add_download (item "https://youtu.be/a") empty_db))).

(** A manager over them that admits one download at a time. *)
Definition limit_one : system := new_manager two_jobs 1 "0".

(** The same store under the default limit of three. *)
Definition limit_three : system := new_manager two_jobs 3 "0".

Definition noon : datetime :=
  {| year := 2024; month := 3; day := 7;
     hour := 12; minute := 0; second := 5; microsecond := 0 |}.

(** The statement runs and nothing is read. *)
Definition proceed : oracle :=
  {| fault := None; output := ""; poll := None; now := noon |}.

Definition newline : string := String (ascii_of_nat 10) EmptyString.

(** [readline] returns the line [l], its newline included. *)
Definition reads (l : string) : oracle :=
  {| fault := None; output := l ++ newline; poll := None; now := noon |}.

(** End of stream, the process having exited with [rc]. *)
Definition exited (rc : Z) : oracle :=
  {| fault := None; output := ""; poll := Some rc; now := noon |}.

(** The pending call raises [e]. *)
Definition raises (e : exn) : oracle :=
  {| fault := Some e; output := ""; poll := None; now := noon |}.

Definition no_such_file : exn :=
  {| exn_class := "FileNotFoundError";
     exn_str := "[Errno 2] No such file or directory: 'yt-dlp'" |}.

(** [MemoryError()], whose [str] is empty. *)
Definition out_of_memory : exn :=
  {| exn_class := "MemoryError"; exn_str := "" |}.

Definition start_job (download_id : Z) (u : string) : action :=
  Start download_id (VText u) (VText "22")
        (VText "/home/u/Downloads/clip.%(ext)s") (Some 0%nat).

(** The store a session leaves behind when it is killed while job 1 is
    downloading, and a manager of limit one created over it. *)
Definition left_downloading : database :=
  match update_download 1 [(K_status, VText "downloading")] two_jobs with
  | Ret d => d
  | Raise _ => two_jobs
  end.

Definition next_session : system := new_manager left_downloading 1 "0".

(** Job 1 admitted, its thread past line 293 and reading. *)
Definition job1_reading : system :=
  run [start_job 1 "https://youtu.be/a";
       Work 0 proceed; Work 0 proceed; Work 0 proceed] limit_three.

End Fixtures.

(* ===================================================================== *)
(** ** Paths: the [str] and [os.path] functions the interface uses        *)
(* ===================================================================== *)

Module Paths.

(** [s.endswith(suffix)] *)
Fixpoint endswith (suffix s : string) : bool :=
  String.eqb suffix s
  || match s with
     | String _ s' => endswith suffix s'
     | EmptyString => false
     end.

(** [s.split(sep)] for a separator of one character; never the empty list. *)
Fixpoint split (sep : ascii) (s : string) : list string :=
  match s with
  | EmptyString => [EmptyString]
  | String c s' =>
      if Ascii.eqb c sep then EmptyString :: split sep s'
      else
        match split sep s' with
        | h :: t => String c h :: t
        | [] => [String c EmptyString]
        end
  end.

(** [os.path.join(a, b)] of [posixpath]. *)
Definition join (a b : string) : string :=
  if Text.startswith "/" b then b
  else if String.eqb a "" || endswith "/" a then a ++ b
  else a ++ "/" ++ b.

End Paths.

(* ===================================================================== *)
(** ** Settings: the [settings] table of [DatabaseManager]                *)
(* ===================================================================== *)

Module Settings.

(** The defaults of [init_database] (lines 95-104), in their order;
    [download_dir] is [str(Path.home() / 'Downloads')]. *)
Definition default_settings (download_dir : string) : list (string * string) :=
  [ ("download_path", download_dir);
    ("preferred_quality", "best");
    ("preferred_format", "mp4");
    ("max_concurrent_downloads", "3");
    ("max_download_speed", "0");
    ("auto_filename", "true");
    ("remember_preferences", "true");
    ("clipboard_monitoring", "true") ].

(** [INSERT OR IGNORE INTO settings (key, value) VALUES (?, ?)] *)
Definition insert_or_ignore (key value : string) (t : gmap string string)
  : gmap string string :=
  match t !! key with
  | Some _ => t
  | None => <[key := value]> t
  end.

(** What [init_database] (lines 58-110) does to the settings table. *)
Definition init_settings (download_dir : string) (t : gmap string string)
  : gmap string string :=
  fold_left (fun acc kv => insert_or_ignore (fst kv) (snd kv) acc)
            (default_settings download_dir) t.

(** The value of the first pair of [l] with key [key]. *)
Fixpoint first_value (key : string) (l : list (string * string))
  : option string :=
  match l with
  | [] => None
  | kv :: rest =>
      if String.eqb (fst kv) key then Some (snd kv) else first_value key rest
  end.

(** [get_setting] (lines 195-201) *)
Definition get_setting (key : string) (t : gmap string string) : string :=
  match t !! key with
  | Some v => v
  | None => ""
  end.

(** [set_setting] (lines 203-208): INSERT OR REPLACE. *)
Definition set_setting (key value : string) (t : gmap string string)
  : gmap string string :=
  <[key := value]> t.

End Settings.

(* ===================================================================== *)
(** ** StoreOps: sequences of calls of the store                          *)
(* ===================================================================== *)

Module StoreOps.
Import Py Store.

Inductive store_op : Type :=
| Add (item : DownloadItem)
| Update (download_id : Z) (kwargs : list (column * value))
| Delete (download_id : Z).

(** The largest row id the table has ever held. *)
Definition high_water (d : database) : Z :=
  Z.max (last_rowid d) (max_key (rows d)).

(** One call; a raising [update_download] leaves the store as it was. *)
Definition apply_op (op : store_op) (d : database) : option Z * database :=
  match op with
  | Add item => let r := add_download item d in (Some (fst r), snd r)
  | Update i kwargs =>
      match update_download i kwargs d with
      | Ret d' => (None, d')
      | Raise _ => (None, d)
      end
  | Delete i => (None, delete_download i d)
  end.

(** The ids that the calls of [add_download] return, in order. *)
Fixpoint added_ids (ops : list store_op) (d : database) : list Z :=
  match ops with
  | [] => []
  | op :: rest =>
      match apply_op op d with
      | (Some i, d') => i :: added_ids rest d'
      | (None, d') => added_ids rest d'
      end
  end.

(** Every id of the table is at most the counter, as it is in a table that
    only AUTOINCREMENT has filled. *)
Definition counter_covers (d : database) : Prop :=
  forall k, is_Some (rows d !! k) -> (k <= last_rowid d)%Z.

Fixpoint apply_ops (ops : list store_op) (d : database) : database :=
  match ops with
  | [] => d
  | op :: rest => apply_ops rest (snd (apply_op op d))
  end.

End StoreOps.

(* ===================================================================== *)
(** ** Interface: the parts of [SnapTubeApp] that decide and compute      *)
(* ===================================================================== *)

Module Interface.
Import Py Store Clock Manager.

Definition double_quote : ascii := ascii_of_nat 34.
Definition backslash : ascii := ascii_of_nat 92.

(** The character class of the pattern of line 890: the nine characters
    less-than, greater-than, colon, double quote, slash, backslash, bar,
    question mark and star. *)
Definition forbidden (c : ascii) : bool :=
  existsb (Ascii.eqb c)
          ["<"%char; ">"%char; ":"%char; double_quote; "/"%char; backslash;
           "|"%char; "?"%char; "*"%char].

Definition allowed (c : ascii) : bool := negb (forbidden c).
Definition not_slash (c : ascii) : bool := negb (Ascii.eqb c "/").

(** [re.sub(pattern, '_', title)] (line 890) *)
Fixpoint safe_title (title : string) : string :=
  match title with
  | EmptyString => EmptyString
  | String c rest =>
      String (if forbidden c then "_"%char else c) (safe_title rest)
  end.

(** Lines 891-892: the output template handed to the downloader. *)
Definition full_path (download_path title : string) : string :=
  Paths.join download_path (safe_title title ++ ".%(ext)s").

(** Line 901: [format_id.split('-')[-1] if '-' in format_id else "mp4"] *)
Definition file_type_of (format_id : string) : string :=
  if Text.contains "-" format_id
  then List.last (Paths.split "-" format_id) EmptyString
  else "mp4".

(** What [get_video_info] is asked for, each with its default applied
    ([info.get('title', 'Unknown')] and so on, lines 883-886). *)
Record video_info := {
  v_title : string;
  v_platform : string;
  v_duration : string;
  v_thumbnail : string
}.

(** Lines 895-907 *)
Definition new_item (url format_id quality path : string) (info : video_info)
           (now : datetime) : DownloadItem :=
  {| item_id := None;
     url := VText url; title := VText (v_title info);
     platform := VText (v_platform info); format_id := VText format_id;
     quality := VText quality; file_type := VText (file_type_of format_id);
     file_path := VText path; file_size := VInt 0; progress := VReal 0;
     status := VText "pending"; created_at := VText (isoformat now);
     completed_at := VText ""; speed := VText ""; eta := VText "";
     error_message := VText ""; thumbnail_url := VText (v_thumbnail info);
     duration := VText (v_duration info) |}.

(** [SnapTubeApp.start_download] (lines 874-936) without its widgets:
    [url_value] and [format_value] are what the two inputs hold, [quality]
    the text of the first option of the dropdown, [download_path] the
    setting read at line 889 and [observer] the callback
    [on_download_progress].  The result is [None] when the handler returns
    at line 879, and the result of the manager otherwise. *)
Definition submit (url_value : string) (format_value : option string)
           (info : video_info) (quality download_path : string)
           (now : datetime) (observer : nat) (s : system)
  : option bool * system :=
  let url := Text.strip url_value in
  match format_value with
  | None => (None, s)
  | Some format_id =>
      if String.eqb url "" || String.eqb format_id "" then (None, s)
      else
        let path := full_path download_path (v_title info) in
        let added :=
          add_download (new_item url format_id quality path info now) (db s) in
        let started :=
          start_download (fst added) (VText url) (VText format_id)
                         (VText path) (Some observer)
                         (set_db (snd added) s) in
        (Some (fst started), snd started)
  end.

Inductive button : Type :=
| Pause_button
| Cancel_button
| Resume_button
| Retry_button
| Open_file
| Open_folder
| Download_again
| Delete_from_history.

(** The action buttons of [create_download_item] (lines 1021-1086). *)
Definition action_buttons (download : DownloadItem)
           (show_actions show_history : bool) : list button :=
  (if show_actions then
     if has_status "downloading" download then [Pause_button; Cancel_button]
     else if has_status "paused" download then [Resume_button; Cancel_button]
     else if has_status "failed" download then [Retry_button]
     else []
   else [])
  ++ (if has_status "completed" download then [Open_file; Open_folder]
      else [])
  ++ (if show_history then [Download_again; Delete_from_history] else []).

(** The filter of [refresh_downloading_list] (line 945). *)
Definition listed_as_active (download : DownloadItem) : bool :=
  has_status "pending" download || has_status "downloading" download
  || has_status "paused" download.

(** The buttons a row gets in the Downloading tab (lines 942-952), in the
    Downloaded tab (lines 954-963) and in the History tab (lines 965-991);
    [None] when the tab does not list the row. *)
Definition downloading_tab (download : DownloadItem) : option (list button) :=
  if listed_as_active download
  then Some (action_buttons download true false)
  else None.

Definition downloaded_tab (download : DownloadItem) : option (list button) :=
  if has_status "completed" download
  then Some (action_buttons download false false)
  else None.

Definition history_tab (download : DownloadItem) : option (list button) :=
  Some (action_buttons download false true).

End Interface.

(* ===================================================================== *)
(** ** Clipboard: [ClipboardMonitor]                                      *)
(* ===================================================================== *)

Module Clipboard.
Import Py.

(** Lines 450-453 *)
Definition video_domains : list string :=
  ["youtube.com"; "youtu.be"; "vimeo.com"; "dailymotion.com";
   "twitch.tv"; "facebook.com"; "instagram.com"; "tiktok.com"].

(** [any(domain in parsed.netloc for domain in video_domains)] *)
Definition is_video_netloc (netloc : string) : bool :=
  existsb (fun domain => Text.contains domain netloc) video_domains.

(** The monitor: its [last_clipboard] and the calls of its callback. *)
Record monitor := {
  last_clipboard : string;
  detected : list string
}.

Section Monitor.

(** [urlparse(text).netloc], or the exception [urlparse] raises. *)
Variable netloc_of : string -> outcome string.

(** [_is_video_url] (lines 448-459) *)
Definition is_video_url (text : string) : bool :=
  match netloc_of text with
  | Ret netloc => is_video_netloc netloc
  | Raise _ => false
  end.

(** One turn of [_monitor_loop] (lines 436-446); [paste] is what
    [pyperclip.paste()] returns or raises. *)
Definition monitor_turn (paste : outcome string) (m : monitor) : monitor :=
  match paste with
  | Raise _ => m
  | Ret current =>
      if String.eqb current (last_clipboard m) then m
      else if is_video_url current then
        {| last_clipboard := current; detected := detected m ++ [current] |}
      else {| last_clipboard := current; detected := detected m |}
  end.

Definition monitor_run (pastes : list (outcome string)) (m : monitor)
  : monitor :=
  fold_left (fun acc p => monitor_turn p acc) pastes m.

End Monitor.

End Clipboard.

(* ===================================================================== *)
(** ** Coverage: notions for the properties of whole runs                 *)
(* ===================================================================== *)

Module Coverage.
Import Py Store Clock Manager.

(** The job an action is about. *)
Definition job_of (a : action) (s : system) : option Z :=
  match a with
  | Start i _ _ _ _ | Pause i _ | Resume i _ | Cancel i _ | Retry i _ => Some i
  | Work tid _ =>
      match workers s !! tid with
      | Some w => Some (w_download_id w)
      | None => None
      end
  end.

Definition finished (w : worker) : bool :=
  match w_pc w with
  | Done _ => true
  | _ => false
  end.

(** Some thread of job [i] has not returned yet. *)
Definition has_live_thread (i : Z) (s : system) : Prop :=
  exists tid w,
    workers s !! tid = Some w /\ w_download_id w = i /\ finished w = false.

(** The [Popen] object a thread holds in its variable [process]. *)
Definition handle_of (p : pc) : option nat :=
  match p with
  | AtRegister h | AtRead h | AtFinal h _ => Some h
  | _ => None
  end.

(** Every registered process was spawned and belongs to a job with a
    thread that has not returned; every process a thread holds was
    spawned, and so was every process that was sent a signal. *)
Definition registry_is_sound (s : system) : Prop :=
  (forall i h,
      active_downloads s !! i = Some h ->
      (h < length (spawned s))%nat /\ has_live_thread i s)
  /\ (forall tid w h,
         workers s !! tid = Some w ->
         handle_of (w_pc w) = Some h -> (h < length (spawned s))%nat)
  /\ Forall (fun sent => (fst sent < length (spawned s))%nat) (signals s).

(** The columns the manager and its workers write. *)
Definition volatile (c : column) : bool :=
  match c with
  | K_status | K_progress | K_speed | K_eta | K_completed_at
  | K_error_message => true
  | _ => false
  end.

(** What the speed pattern captures: digits and dots, at least one; then
    possibly one of K, M and G; then the unit. *)
Definition speed_text (g : string) : Prop :=
  exists n unit : string,
    g = n ++ unit ++ "iB/s"
    /\ n <> ""
    /\ Text.all Patterns.is_num_dot n = true
    /\ (unit = "" \/ unit = "K" \/ unit = "M" \/ unit = "G").

(** What the eta pattern captures: digits and colons, at least one. *)
Definition eta_text (g : string) : Prop :=
  g <> "" /\ Text.all Patterns.is_num_colon g = true.

(** The answers of an eventless world at time [t]. *)
Definition quiet (t : datetime) : oracle :=
  {| fault := None; output := ""; poll := None; now := t |}.

Definition line (t : datetime) (l : string) : oracle :=
  {| fault := None; output := l; poll := None; now := t |}.

Definition exit_with (t : datetime) (rc : Z) : oracle :=
  {| fault := None; output := ""; poll := Some rc; now := t |}.

(** The steps of thread [tid] from line 266 to its return, reading [lines]
    and then the end of the stream of a process that exited with [rc]. *)
Definition thread_trace (tid : nat) (lines : list string) (rc : Z)
           (t : datetime) : list action :=
  [Work tid (quiet t); Work tid (quiet t); Work tid (quiet t)]
  ++ List.map (fun l => Work tid (line t l)) lines
  ++ [Work tid (exit_with t rc); Work tid (quiet t); Work tid (quiet t)].

(** The row after the progress updates of [lines]. *)
Definition after_lines (lines : list string) (row : DownloadItem)
  : DownloadItem :=
  fold_left
    (fun r l =>
       match parse_line (Text.strip l) with
       | Ret (Some kwargs) => assign kwargs r
       | _ => r
       end)
    lines row.

(** How many of [lines] carry a progress event. *)
Definition events (lines : list string) : nat :=
  length (List.filter
            (fun l =>
               match parse_line (Text.strip l) with
               | Ret (Some _) => true
               | _ => false
               end)
            lines).

(** [n] calls of the callback [cb], if there is one, for job [i]. *)
Definition notes (cb : option nat) (i : Z) (n : nat) : list (nat * Z) :=
  match cb with
  | Some f => repeat (f, i) n
  | None => []
  end.

(** The system [s] with one more thread, [w] at [q], whose job has the row
    [row], and with the given registries, processes and notifications. *)
Definition stage (s : system) (w : worker) (q : pc) (row : DownloadItem)
           (act thr : gmap Z nat) (sp : list (list value))
           (nt : list (nat * Z)) : system :=
  {| db := {| rows := <[w_download_id w := row]> (rows (db s));
              last_rowid := last_rowid (db s) |};
     active_downloads := act; download_threads := thr;
     max_concurrent := max_concurrent s; max_speed := max_speed s;
     workers := workers s ++ [at_pc w q];
     spawned := sp; signals := signals s; notified := nt |}.

(** The keywords of the final write (lines 305-317). *)
Definition final_kwargs (rc : Z) (t : datetime) : list (column * value) :=
  if (rc =? 0)%Z then
    [(K_status, VText "completed"); (K_progress, VReal 100);
     (K_completed_at, VText (isoformat t))]
  else
    [(K_status, VText "failed"); (K_error_message, VText "Download failed")].

End Coverage.

(* ===================================================================== *)
(** ** Facts about text                                                   *)
(* ===================================================================== *)

Module TextFacts.
Import Text.

Lemma app_nil (b : string) : "" ++ b = b.
Proof. reflexivity. Qed.

Lemma app_cons (c : ascii) (a b : string) : String c a ++ b = String c (a ++ b).
Proof. reflexivity. Qed.

(** Push the constructors of a text out of its concatenations. *)
Ltac norm_app := rewrite ?app_cons, ?app_nil in *.

Lemma app_assoc (a b c : string) : (a ++ b) ++ c = a ++ (b ++ c).
Proof. induction a as [|x a IH]; norm_app; [reflexivity | now rewrite IH]. Qed.

Lemma length_app (a b : string) :
  String.length (a ++ b) = (String.length a + String.length b)%nat.
Proof.
  induction a as [|x a IH]; norm_app; simpl; [reflexivity | now rewrite IH].
Qed.

Lemma take_length_app (g r : string) : take (String.length g) (g ++ r) = g.
Proof.
  induction g as [|x g IH]; norm_app; simpl; [now destruct r | now rewrite IH].
Qed.

Lemma take_app (g r : string) :
  take (String.length (g ++ r) - String.length r) (g ++ r) = g.
Proof.
  rewrite length_app.
  replace (String.length g + String.length r - String.length r)%nat
    with (String.length g) by lia.
  apply take_length_app.
Qed.

Lemma take_suffix (s g r : string) :
  s = g ++ r -> take (String.length s - String.length r) s = g.
Proof. intros ->. apply take_app. Qed.





Lemma startswith_app (p r : string) : startswith p (p ++ r) = true.
Proof.
  induction p as [|x p IH]; norm_app; simpl; [reflexivity|].
  now rewrite Ascii.eqb_refl, IH.
Qed.

Lemma startswith_split (p s : string) :
  startswith p s = true -> exists r, s = p ++ r.
Proof.
  revert s; induction p as [|x p IH]; intros s H; simpl in *.
  - now exists s.
  - destruct s as [|c s]; [discriminate|].
    apply andb_true_iff in H as [Hc Hp].
    apply Ascii.eqb_eq in Hc; subst c.
    destruct (IH _ Hp) as [r ->]. now exists r.
Qed.

Lemma all_app (p : ascii -> bool) (a b : string) :
  all p (a ++ b) = all p a && all p b.
Proof.
  induction a as [|x a IH]; norm_app; simpl; [reflexivity|].
  now rewrite IH, andb_assoc.
Qed.

Lemma contains_here (needle s : string) :
  startswith needle s = true -> contains needle s = true.
Proof. intros H. destruct s; simpl in *; now rewrite H. Qed.

Lemma contains_app (needle pre post : string) :
  contains needle (pre ++ needle ++ post) = true.
Proof.
  induction pre as [|x pre IH]; norm_app.
  - apply contains_here, startswith_app.
  - simpl. rewrite IH. apply orb_true_r.
Qed.

End TextFacts.

(* ===================================================================== *)
(** ** Facts about the matcher                                            *)
(* ===================================================================== *)

Module RegexFacts.
Import Text Regex TextFacts.

Section Continuations.
Context {R : Type}.
Implicit Types (k : string -> option R) (s l a b : string).

Lemma lit_app l r k : lit l (l ++ r) k = k r.
Proof.
  induction l as [|x l IH]; norm_app; simpl; [reflexivity|].
  now rewrite Ascii.eqb_refl.
Qed.

Lemma lit_some l s k x :
  lit l s k = Some x -> exists r, s = l ++ r /\ k r = Some x.
Proof.
  revert s; induction l as [|c l IH]; intros s H; simpl in *.
  - now exists s.
  - destruct s as [|d s]; [discriminate|].
    destruct (Ascii.eqb c d) eqn:E; [|discriminate].
    apply Ascii.eqb_eq in E; subst d.
    destruct (IH _ H) as (r & -> & Hk). now exists r.
Qed.

(** Whatever the repetition tries, it hands the continuation a text it
    reached by reading characters of the class only. *)
Lemma star_sound p s k x :
  star p s k = Some x ->
  exists a b, s = a ++ b /\ all p a = true /\ k b = Some x.
Proof.
  induction s as [|c s IH]; simpl; intros H.
  - exists "", "". auto.
  - destruct (p c) eqn:Hp.
    + destruct (star p s k) as [y|] eqn:E.
      * injection H as ->.
        destruct (IH eq_refl) as (a & b & -> & Ha & Hk).
        exists (String c a), b. simpl. rewrite Hp, Ha. auto.
      * exists "", (String c s). auto.
    + exists "", (String c s). auto.
Qed.

(** If the continuation accepts after some run of the class, the greedy
    repetition succeeds, possibly after a longer run. *)
Lemma star_complete p a b k x :
  all p a = true -> k b = Some x -> is_Some (star p (a ++ b) k).
Proof.
  intros Ha Hk. induction a as [|c a IH]; norm_app; simpl in *.
  - destruct b as [|d b]; simpl; [eauto|].
    destruct (p d); [|eauto].
    destruct (star p b k); eauto.
  - apply andb_true_iff in Ha as [Hc Ha]. rewrite Hc.
    destruct (IH Ha) as [y ->]. eauto.
Qed.

Lemma star_none p a b k :
  star p (a ++ b) k = None -> all p a = true -> k b = None.
Proof.
  intros H Ha. destruct (k b) as [x|] eqn:E; [|reflexivity].
  destruct (star_complete p a b k x Ha E) as [y Hy]. congruence.
Qed.

End Continuations.

Lemma search_from_start r i s m :
  search_from r i s = Some m ->
  exists j,
    m_start m = (i + j)%nat /\ (j <= String.length s)%nat /\
    match_here r (drop j s) = Some (m_group1 m) /\
    forall j', (j' < j)%nat -> match_here r (drop j' s) = None.
Proof.
  revert i; induction s as [|c s IH]; intros i; simpl.
  - destruct (match_here r "") as [cap|] eqn:E; [|discriminate].
    intros [= <-]. exists 0%nat. simpl. repeat split; auto; lia.
  - destruct (match_here r (String c s)) as [cap|] eqn:E.
    + intros [= <-]. exists 0%nat. simpl. repeat split; auto; lia.
    + intros H. destruct (IH _ H) as (j & Hs & Hj & Hm & Hmin).
      exists (S j). simpl. repeat split; auto; try lia.
      intros [|j'] Hlt; simpl; [exact E | apply Hmin; lia].
Qed.

Lemma search_from_none r i s :
  search_from r i s = None ->
  forall j, match_here r (drop j s) = None.
Proof.
  revert i; induction s as [|c s IH]; intros i; simpl.
  - destruct (match_here r "") eqn:E; [discriminate|].
    intros _ [|j]; exact E.
  - destruct (match_here r (String c s)) eqn:E; [discriminate|].
    intros H [|j]; simpl; [exact E | eapply IH, H].
Qed.

End RegexFacts.

(* ===================================================================== *)
(** ** Facts about the percent pattern and [float]                        *)
(* ===================================================================== *)

Module PatternFacts.
Import Text Regex Patterns TextFacts RegexFacts Spec.

Lemma digit_not_dot (c : ascii) : isdigit c = true -> is_dot c = false.
Proof.
  unfold is_dot. destruct (Ascii.eqb c ".") eqn:E; [|reflexivity].
  apply Ascii.eqb_eq in E; subst c. discriminate.
Qed.

Lemma split_dot_digits (a : string) :
  all isdigit a = true -> split_dot a = (a, None).
Proof.
  induction a as [|c a IH]; simpl; [reflexivity|].
  intros H. apply andb_true_iff in H as [Hc Ha].
  now rewrite (digit_not_dot _ Hc), (IH Ha).
Qed.

Lemma split_dot_digits_dot (a b : string) :
  all isdigit a = true -> split_dot (a ++ "." ++ b) = (a, Some b).
Proof.
  induction a as [|c a IH]; norm_app; simpl; [reflexivity|].
  intros H. apply andb_true_iff in H as [Hc Ha].
  now rewrite (digit_not_dot _ Hc), (IH Ha).
Qed.

Lemma split_dot_spec (g : string) :
  match split_dot g with
  | (a, Some b) => g = a ++ "." ++ b
  | (a, None) => g = a
  end.
Proof.
  induction g as [|c g IH]; simpl; [reflexivity|].
  destruct (is_dot c) eqn:E.
  - unfold is_dot in E. apply Ascii.eqb_eq in E. now subst c.
  - destruct (split_dot g) as [a [b|]]; norm_app; now rewrite IH.
Qed.

(** The shapes a numeric value has. *)
Lemma numeric_shape (g : string) :
  numeric g = true ->
  exists c a,
    isdigit c = true /\ all isdigit a = true /\
    (g = String c a \/
     exists b, all isdigit b = true /\ g = String c a ++ "." ++ b).
Proof.
  unfold numeric. pose proof (split_dot_spec g) as Hg.
  destruct (split_dot g) as [a [b|]]; intros H.
  - apply andb_true_iff in H as [H Hb]. apply andb_true_iff in H as [Hne Ha].
    destruct a as [|c a]; [discriminate|]. simpl in Ha.
    apply andb_true_iff in Ha as [Hc Ha]. exists c, a. eauto 6.
  - apply andb_true_iff in H as [Hne Ha].
    destruct a as [|c a]; [discriminate|]. simpl in Ha.
    apply andb_true_iff in Ha as [Hc Ha]. exists c, a. eauto.
Qed.

Lemma numeric_digits (c : ascii) (a : string) :
  isdigit c = true -> all isdigit a = true -> numeric (String c a) = true.
Proof.
  intros Hc Ha. unfold numeric.
  rewrite split_dot_digits by (simpl; now rewrite Hc, Ha).
  simpl. now rewrite Hc, Ha.
Qed.

Lemma numeric_digits_dot (c : ascii) (a b : string) :
  isdigit c = true -> all isdigit a = true -> all isdigit b = true ->
  numeric (String c a ++ "." ++ b) = true.
Proof.
  intros Hc Ha Hb. unfold numeric.
  rewrite split_dot_digits_dot by (simpl; now rewrite Hc, Ha).
  simpl. now rewrite Hc, Ha, Hb.
Qed.

(** What the percent pattern matches at the head of a text is a numeric
    value with the percent sign right after it, and group 1 is that value. *)
Lemma percent_here_sound (s : string) (cap : option string) :
  match_here percent_re s = Some cap ->
  exists g post, cap = Some g /\ s = g ++ "%" ++ post /\ numeric g = true.
Proof.
  unfold match_here, percent_re. cbn [mt].
  destruct s as [|c s0]; [discriminate|].
  destruct (isdigit c) eqn:Hc; [|discriminate].
  intros H. apply star_sound in H as (a & b & -> & Ha & H).
  destruct (lit "." b _) as [x|] eqn:E.
  - injection H as ->.
    apply lit_some in E as (r & -> & E).
    apply star_sound in E as (a2 & b2 & -> & Ha2 & E).
    apply lit_some in E as (post & -> & E). injection E as <-.
    assert (Hs : String c (a ++ "." ++ a2 ++ "%" ++ post)
                 = (String c a ++ "." ++ a2) ++ "%" ++ post)
      by (norm_app; now rewrite !app_assoc).
    exists (String c a ++ "." ++ a2), post. split; [|split].
    + f_equal.
      exact (take_suffix (String c (a ++ "." ++ a2 ++ "%" ++ post))
                         (String c a ++ "." ++ a2) ("%" ++ post) Hs).
    + exact Hs.
    + now apply numeric_digits_dot.
  - apply star_sound in H as (a2 & b2 & -> & Ha2 & H).
    apply lit_some in H as (post & -> & H). injection H as <-.
    assert (Hs : String c (a ++ a2 ++ "%" ++ post)
                 = String c (a ++ a2) ++ "%" ++ post)
      by (norm_app; now rewrite !app_assoc).
    exists (String c (a ++ a2)), post. split; [|split].
    + f_equal.
      exact (take_suffix (String c (a ++ a2 ++ "%" ++ post))
                         (String c (a ++ a2)) ("%" ++ post) Hs).
    + exact Hs.
    + apply numeric_digits; [assumption|]. now rewrite all_app, Ha, Ha2.
Qed.

(** Wherever a numeric value is followed by the percent sign, the pattern
    matches from the start of that value. *)
Lemma percent_here_complete (g post : string) :
  numeric g = true -> is_Some (match_here percent_re (g ++ "%" ++ post)).
Proof.
  intros H. apply numeric_shape in H as (c & a & Hc & Ha & Hg).
  unfold match_here, percent_re. cbn [mt].
  destruct Hg as [-> | (b & Hb & ->)]; norm_app; rewrite Hc.
  - match goal with |- is_Some ?t => destruct t eqn:E; [eauto | exfalso] end.
    apply (star_none isdigit a (String "%" post)) in E; [|exact Ha].
    simpl in E. discriminate.
  - rewrite app_assoc. norm_app.
    match goal with |- is_Some ?t => destruct t eqn:E; [eauto | exfalso] end.
    apply (star_none isdigit a (String "." (b ++ String "%" post))) in E;
      [|exact Ha].
    simpl in E.
    match type of E with
    | match ?t with _ => _ end = None => destruct t eqn:E2; [discriminate|]
    end.
    apply (star_none isdigit b (String "%" post)) in E2; [|exact Hb].
    simpl in E2. discriminate.
Qed.

Lemma token_split (line : string) (i : nat) (g : string) :
  percent_token_at line i g = true ->
  numeric g = true /\ exists post, drop i line = g ++ "%" ++ post.
Proof.
  unfold percent_token_at. intros H.
  apply andb_true_iff in H as [Hn Hs]. split; [exact Hn|].
  apply startswith_split in Hs as [post Hs]. exists post.
  now rewrite Hs, app_assoc.
Qed.

(** [re.search] with the percent pattern returns the leftmost percentage
    token of the line. *)
Lemma percent_search_sound (line : string) (m : match_obj) :
  search percent_re line = Some m ->
  exists g,
    m_group1 m = Some g /\
    percent_token_at line (m_start m) g = true /\
    forall j g', percent_token_at line j g' = true -> (m_start m <= j)%nat.
Proof.
  intros H. apply search_from_start in H as (j & Hs & Hj & Hm & Hmin).
  simpl in Hs. subst j.
  apply percent_here_sound in Hm as (g & post & Hg & Hd & Hn).
  exists g. split; [exact Hg|]. split.
  - unfold percent_token_at. rewrite Hn, Hd, <- app_assoc.
    now rewrite startswith_app.
  - intros j g' Ht. apply token_split in Ht as (Hn' & post' & Hd').
    destruct (Nat.le_gt_cases (m_start m) j) as [Hle|Hlt]; [exact Hle|].
    specialize (Hmin j Hlt).
    destruct (percent_here_complete g' post' Hn') as [y Hy].
    rewrite Hd' in Hmin. congruence.
Qed.

Lemma percent_search_complete (line : string) (j : nat) (g : string) :
  percent_token_at line j g = true -> is_Some (search percent_re line).
Proof.
  intros Ht. apply token_split in Ht as (Hn & post & Hd).
  destruct (search percent_re line) as [m|] eqn:E; [eauto|].
  pose proof (search_from_none _ _ _ E j) as Hnone.
  destruct (percent_here_complete g post Hn) as [y Hy].
  rewrite Hd in Hnone. congruence.
Qed.

Lemma digits_not_percent (a : string) :
  all isdigit a = true -> all not_percent a = true.
Proof.
  induction a as [|c a IH]; simpl; [reflexivity|].
  intros H. apply andb_true_iff in H as [Hc Ha]. rewrite (IH Ha).
  unfold not_percent. destruct (Ascii.eqb c "%") eqn:E; [|reflexivity].
  apply Ascii.eqb_eq in E. subst c. discriminate.
Qed.

Lemma numeric_not_percent (g : string) :
  numeric g = true -> all not_percent g = true.
Proof.
  intros H. apply numeric_shape in H as (c & a & Hc & Ha & Hg).
  assert (Hca : all not_percent (String c a) = true)
    by (apply digits_not_percent; simpl; now rewrite Hc, Ha).
  destruct Hg as [-> | (b & Hb & ->)]; [exact Hca|].
  rewrite all_app, Hca. norm_app. simpl.
  now apply digits_not_percent.
Qed.

Lemma before_percent_unique (a b x y : string) :
  all not_percent a = true -> all not_percent b = true ->
  a ++ "%" ++ x = b ++ "%" ++ y -> a = b.
Proof.
  revert b; induction a as [|c a IH]; intros [|d b] Ha Hb H; norm_app;
    simpl in *.
  - reflexivity.
  - injection H as <- _. discriminate.
  - injection H as -> _. discriminate.
  - injection H as -> H.
    apply andb_true_iff in Ha as [_ Ha]. apply andb_true_iff in Hb as [_ Hb].
    f_equal. now apply IH.
Qed.

(** At most one percentage token starts at a given offset. *)
Lemma token_unique (line : string) (i : nat) (g g' : string) :
  percent_token_at line i g = true -> percent_token_at line i g' = true ->
  g = g'.
Proof.
  intros H H'. apply token_split in H as (Hn & post & Hd).
  apply token_split in H' as (Hn' & post' & Hd').
  rewrite Hd in Hd'.
  eapply before_percent_unique; eauto using numeric_not_percent.
Qed.

Lemma digit_value_nonneg (c : ascii) :
  isdigit c = true -> (0 <= digit_value c)%Z.
Proof.
  unfold isdigit, digit_value. intros H.
  apply andb_true_iff in H as [H _]. apply N.leb_le in H. lia.
Qed.

Lemma digits_total (s : string) (acc : Z) :
  all isdigit s = true -> (0 <= acc)%Z ->
  exists n, digits acc s = Some n /\ (0 <= n)%Z.
Proof.
  revert acc; induction s as [|c s IH]; simpl; intros acc H Hacc.
  - eauto.
  - apply andb_true_iff in H as [Hc Hs]. rewrite Hc.
    apply IH; [exact Hs|]. pose proof (digit_value_nonneg _ Hc). lia.
Qed.

(** [float] reads every numeric value, as a number that is not negative. *)
Lemma float_numeric (g : string) :
  numeric g = true -> exists q, float g = Some q /\ (0 <= q)%Q.
Proof.
  intros H. apply numeric_shape in H as (c & a & Hc & Ha & Hg).
  assert (Hca : all isdigit (String c a) = true)
    by (simpl; now rewrite Hc, Ha).
  unfold float.
  destruct Hg as [-> | (b & Hb & ->)].
  - rewrite (split_dot_digits _ Hca).
    destruct (digits_total (String c a ++ "") 0) as (n & Hn & Hpos);
      [now rewrite all_app, Hca | lia |].
    simpl String.length. simpl Nat.eqb. rewrite Hn.
    eexists; split; [reflexivity|].
    rewrite Qred_correct. unfold Qle. simpl. lia.
  - rewrite (split_dot_digits_dot _ b Hca).
    destruct (digits_total (String c a ++ b) 0) as (n & Hn & Hpos);
      [now rewrite all_app, Hca, Hb | lia |].
    simpl String.length. simpl Nat.eqb. rewrite Hn.
    eexists; split; [reflexivity|].
    rewrite Qred_correct. unfold Qle. simpl. lia.
Qed.

End PatternFacts.

(* ===================================================================== *)
(** ** The store: [update_download] is a partial merge                    *)
(* ===================================================================== *)

Module StoreProperties.
Import Py Store Spec.

Lemma column_eqb_eq (a b : column) : column_eqb a b = true <-> a = b.
Proof. split; [destruct a, b; simpl; congruence | intros ->; now destruct b]. Qed.

Lemma get_set_same (c : column) (v : value) (d : DownloadItem) :
  get_col c (set_col c v d) = v.
Proof. now destruct c. Qed.

Lemma get_set_other (c c' : column) (v : value) (d : DownloadItem) :
  column_eqb c c' = false -> get_col c' (set_col c v d) = get_col c' d.
Proof. destruct c, c'; simpl; intros H; try reflexivity; discriminate. Qed.

Lemma item_id_set (c : column) (v : value) (d : DownloadItem) :
  item_id (set_col c v d) = item_id d.
Proof. now destruct c. Qed.

Lemma item_id_assign (kwargs : list (column * value)) (d : DownloadItem) :
  item_id (assign kwargs d) = item_id d.
Proof.
  unfold assign. revert d; induction kwargs as [|kv rest IH]; intros d; simpl.
  - reflexivity.
  - now rewrite IH, item_id_set.
Qed.

(** After the assignments a column holds what the keywords bind to it, and
    what it held before when they bind nothing to it. *)
Lemma get_assign (c : column) (kwargs : list (column * value))
      (d : DownloadItem) :
  get_col c (assign kwargs d)
  = match supplied c kwargs with Some v => v | None => get_col c d end.
Proof.
  unfold assign. revert d; induction kwargs as [|[k v] rest IH]; intros d; simpl.
  - reflexivity.
  - rewrite IH. destruct (supplied c rest); [reflexivity|].
    destruct (column_eqb k c) eqn:E.
    + apply column_eqb_eq in E. subst k. apply get_set_same.
    + now apply get_set_other.
Qed.

(** C9. An update of an existing row changes exactly the columns named by
    its keywords, to the values they bind; every other column of that row
    keeps its value, the key is kept, and every other row is untouched.
    The one call that raises, the one without keywords, writes nothing. *)
Theorem update_download_is_partial_merge :
  forall (d : database) (download_id : Z) (kwargs : list (column * value)),
    match update_download download_id kwargs d with
    | Ret d' =>
        (forall other : Z,
            other <> download_id -> rows d' !! other = rows d !! other)
        /\ match rows d !! download_id with
           | Some row =>
               exists row',
                 rows d' !! download_id = Some row'
                 /\ item_id row' = item_id row
                 /\ forall c : column,
                     get_col c row'
                     = match supplied c kwargs with
                       | Some v => v
                       | None => get_col c row
                       end
           | None => rows d' !! download_id = None
           end
        /\ last_rowid d' = last_rowid d
    | Raise _ => kwargs = []
    end.
Proof.
  intros d download_id [|kv rest]; simpl; [reflexivity|].
  split; [|split]; [| |reflexivity].
  - intros other Hne. now rewrite lookup_alter_ne.
  - rewrite lookup_alter_eq. destruct (rows d !! download_id) as [row|]; simpl.
    + eexists; split; [reflexivity|]. split.
      * apply (item_id_assign (kv :: rest)).
      * intros c. apply (get_assign c (kv :: rest)).
    + reflexivity.
Qed.

End StoreProperties.

(* ===================================================================== *)
(** ** The parser: what [parse_progress] reads out of a line              *)
(* ===================================================================== *)

Module TokenFacts.
Import Py Store Manager Text Regex Patterns Spec.
Import TextFacts RegexFacts PatternFacts.

Section Greedy.
Context {R : Type}.




End Greedy.


Lemma take_drop_while (p : ascii -> bool) (s : string) :
  take_while p s ++ drop_while p s = s.
Proof.
  induction s as [|c s IH]; simpl; [reflexivity|].
  destruct (p c); norm_app; [now rewrite IH | reflexivity].
Qed.


(** What a group over a run captures. *)
Lemma take_run (p : ascii -> bool) (s : string) :
  take (String.length s - String.length (drop_while p s)) s = take_while p s.
Proof. apply take_suffix. symmetry. apply take_drop_while. Qed.











End TokenFacts.

Module ParserProperties.
Import Py Store Manager Text Regex Patterns Spec.
Import TextFacts RegexFacts PatternFacts TokenFacts.







(** The matcher on lines that make it backtrack, and on lines of the
    downloader that carry no rate or no time. *)
Example percent_after_two_dots :
  search percent_re "[download] 1.2.3% done"
  = Some {| m_start := 13; m_group1 := Some "2.3" |}.
Proof. reflexivity. Qed.

Example percent_with_trailing_dot :
  search percent_re "12.%" = Some {| m_start := 0; m_group1 := Some "12." |}.
Proof. reflexivity. Qed.

Example speed_needs_the_word_at :
  search speed_re "[download]  45.2% of 10.00MiB 1.21MiB/s" = None
  /\ search speed_re "at   512.00KiB/s"
     = Some {| m_start := 0; m_group1 := Some "512.00KiB/s" |}
  /\ search speed_re "at 99.5iB/s"
     = Some {| m_start := 0; m_group1 := Some "99.5iB/s" |}
  /\ search speed_re "at 300B/s" = None.
Proof. repeat split; reflexivity. Qed.

Example eta_unknown :
  search eta_re "[download]   0.1% of 1.00GiB at Unknown B/s ETA Unknown"
  = None
  /\ search eta_re "ETA 01:02:03"
     = Some {| m_start := 0; m_group1 := Some "01:02:03" |}.
Proof. split; reflexivity. Qed.

Example strip_of_a_read_line :
  strip (String (ascii_of_nat 13) "  [download] 100%  "
         ++ String (ascii_of_nat 10) "")
  = "[download] 100%".
Proof. reflexivity. Qed.




(** C7, as the claim states it, fails: a line with two percentage tokens but
    without the [download] marker, from which nothing is extracted. *)
Lemma unmarked_percentages_are_not_extracted :
  percent_token_at "[Merger] 50% of 100%" 9 "50" = true
  /\ percent_token_at "[Merger] 50% of 100%" 16 "100" = true
  /\ parse_line "[Merger] 50% of 100%" = Ret None.
Proof. repeat split; reflexivity. Qed.

(** C7. The progress line of the specification yields 45.2, the speed
    1.21MiB/s and the eta 00:12; on every line that carries the [download]
    marker and some percentage token, the percentage of the update is the
    value of the leftmost token; and a line without the marker yields
    nothing, whatever tokens it has. *)
Theorem parse_extracts_leftmost_percentage :
  parse_line "[download]  45.2% of 10.00MiB at 1.21MiB/s ETA 00:12"
  = Ret (Some [(K_progress, VReal (Qred 45.2));
               (K_speed, VText "1.21MiB/s"); (K_eta, VText "00:12")])
  /\ (forall (line : string) (j : nat) (g' : string),
         contains "[download]" line = true ->
         percent_token_at line j g' = true ->
         exists (i : nat) (g : string) (p : Q) (speed eta : value),
           parse_line line
           = Ret (Some [(K_progress, VReal p); (K_speed, speed); (K_eta, eta)])
           /\ percent_token_at line i g = true
           /\ (forall k h, percent_token_at line k h = true -> (i <= k)%nat)
           /\ float g = Some p)
  /\ (forall (line : string) (i : nat) (g h : string),
         percent_token_at line i g = true ->
         percent_token_at line i h = true -> g = h)
  /\ (forall line : string,
         contains "[download]" line = false -> parse_line line = Ret None).
Proof.
  repeat apply conj.
  - reflexivity.
  - intros line j g' Hmark Ht.
    destruct (percent_search_complete _ _ _ Ht) as [m Hs].
    destruct (percent_search_sound _ _ Hs) as (g & Hg & Htok & Hmin).
    destruct (token_split _ _ _ Htok) as (Hn & _).
    destruct (float_numeric _ Hn) as (p & Hp & _).
    exists (m_start m), g, p,
      (group_or_empty (search speed_re line)),
      (group_or_empty (search eta_re line)).
    unfold parse_line. rewrite Hmark, Hs, Hg, Hp. auto.
  - apply token_unique.
  - intros line H. unfold parse_line. now rewrite H.
Qed.

(** The theorem at a line with two tokens: the first one, 12.5, is taken. *)
Lemma parse_extracts_leftmost_percentage_witness :
  exists (i : nat) (g : string) (p : Q) (speed eta : value),
    parse_line "[download]  12.5% of 3.00MiB (100% of part 1)"
    = Ret (Some [(K_progress, VReal p); (K_speed, speed); (K_eta, eta)])
    /\ percent_token_at "[download]  12.5% of 3.00MiB (100% of part 1)" i g
       = true
    /\ (forall k h,
           percent_token_at "[download]  12.5% of 3.00MiB (100% of part 1)" k h
           = true -> (i <= k)%nat)
    /\ float g = Some p.
Proof.
  apply (proj1 (proj2 parse_extracts_leftmost_percentage)
               "[download]  12.5% of 3.00MiB (100% of part 1)" 30%nat "100");
    reflexivity.
Defined.


End ParserProperties.

(* ===================================================================== *)
(** ** Control requests for a job without a registered process            *)
(* ===================================================================== *)

Module ControlProperties.
Import Py Store Manager Spec Fixtures.

(** C10. For a job that has no entry in [active_downloads], be it still
    pending or its worker gone, [pause_download], [resume_download] and
    [cancel_download] return normally and leave everything as it was: the
    store, the registries, and no signal is sent. *)
Theorem control_without_process_is_silent :
  forall (s : system) (download_id : Z) (sent : bool),
    active_downloads s !! download_id = None ->
    pause_download download_id sent s = (Ret tt, s)
    /\ resume_download download_id sent s = (Ret tt, s)
    /\ cancel_download download_id sent s = (Ret tt, s).
Proof.
  intros s download_id sent H.
  unfold pause_download, resume_download, cancel_download, signal_and_mark.
  rewrite H. auto.
Qed.

(** The theorem at the pending job 1 of a manager that started nothing. *)
Lemma control_without_process_is_silent_witness :
  active_downloads limit_three !! 1%Z = None
  /\ pause_download 1 true limit_three = (Ret tt, limit_three)
  /\ resume_download 1 true limit_three = (Ret tt, limit_three)
  /\ cancel_download 1 true limit_three = (Ret tt, limit_three).
Proof.
  split; [reflexivity|].
  apply (control_without_process_is_silent limit_three 1 true).
  reflexivity.
Defined.

End ControlProperties.

(* ===================================================================== *)
(** ** Facts about the steps of the manager and of its workers            *)
(* ===================================================================== *)

Module ManagerFacts.
Import Py Store Clock Manager Text Regex Patterns Spec.
Import TextFacts RegexFacts PatternFacts StoreProperties.

(** The update of line 363 binds progress, speed and eta, in that order,
    and the progress it binds is not negative. *)
Lemma parse_line_shape (line : string) (kwargs : list (column * value)) :
  parse_line line = Ret (Some kwargs) ->
  exists (p : Q) (sp e : value),
    kwargs = [(K_progress, VReal p); (K_speed, sp); (K_eta, e)]
    /\ (0 <= p)%Q.
Proof.
  unfold parse_line. destruct (contains "[download]" line); [|discriminate].
  destruct (search percent_re line) as [m|] eqn:E; [|discriminate].
  apply percent_search_sound in E as (g & Hg & Ht & _).
  apply token_split in Ht as (Hn & _).
  apply float_numeric in Hn as (q & Hq & Hpos).
  rewrite Hg, Hq. intros [= <-]. eauto.
Qed.

Lemma db_call_back (cb : option nat) (download_id : Z) (s : system) :
  db (call_back cb download_id s) = db s.
Proof. now destruct cb. Qed.

Lemma workers_call_back (cb : option nat) (download_id : Z) (s : system) :
  workers (call_back cb download_id s) = workers s.
Proof. now destruct cb. Qed.

Lemma active_call_back (cb : option nat) (download_id : Z) (s : system) :
  active_downloads (call_back cb download_id s) = active_downloads s.
Proof. now destruct cb. Qed.

Lemma limit_call_back (cb : option nat) (download_id : Z) (s : system) :
  max_concurrent (call_back cb download_id s) = max_concurrent s.
Proof. now destruct cb. Qed.

(** What [parse_progress] does to the system. *)
Lemma parse_progress_effect (download_id : Z) (line : string)
      (cb : option nat) (s : system) :
  snd (parse_progress download_id line cb s)
  = match parse_line line with
    | Ret (Some kwargs) =>
        call_back cb download_id (snd (db_update download_id kwargs s))
    | _ => s
    end.
Proof.
  unfold parse_progress, parse_progress_body.
  destruct (parse_line line) as [[kwargs|]|e] eqn:E; try reflexivity.
  apply parse_line_shape in E as (p & sp & e & -> & _). reflexivity.
Qed.

Lemma db_written_refl (d : database) : db_written d d.
Proof. now left. Qed.

Lemma db_written_update (download_id : Z) (kwargs : list (column * value))
      (s : system) :
  written kwargs -> db_written (db s) (db (snd (db_update download_id kwargs s))).
Proof.
  intros H. right. exists download_id, kwargs. split; [exact H|].
  destruct H; reflexivity.
Qed.

(** A step of a worker leaves the store alone or makes one update. *)
Lemma worker_step_db (tid : nat) (o : oracle) (s : system) :
  db_written (db s) (db (worker_step tid o s)).
Proof.
  unfold worker_step.
  destruct (workers s !! tid) as [w|]; [|apply db_written_refl].
  destruct (w_pc w) as [| |process|process|process rc|e|u|u].
  - apply (db_written_update (w_download_id w) [(K_status, VText "downloading")] s).
    now constructor.
  - destruct (fault o); apply db_written_refl.
  - apply db_written_refl.
  - destruct (fault o); [apply db_written_refl|].
    destruct (String.eqb (output o) "").
    + destruct (poll o); apply db_written_refl.
    + rewrite parse_progress_effect.
      destruct (parse_line _) as [[kwargs|]|e] eqn:E;
        try apply db_written_refl.
      apply parse_line_shape in E as (p & sp & e & -> & _).
      rewrite db_call_back.
      apply (db_written_update (w_download_id w)). constructor.
  - destruct (rc =? 0)%Z.
    + apply (db_written_update (w_download_id w)
               [(K_status, VText "completed"); (K_progress, VReal 100);
                (K_completed_at, VText (isoformat (now o)))] s).
      constructor.
    + apply (db_written_update (w_download_id w)
               [(K_status, VText "failed");
                (K_error_message, VText "Download failed")] s).
      constructor.
  - apply (db_written_update (w_download_id w)
             [(K_status, VText "failed");
              (K_error_message, VText (exn_str e))] s).
    constructor.
  - simpl. rewrite db_call_back. apply db_written_refl.
  - apply db_written_refl.
Qed.

Lemma signal_and_mark_db (sig : signal) (st : string) (download_id : Z)
      (sent : bool) (s : system) :
  st <> "completed" ->
  db_written (db s) (db (snd (signal_and_mark sig st download_id sent s))).
Proof.
  intros Hst. unfold signal_and_mark.
  destruct (active_downloads s !! download_id) as [process|];
    [|apply db_written_refl].
  destruct sent; [|apply db_written_refl].
  right. exists download_id, [(K_status, VText st)].
  split; [now constructor | reflexivity].
Qed.

Lemma start_download_db (download_id : Z) (u f p : value) (cb : option nat)
      (s : system) :
  db (snd (start_download download_id u f p cb s)) = db s.
Proof. unfold start_download. now destruct (_ <=? _)%Z. Qed.

(** Whatever happens next, the store is left alone or gets one update. *)
Lemma step_db (a : action) (s : system) : db_written (db s) (db (step a s)).
Proof.
  destruct a as [i u f p cb|i ok|i ok|i ok|i cb|tid o]; simpl.
  - rewrite start_download_db. apply db_written_refl.
  - now apply signal_and_mark_db.
  - now apply signal_and_mark_db.
  - now apply signal_and_mark_db.
  - unfold retry_download. destruct (get_download_by_id i (db s)).
    + rewrite start_download_db. apply db_written_refl.
    + apply db_written_refl.
  - apply worker_step_db.
Qed.

(** What every step preserves, every run preserves. *)
Lemma run_preserves (P : system -> Prop) :
  (forall a s, P s -> P (step a s)) ->
  forall trace s, P s -> P (run trace s).
Proof.
  intros Hstep trace. unfold run.
  induction trace as [|a rest IH]; intros s Hs; simpl; [exact Hs|].
  apply IH, Hstep, Hs.
Qed.

End ManagerFacts.

(* ===================================================================== *)
(** ** The worker: progress updates and the final write                   *)
(* ===================================================================== *)

Module WorkerProperties.
Import Py Store Clock Manager Text Spec Fixtures.
Import StoreProperties ManagerFacts.

(** What a column holds after an update of a row that exists. *)
Lemma column_after_update (c : column) (download_id : Z)
      (kv : column * value) (rest : list (column * value))
      (s : system) (row : DownloadItem) :
  rows (db s) !! download_id = Some row ->
  column_of c download_id (snd (db_update download_id (kv :: rest) s))
  = Some (match supplied c (kv :: rest) with
          | Some v => v
          | None => get_col c row
          end).
Proof.
  intros Hrow. unfold column_of. cbn [db_update update_download snd db set_db rows].
  rewrite lookup_alter_eq, Hrow. cbn [fmap option_fmap option_map].
  now rewrite get_assign.
Qed.

(** An update with some keyword does not raise: the worker goes on. *)
Lemma continue_after_update (tid : nat) (w : worker) (next : pc)
      (download_id : Z) (kv : column * value) (rest : list (column * value))
      (s : system) :
  continue_or_except tid w next (db_update download_id (kv :: rest) s)
  = set_pc tid w next (snd (db_update download_id (kv :: rest) s)).
Proof. reflexivity. Qed.

Lemma column_of_set_pc (c : column) (download_id : Z) (tid : nat) (w : worker)
      (p : pc) (s : system) :
  column_of c download_id (set_pc tid w p s) = column_of c download_id s.
Proof. reflexivity. Qed.

Lemma column_of_call_back (c : column) (download_id : Z) (cb : option nat)
      (i : Z) (s : system) :
  column_of c download_id (call_back cb i s) = column_of c download_id s.
Proof. now destruct cb. Qed.

Lemma pad_not_empty (width : nat) (n : Z) (tail : string) :
  tail <> "" -> pad width n tail <> "".
Proof.
  revert n tail; induction width as [|w IH]; intros n tail H; simpl.
  - exact H.
  - apply IH. discriminate.
Qed.

Lemma isoformat_not_empty (t : datetime) : isoformat t <> "".
Proof. unfold isoformat. apply pad_not_empty. discriminate. Qed.

(** One update of the manager keeps every completed job stamped. *)
Lemma written_keeps_stamps (kwargs : list (column * value))
      (row : DownloadItem) :
  written kwargs ->
  (has_status "completed" row = true -> completed_at_set row = true) ->
  has_status "completed" (assign kwargs row) = true ->
  completed_at_set (assign kwargs row) = true.
Proof.
  intros [st Hst|t|msg|p sp e] Hrow; unfold has_status, completed_at_set;
    cbn [assign fold_left set_col fst snd status completed_at].
  - intros H. apply String.eqb_eq in H. contradiction.
  - intros _. apply negb_true_iff, String.eqb_neq, isoformat_not_empty.
  - discriminate.
  - exact Hrow.
Qed.

Lemma step_keeps_stamps (a : action) (s : system) :
  completed_are_stamped s -> completed_are_stamped (step a s).
Proof.
  intros Hs. unfold completed_are_stamped.
  destruct (step_db a s) as [-> | (i & kwargs & Hw & ->)]; [exact Hs|].
  intros download_id row'. cbn [rows]. rewrite lookup_alter.
  destruct (decide (i = download_id)) as [->|Hne]; [|apply Hs].
  destruct (rows (db s) !! download_id) as [row|] eqn:E; [|discriminate].
  intros [= <-]. apply written_keeps_stamps; [exact Hw | eauto].
Qed.

(** C4, as the claim states it, fails.  Job 1 runs to completion, is
    started again by [retry_download], and is then downloading while it
    still carries the completion timestamp of its first run.  Likewise a
    cancel request that arrives between the final write and the [finally]
    block leaves the job cancelled with its completion timestamp. *)
Lemma stamp_survives_a_restart :
  let s := run [start_job 1 "https://youtu.be/a";
                Work 0 proceed; Work 0 proceed; Work 0 proceed;
                Work 0 (exited 0); Work 0 proceed; Work 0 proceed;
                Retry 1 None; Work 1 proceed] limit_three in
  let t := run [start_job 1 "https://youtu.be/a";
                Work 0 proceed; Work 0 proceed; Work 0 proceed;
                Work 0 (exited 0); Work 0 proceed;
                Cancel 1 true; Work 0 proceed] limit_three in
  column_of K_status 1 s = Some (VText "downloading")
  /\ column_of K_completed_at 1 s = Some (VText "2024-03-07T12:00:05")
  /\ (exists row, rows (db s) !! 1%Z = Some row
                  /\ completed_at_set row = true
                  /\ has_status "completed" row = false)
  /\ column_of K_status 1 t = Some (VText "cancelled")
  /\ column_of K_completed_at 1 t = Some (VText "2024-03-07T12:00:05").
Proof.
  cbv zeta. split; [vm_compute; reflexivity|].
  split; [vm_compute; reflexivity|]. split.
  - eexists. split; [vm_compute; reflexivity|].
    split; vm_compute; reflexivity.
  - split; vm_compute; reflexivity.
Qed.

(** C4. At end of stream the worker marks the job completed, with progress
    100 and the time of the clock as completion timestamp, when the exit
    code is zero, and failed with the detail [Download failed] when it is
    not, leaving [completed_at] as it was; and in every run every job marked
    completed keeps carrying a completion timestamp.  (The converse is not
    kept: no statement ever clears the timestamp.) *)
Theorem final_write_marks_by_exit_code :
  (forall (s : system) (tid : nat) (w : worker) (process : nat) (rc : Z)
          (o : oracle) (row : DownloadItem),
      workers s !! tid = Some w ->
      w_pc w = AtFinal process rc ->
      rows (db s) !! w_download_id w = Some row ->
      let s' := worker_step tid o s in
      if (rc =? 0)%Z then
        column_of K_status (w_download_id w) s' = Some (VText "completed")
        /\ column_of K_progress (w_download_id w) s' = Some (VReal 100)
        /\ column_of K_completed_at (w_download_id w) s'
           = Some (VText (isoformat (now o)))
        /\ isoformat (now o) <> ""
      else
        column_of K_status (w_download_id w) s' = Some (VText "failed")
        /\ column_of K_error_message (w_download_id w) s'
           = Some (VText "Download failed")
        /\ column_of K_completed_at (w_download_id w) s'
           = Some (completed_at row))
  /\ (forall (trace : list action) (s : system),
         completed_are_stamped s -> completed_are_stamped (run trace s)).
Proof.
  split.
  - intros s tid w process rc o row Hw Hpc Hrow. cbv zeta.
    unfold worker_step. rewrite Hw, Hpc.
    destruct (rc =? 0)%Z; rewrite continue_after_update;
      rewrite !column_of_set_pc, !(column_after_update _ _ _ _ _ _ Hrow);
      cbn [supplied column_eqb fst snd get_col];
      auto using isoformat_not_empty.
  - apply run_preserves, step_keeps_stamps.
Qed.

(** The theorem at job 1 of the fixture, whose process exits with 0. *)
Lemma final_write_marks_by_exit_code_witness :
  let s := step (Work 0 (exited 0)) job1_reading in
  column_of K_status 1 (worker_step 0 proceed s) = Some (VText "completed")
  /\ column_of K_progress 1 (worker_step 0 proceed s) = Some (VReal 100)
  /\ column_of K_completed_at 1 (worker_step 0 proceed s)
     = Some (VText (isoformat noon))
  /\ isoformat noon <> "".
Proof.
  cbv zeta.
  refine (proj1 final_write_marks_by_exit_code
            (step (Work 0 (exited 0)) job1_reading) 0%nat
            {| w_download_id := 1; w_url := VText "https://youtu.be/a";
               w_format_id := VText "22";
               w_output_path := VText "/home/u/Downloads/clip.%(ext)s";
               w_callback := Some 0%nat; w_pc := AtFinal 0 0 |}
            0%nat 0%Z proceed _ _ _ _); reflexivity.
Defined.

End WorkerProperties.

(* ===================================================================== *)
(** ** Progress while downloading                                         *)
(* ===================================================================== *)

Module ProgressProperties.
Import Py Store Clock Manager Text Spec Fixtures.
Import StoreProperties ManagerFacts WorkerProperties.

(** C3, as the claim states it, fails: while job 1 is downloading its
    stored progress goes from 100 to 0 when the second file of a two-file
    format begins, and a line that reports 250 percent is stored as 250. *)
Lemma progress_falls_and_exceeds_100 :
  let s1 := step (Work 0 (reads "[download] 100.0% of 50.00MiB at 2.10MiB/s ETA 00:00")) job1_reading in
  let s2 := step (Work 0 (reads "[download]   0.0% of 3.00MiB at 1.21MiB/s ETA 00:02")) s1 in
  let s3 := step (Work 0 (reads "[download] 250.0% of ~1.00MiB at 1.21MiB/s ETA 00:00")) s2 in
  column_of K_status 1 s1 = Some (VText "downloading")
  /\ column_of K_progress 1 s1 = Some (VReal 100)
  /\ column_of K_status 1 s2 = Some (VText "downloading")
  /\ column_of K_progress 1 s2 = Some (VReal 0)
  /\ (0 < 100)%Q
  /\ column_of K_status 1 s3 = Some (VText "downloading")
  /\ column_of K_progress 1 s3 = Some (VReal 250)
  /\ (100 < 250)%Q.
Proof. cbv zeta. repeat split; vm_compute; reflexivity. Qed.

(** C3. Each progress line a worker reads replaces the stored progress by
    the percentage parsed from that line, a number that is not negative,
    and leaves the status alone; a line that yields no event leaves the
    store alone; and the final write after exit code zero stores exactly
    100 with the status completed.  (Nothing orders or caps the
    percentages of successive lines.) *)
Theorem progress_is_the_last_parsed_value :
  (forall (s : system) (tid : nat) (w : worker) (process : nat) (o : oracle)
          (row : DownloadItem) (kwargs : list (column * value)),
      workers s !! tid = Some w ->
      w_pc w = AtRead process ->
      fault o = None ->
      rows (db s) !! w_download_id w = Some row ->
      parse_line (strip (output o)) = Ret (Some kwargs) ->
      exists p : Q,
        supplied K_progress kwargs = Some (VReal p)
        /\ (0 <= p)%Q
        /\ column_of K_progress (w_download_id w) (worker_step tid o s)
           = Some (VReal p)
        /\ column_of K_status (w_download_id w) (worker_step tid o s)
           = Some (status row))
  /\ (forall (s : system) (tid : nat) (w : worker) (process : nat)
             (o : oracle),
         workers s !! tid = Some w ->
         w_pc w = AtRead process ->
         fault o = None ->
         parse_line (strip (output o)) = Ret None ->
         db (worker_step tid o s) = db s)
  /\ (forall (s : system) (tid : nat) (w : worker) (process : nat)
             (o : oracle) (row : DownloadItem),
         workers s !! tid = Some w ->
         w_pc w = AtFinal process 0 ->
         rows (db s) !! w_download_id w = Some row ->
         column_of K_status (w_download_id w) (worker_step tid o s)
         = Some (VText "completed")
         /\ column_of K_progress (w_download_id w) (worker_step tid o s)
            = Some (VReal 100)).
Proof.
  repeat apply conj.
  - intros s tid w process o row kwargs Hw Hpc Hf Hrow Hparse.
    unfold worker_step. rewrite Hw, Hpc, Hf.
    destruct (String.eqb (output o) "") eqn:E;
      [apply String.eqb_eq in E; rewrite E in Hparse; discriminate|].
    rewrite parse_progress_effect, Hparse.
    apply parse_line_shape in Hparse as (p & sp & e & -> & Hp).
    exists p. rewrite !column_of_call_back.
    rewrite !(column_after_update _ _ _ _ _ _ Hrow). auto.
  - intros s tid w process o Hw Hpc Hf Hparse.
    unfold worker_step. rewrite Hw, Hpc, Hf.
    destruct (String.eqb (output o) "").
    + now destruct (poll o).
    + now rewrite parse_progress_effect, Hparse.
  - intros s tid w process o row Hw Hpc Hrow.
    unfold worker_step. rewrite Hw, Hpc. cbn [Z.eqb].
    rewrite continue_after_update, !column_of_set_pc.
    rewrite !(column_after_update _ _ _ _ _ _ Hrow). auto.
Qed.

(** The theorem at job 1 of the fixture reading the line of the
    specification. *)
Lemma progress_is_the_last_parsed_value_witness :
  exists p : Q,
    supplied K_progress
      [(K_progress, VReal (Qred 45.2)); (K_speed, VText "1.21MiB/s");
       (K_eta, VText "00:12")] = Some (VReal p)
    /\ (0 <= p)%Q
    /\ column_of K_progress 1
         (worker_step 0
            (reads "[download]  45.2% of 10.00MiB at 1.21MiB/s ETA 00:12")
            job1_reading) = Some (VReal p)
    /\ column_of K_status 1
         (worker_step 0
            (reads "[download]  45.2% of 10.00MiB at 1.21MiB/s ETA 00:12")
            job1_reading) = Some (VText "downloading").
Proof.
  refine (proj1 progress_is_the_last_parsed_value job1_reading 0%nat
            {| w_download_id := 1; w_url := VText "https://youtu.be/a";
               w_format_id := VText "22";
               w_output_path := VText "/home/u/Downloads/clip.%(ext)s";
               w_callback := Some 0%nat; w_pc := AtRead 0 |}
            0%nat
            (reads "[download]  45.2% of 10.00MiB at 1.21MiB/s ETA 00:12")
            (set_col K_status (VText "downloading")
               (set_col K_completed_at VNull (set_col K_speed VNull
                 (set_col K_eta VNull (set_col K_error_message VNull
                   (with_id 1 (item "https://youtu.be/a")))))))
            [(K_progress, VReal (Qred 45.2)); (K_speed, VText "1.21MiB/s");
             (K_eta, VText "00:12")]
            _ _ _ _ _); reflexivity.
Defined.

End ProgressProperties.

(* ===================================================================== *)
(** ** Facts about the control flow of a worker                           *)
(* ===================================================================== *)

Module StepFacts.
Import Py Store Clock Manager Text Spec.
Import StoreProperties ManagerFacts WorkerProperties.

Lemma at_pc_same (w : worker) : at_pc w (w_pc w) = w.
Proof. now destruct w. Qed.

Lemma workers_db_update (download_id : Z) (kwargs : list (column * value))
      (s : system) :
  workers (snd (db_update download_id kwargs s)) = workers s.
Proof. unfold db_update. now destruct (update_download _ _ _). Qed.

Lemma active_db_update (download_id : Z) (kwargs : list (column * value))
      (s : system) :
  active_downloads (snd (db_update download_id kwargs s)) = active_downloads s.
Proof. unfold db_update. now destruct (update_download _ _ _). Qed.

Lemma limit_db_update (download_id : Z) (kwargs : list (column * value))
      (s : system) :
  max_concurrent (snd (db_update download_id kwargs s)) = max_concurrent s.
Proof. unfold db_update. now destruct (update_download _ _ _). Qed.

Lemma stay (tid : nat) (w : worker) (l : list worker) :
  l !! tid = Some w -> l = <[tid := at_pc w (w_pc w)]> l.
Proof. intros H. now rewrite at_pc_same, list_insert_id. Qed.

(** A step of a thread moves it along the control flow of the worker and
    touches no other thread. *)
Lemma worker_step_follows (tid : nat) (o : oracle) (s : system) (w : worker) :
  workers s !! tid = Some w ->
  exists q,
    follows (w_pc w) q
    /\ workers (worker_step tid o s) = <[tid := at_pc w q]> (workers s).
Proof.
  intros Hw. unfold worker_step. rewrite Hw.
  destruct (w_pc w) as [| |process|process|process rc|e|u|u] eqn:Hpc.
  - exists AtSpawn. split; [constructor | reflexivity].
  - destruct (fault o) as [e|].
    + exists (AtExcept e). split; [constructor | reflexivity].
    + eexists. split; [constructor | reflexivity].
  - exists (AtRead process). split; [constructor | reflexivity].
  - destruct (fault o) as [e|].
    { exists (AtExcept e). split; [constructor | reflexivity]. }
    destruct (String.eqb (output o) "").
    + destruct (poll o) as [rc|].
      * exists (AtFinal process rc). split; [constructor | reflexivity].
      * exists (AtRead process). split; [constructor|].
        rewrite <- Hpc. now apply stay.
    + exists (AtRead process). split; [constructor|].
      rewrite parse_progress_effect, <- Hpc.
      destruct (parse_line _) as [[kwargs|]|e]; try now apply stay.
      rewrite workers_call_back, workers_db_update. now apply stay.
  - exists (AtFinally None). split; [constructor|].
    now destruct (rc =? 0)%Z.
  - exists (AtFinally None). split; [constructor | reflexivity].
  - exists (Done u). split; [constructor|].
    cbn [set_pc workers set_workers]. now rewrite workers_call_back.
  - exists (Done u). split; [constructor|].
    rewrite <- Hpc. now apply stay.
Qed.

(** A step of a thread registers its process when it stands at line 293,
    removes the entry of its job in the [finally] block, and leaves the
    registry alone anywhere else. *)
Lemma worker_step_active (tid : nat) (o : oracle) (s : system) (w : worker) :
  workers s !! tid = Some w ->
  active_downloads (worker_step tid o s)
  = match w_pc w with
    | AtRegister process =>
        <[w_download_id w := process]> (active_downloads s)
    | AtFinally _ => delete (w_download_id w) (active_downloads s)
    | _ => active_downloads s
    end.
Proof.
  intros Hw. unfold worker_step. rewrite Hw.
  destruct (w_pc w) as [| |process|process|process rc|e|u|u]; try reflexivity.
  - now destruct (fault o).
  - destruct (fault o); [reflexivity|].
    destruct (String.eqb (output o) ""); [now destruct (poll o)|].
    rewrite parse_progress_effect.
    destruct (parse_line _) as [[kwargs|]|e]; try reflexivity.
    now rewrite active_call_back, active_db_update.
  - now destruct (rc =? 0)%Z.
  - cbn [set_pc active_downloads set_workers].
    now rewrite active_call_back.
Qed.

Lemma worker_step_limit (tid : nat) (o : oracle) (s : system) :
  max_concurrent (worker_step tid o s) = max_concurrent s.
Proof.
  unfold worker_step. destruct (workers s !! tid) as [w|]; [|reflexivity].
  destruct (w_pc w) as [| |process|process|process rc|e|u|u]; try reflexivity.
  - now destruct (fault o).
  - destruct (fault o); [reflexivity|].
    destruct (String.eqb (output o) ""); [now destruct (poll o)|].
    rewrite parse_progress_effect.
    destruct (parse_line _) as [[kwargs|]|e]; try reflexivity.
    now rewrite limit_call_back, limit_db_update.
  - now destruct (rc =? 0)%Z.
  - cbn [set_pc max_concurrent set_workers]. now rewrite limit_call_back.
Qed.

Lemma pc_after_step (tid : nat) (o : oracle) (s : system) (w : worker) :
  workers s !! tid = Some w ->
  exists q,
    follows (w_pc w) q
    /\ workers (worker_step tid o s) !! tid = Some (at_pc w q).
Proof.
  intros Hw. destruct (worker_step_follows tid o s w Hw) as (q & Hq & ->).
  exists q. split; [exact Hq|].
  apply list_lookup_insert_eq. eapply lookup_lt_Some, Hw.
Qed.

Lemma workers_signal_and_mark (sig : signal) (st : string) (download_id : Z)
      (sent : bool) (s : system) :
  workers (snd (signal_and_mark sig st download_id sent s)) = workers s.
Proof.
  unfold signal_and_mark. destruct (active_downloads s !! download_id);
    [|reflexivity].
  destruct sent; reflexivity.
Qed.

Lemma active_signal_and_mark (sig : signal) (st : string) (download_id : Z)
      (sent : bool) (s : system) :
  active_downloads (snd (signal_and_mark sig st download_id sent s))
  = active_downloads s.
Proof.
  unfold signal_and_mark. destruct (active_downloads s !! download_id);
    [|reflexivity].
  destruct sent; reflexivity.
Qed.

Lemma limit_signal_and_mark (sig : signal) (st : string) (download_id : Z)
      (sent : bool) (s : system) :
  max_concurrent (snd (signal_and_mark sig st download_id sent s))
  = max_concurrent s.
Proof.
  unfold signal_and_mark. destruct (active_downloads s !! download_id);
    [|reflexivity].
  destruct sent; reflexivity.
Qed.

(** Admission appends one thread at line 264 or changes nothing. *)
Lemma start_download_workers (download_id : Z) (u f p : value)
      (cb : option nat) (s : system) :
  workers (snd (start_download download_id u f p cb s)) = workers s
  \/ workers (snd (start_download download_id u f p cb s))
     = (workers s
        ++ [{| w_download_id := download_id; w_url := u; w_format_id := f;
               w_output_path := p; w_callback := cb; w_pc := AtStart |}])%list.
Proof. unfold start_download. destruct (_ <=? _)%Z; auto. Qed.

Lemma step_appends (a : action) (s : system) :
  match a with
  | Work _ _ => True
  | _ =>
      workers (step a s) = workers s
      \/ exists w,
          w_pc w = AtStart /\ workers (step a s) = (workers s ++ [w])%list
  end.
Proof.
  destruct a as [i u f p cb|i ok|i ok|i ok|i cb|tid o]; simpl; trivial;
    try (left; apply workers_signal_and_mark).
  - destruct (start_download_workers i u f p cb s) as [H|H]; [now left|].
    right. eexists. split; [|exact H]. reflexivity.
  - unfold retry_download. destruct (get_download_by_id i (db s)) as [d|];
      [|now left].
    destruct (start_download_workers i (url d) (format_id d) (file_path d) cb s)
      as [H|H]; [now left|].
    right. eexists. split; [|exact H]. reflexivity.
Qed.

End StepFacts.

(* ===================================================================== *)
(** ** Faults inside a worker                                             *)
(* ===================================================================== *)

Module FaultProperties.
Import Py Store Clock Manager Text Spec Fixtures.
Import StoreProperties ManagerFacts WorkerProperties StepFacts.

Lemma lookup_set_pc (tid : nat) (w w0 : worker) (p : pc) (s : system) :
  workers s !! tid = Some w0 ->
  workers (set_pc tid w p s) !! tid = Some (at_pc w p).
Proof.
  intros H. cbn [set_pc workers set_workers].
  apply list_lookup_insert_eq. eapply lookup_lt_Some, H.
Qed.

Lemma pc_of_set_pc (tid : nat) (w w0 : worker) (p : pc) (s : system) :
  workers s !! tid = Some w0 -> pc_of tid (set_pc tid w p s) = Some p.
Proof. intros H. unfold pc_of. now rewrite (lookup_set_pc _ _ _ _ _ H). Qed.

Lemma finally_releases (tid : nat) (o : oracle) (s : system) (w : worker)
      (u : option exn) :
  workers s !! tid = Some w ->
  w_pc w = AtFinally u ->
  download_threads (worker_step tid o s) !! w_download_id w = None.
Proof.
  intros Hw Hpc. unfold worker_step. rewrite Hw, Hpc.
  destruct (w_callback w); cbn; apply lookup_delete_eq.
Qed.

Lemma follows_keeps_quiet (p q : pc) :
  follows p q -> uncaught_of p = None -> uncaught_of q = None.
Proof. now destruct 1. Qed.

Lemma step_propagates_nothing (a : action) (s : system) :
  nothing_propagates s -> nothing_propagates (step a s).
Proof.
  intros Hs. pose proof (step_appends a s) as Happ.
  destruct a as [i u f p cb|i ok|i ok|i ok|i cb|tid o];
    try (destruct Happ as [E | (w0 & Hpc & E)]; unfold nothing_propagates;
         rewrite E; [exact Hs|];
         intros tid w Hl; apply lookup_app_Some in Hl as [Hl | [_ Hl]];
         [now apply (Hs tid) |];
         destruct (tid - length (workers s))%nat; [|discriminate];
         injection Hl as <-; now rewrite Hpc).
  simpl. destruct (workers s !! tid) as [w|] eqn:Hw.
  - destruct (worker_step_follows tid o s w Hw) as (q & Hq & E).
    unfold nothing_propagates. rewrite E. intros tid' w' Hl.
    destruct (decide (tid = tid')) as [<-|Hne].
    + rewrite list_lookup_insert_eq in Hl by (eapply lookup_lt_Some, Hw).
      injection Hl as <-. cbn [at_pc w_pc].
      eapply follows_keeps_quiet; [exact Hq | now apply (Hs tid)].
    + rewrite list_lookup_insert_ne in Hl by exact Hne. now apply (Hs tid').
  - unfold worker_step. now rewrite Hw.
Qed.

(** C5, as the claim states it, fails: an exception whose message is empty
    (here [MemoryError()], raised by [Popen]) is caught and the job marked
    failed, but the error detail stored is the empty text. *)
Lemma fault_without_message_leaves_empty_detail :
  let s := run [start_job 1 "https://youtu.be/a"; Work 0 proceed;
                Work 0 (raises out_of_memory); Work 0 proceed; Work 0 proceed]
               limit_three in
  exn_str out_of_memory = ""
  /\ pc_of 0 s = Some (Done None)
  /\ column_of K_status 1 s = Some (VText "failed")
  /\ column_of K_error_message 1 s = Some (VText "")
  /\ active_downloads s !! 1%Z = None.
Proof. repeat split; reflexivity. Qed.

(** C5. An exception that [Popen] or [readline] raises in a worker, with
    or without a message, is caught: the next statement of the thread is
    the handler and nothing has been written; the handler marks the job
    failed with [str(e)] as error detail, which is empty exactly when the
    message of the exception is, and leaves no exception pending; the
    [finally] block then removes the entries of the job from both
    registries.  More generally a thread
    ends only through the [finally] block, so that its job is registered
    no more when it has ended; no thread of any run ever ends on an
    uncaught exception; and when the ending thread held one of at most
    [max_concurrent] registered processes, the next start is admitted. *)
Theorem worker_faults_are_recorded_and_released :
  (forall (s : system) (tid : nat) (w : worker) (e : exn) (o : oracle)
          (row : DownloadItem),
      workers s !! tid = Some w ->
      (w_pc w = AtSpawn \/ exists process, w_pc w = AtRead process) ->
      fault o = Some e ->
      rows (db s) !! w_download_id w = Some row ->
      let s1 := worker_step tid o s in
      pc_of tid s1 = Some (AtExcept e)
      /\ db s1 = db s
      /\ forall o2 : oracle,
          let s2 := worker_step tid o2 s1 in
          pc_of tid s2 = Some (AtFinally None)
          /\ column_of K_status (w_download_id w) s2 = Some (VText "failed")
          /\ column_of K_error_message (w_download_id w) s2
             = Some (VText (exn_str e))
          /\ (column_of K_error_message (w_download_id w) s2
              = Some (VText "") <-> exn_str e = "")
          /\ forall o3 : oracle,
              let s3 := worker_step tid o3 s2 in
              pc_of tid s3 = Some (Done None)
              /\ active_downloads s3 !! w_download_id w = None
              /\ download_threads s3 !! w_download_id w = None)
  /\ (forall (s : system) (tid : nat) (o : oracle) (w : worker)
             (u : option exn),
         workers s !! tid = Some w ->
         (forall u', w_pc w <> Done u') ->
         pc_of tid (worker_step tid o s) = Some (Done u) ->
         active_downloads (worker_step tid o s) !! w_download_id w = None)
  /\ (forall (trace : list action) (s : system),
         nothing_propagates s -> nothing_propagates (run trace s))
  /\ (forall (s : system) (tid : nat) (o : oracle) (w : worker)
             (u : option exn) (process : nat)
             (download_id : Z) (url format_id output_path : value)
             (cb : option nat),
         workers s !! tid = Some w ->
         w_pc w = AtFinally u ->
         active_downloads s !! w_download_id w = Some process ->
         (Z.of_nat (size (active_downloads s)) <= max_concurrent s)%Z ->
         fst (start_download download_id url format_id output_path cb
                (worker_step tid o s)) = true).
Proof.
  repeat apply conj.
  - intros s tid w e o row Hw Hpc Hf Hrow. cbv zeta.
    assert (Hs1 : worker_step tid o s = set_pc tid w (AtExcept e) s).
    { unfold worker_step. rewrite Hw.
      destruct Hpc as [-> | [process ->]]; now rewrite Hf. }
    rewrite Hs1. split; [now apply (pc_of_set_pc _ _ w)|].
    split; [reflexivity|]. intros o2.
    pose proof (lookup_set_pc tid w w (AtExcept e) s Hw) as Hw1.
    assert (Hs2 : worker_step tid o2 (set_pc tid w (AtExcept e) s)
                  = set_pc tid (at_pc w (AtExcept e)) (AtFinally None)
                      (snd (db_update (w_download_id w)
                              [(K_status, VText "failed");
                               (K_error_message, VText (exn_str e))]
                              (set_pc tid w (AtExcept e) s)))).
    { unfold worker_step at 1. rewrite Hw1. reflexivity. }
    rewrite Hs2.
    split; [now apply (pc_of_set_pc _ _ (at_pc w (AtExcept e)))|].
    rewrite !column_of_set_pc.
    assert (Hrow1 : rows (db (set_pc tid w (AtExcept e) s)) !! w_download_id w
                    = Some row) by exact Hrow.
    rewrite !(column_after_update _ _ _ _ _ _ Hrow1).
    split; [reflexivity|]. split; [reflexivity|].
    split; [cbn; split; [now intros [= ->] | now intros ->]|]. intros o3.
    match goal with |- context [worker_step tid o3 ?t] => set (s2 := t) end.
    assert (Hw2 : workers s2 !! tid
                  = Some (at_pc (at_pc w (AtExcept e)) (AtFinally None)))
      by (now apply (lookup_set_pc _ _ (at_pc w (AtExcept e)))).
    split; [|split].
    + destruct (pc_after_step tid o3 s2 _ Hw2) as (q & Hq & Hl).
      unfold pc_of. rewrite Hl. cbn [at_pc w_pc] in *. now inversion Hq.
    + rewrite (worker_step_active tid o3 s2 _ Hw2). cbn [at_pc w_pc w_download_id].
      apply lookup_delete_eq.
    + apply (finally_releases tid o3 s2 _ None Hw2 eq_refl).
  - intros s tid o w u Hw Hnot Hdone.
    destruct (pc_after_step tid o s w Hw) as (q & Hq & Hl).
    unfold pc_of in Hdone. rewrite Hl in Hdone. cbn [at_pc w_pc] in Hdone.
    injection Hdone as ->.
    rewrite (worker_step_active tid o s w Hw).
    inversion Hq as [| | | | | | | | | | |u' Hp|u' Hp].
    + apply lookup_delete_eq.
    + exfalso. eapply Hnot. symmetry. exact Hp.
  - apply run_preserves, step_propagates_nothing.
  - intros s tid o w u process download_id url format_id output_path cb
           Hw Hpc Hreg Hsize.
    unfold start_download.
    rewrite worker_step_limit, (worker_step_active tid o s w Hw), Hpc.
    rewrite map_size_delete_Some by eauto.
    assert (size (active_downloads s) <> 0%nat).
    { intros H0. apply map_size_empty_iff in H0. rewrite H0 in Hreg.
      now rewrite lookup_empty in Hreg. }
    destruct (Z.leb_spec (max_concurrent s)
                (Z.of_nat (Nat.pred (size (active_downloads s)))));
      [lia | reflexivity].
Qed.

(** The theorem at job 1 of the fixture, whose thread is about to spawn
    the downloader when the binary is missing. *)
Lemma worker_faults_are_recorded_and_released_witness :
  let s := run [start_job 1 "https://youtu.be/a"; Work 0 proceed] limit_three in
  let s1 := worker_step 0 (raises no_such_file) s in
  pc_of 0 s1 = Some (AtExcept no_such_file)
  /\ db s1 = db s
  /\ forall o2 : oracle,
      let s2 := worker_step 0 o2 s1 in
      pc_of 0 s2 = Some (AtFinally None)
      /\ column_of K_status 1 s2 = Some (VText "failed")
      /\ column_of K_error_message 1 s2
         = Some (VText "[Errno 2] No such file or directory: 'yt-dlp'")
      /\ (column_of K_error_message 1 s2 = Some (VText "")
          <-> exn_str no_such_file = "")
      /\ forall o3 : oracle,
          let s3 := worker_step 0 o3 s2 in
          pc_of 0 s3 = Some (Done None)
          /\ active_downloads s3 !! 1%Z = None
          /\ download_threads s3 !! 1%Z = None.
Proof.
  cbv zeta.
  refine (proj1 worker_faults_are_recorded_and_released
            (run [start_job 1 "https://youtu.be/a"; Work 0 proceed] limit_three)
            0%nat
            {| w_download_id := 1; w_url := VText "https://youtu.be/a";
               w_format_id := VText "22";
               w_output_path := VText "/home/u/Downloads/clip.%(ext)s";
               w_callback := Some 0%nat; w_pc := AtSpawn |}
            no_such_file (raises no_such_file) _ _ _ _ _);
    [reflexivity | left; reflexivity | reflexivity | reflexivity].
Defined.

End FaultProperties.

(* ===================================================================== *)
(** ** Cancellation against the final write                               *)
(* ===================================================================== *)

Module CancelProperties.
Import Py Store Clock Manager Text Spec Fixtures.

(** C2. The code does not keep what the claim asks for.  Job 1 is
    cancelled, once while running and once while paused, and its status is
    cancelled; when its worker then observes the end of the stream, the
    final write replaces that status: by failed when the process was killed
    by the signal (exit code -15), and by completed when it had already
    exited with 0. *)
Theorem end_of_stream_overwrites_cancelled :
  let cancelled := step (Cancel 1 true) job1_reading in
  let paused_cancelled := run [Pause 1 true; Cancel 1 true] job1_reading in
  column_of K_status 1 cancelled = Some (VText "cancelled")
  /\ column_of K_status 1
       (run [Work 0 (exited (-15)); Work 0 proceed] cancelled)
     = Some (VText "failed")
  /\ column_of K_status 1
       (run [Work 0 (exited 0); Work 0 proceed] cancelled)
     = Some (VText "completed")
  /\ column_of K_status 1 paused_cancelled = Some (VText "cancelled")
  /\ column_of K_status 1
       (run [Work 0 (exited (-15)); Work 0 proceed] paused_cancelled)
     = Some (VText "failed")
  /\ signals paused_cancelled = [(0%nat, SIGSTOP); (0%nat, SIGTERM)].
Proof. cbv zeta. repeat split; vm_compute; reflexivity. Qed.

End CancelProperties.

(* ===================================================================== *)
(** ** Retry                                                              *)
(* ===================================================================== *)

Module RetryProperties.
Import Py Store Clock Manager Text Spec Fixtures.
Import StoreProperties ManagerFacts WorkerProperties StepFacts.

(** No update of the manager binds the url, the format or the path. *)
Lemma written_keeps_descriptor (kwargs : list (column * value)) (c : column) :
  written kwargs ->
  c = K_url \/ c = K_format_id \/ c = K_file_path ->
  supplied c kwargs = None.
Proof. intros Hw [-> | [-> | ->]]; now destruct Hw. Qed.

Lemma step_keeps_descriptor (a : action) (s : system) (download_id : Z)
      (c : column) :
  c = K_url \/ c = K_format_id \/ c = K_file_path ->
  column_of c download_id (step a s) = column_of c download_id s.
Proof.
  intros Hc. unfold column_of.
  destruct (step_db a s) as [-> | (i & kwargs & Hw & ->)]; [reflexivity|].
  cbn [rows]. rewrite lookup_alter.
  destruct (decide (i = download_id)) as [->|Hne]; [|reflexivity].
  destruct (rows (db s) !! download_id) as [row|]; [|reflexivity].
  cbn [fmap option_fmap option_map].
  now rewrite get_assign, (written_keeps_descriptor _ _ Hw Hc).
Qed.

(** C6, as the claim states it, fails: job 1 has failed (the binary was
    missing) and is retried; its status stays failed until the new worker
    writes downloading, and is pending at no point of the run. *)
Lemma retry_goes_from_failed_to_downloading :
  let failed :=
    run [start_job 1 "https://youtu.be/a"; Work 0 proceed;
         Work 0 (raises no_such_file); Work 0 proceed; Work 0 proceed]
        limit_three in
  column_of K_status 1 failed = Some (VText "failed")
  /\ List.map (column_of K_status 1)
       (history [Retry 1 None; Work 1 proceed; Work 1 proceed; Work 1 proceed]
                failed)
     = [Some (VText "failed"); Some (VText "failed");
        Some (VText "downloading"); Some (VText "downloading");
        Some (VText "downloading")].
Proof. cbv zeta. split; vm_compute; reflexivity. Qed.

(** C6. [retry_download] of a stored job, a failed one in particular, runs
    the start sequence under the same job id with the url, the format and
    the path of its record: nothing is written by the call itself; at the
    limit the call changes nothing and the job stays as it is; below it a
    thread is added that first writes the status downloading, with no
    status in between, and then spawns the downloader on the url, format
    and path of the record.  And no run ever changes the url, the format
    or the path of any record. *)
Theorem retry_restarts_from_the_record :
  (forall (s : system) (download_id : Z) (cb : option nat)
          (row : DownloadItem),
      rows (db s) !! download_id = Some row ->
      let s' := retry_download download_id cb s in
      let tid := length (workers s) in
      db s' = db s
      /\ if (max_concurrent s <=? Z.of_nat (size (active_downloads s)))%Z
         then s' = s
         else
           workers s'
           = (workers s
              ++ [{| w_download_id := download_id; w_url := url row;
                     w_format_id := format_id row;
                     w_output_path := file_path row;
                     w_callback := cb; w_pc := AtStart |}])%list
           /\ download_threads s' = <[download_id := tid]> (download_threads s)
           /\ active_downloads s' = active_downloads s
           /\ forall o : oracle,
               column_of K_status download_id (worker_step tid o s')
               = Some (VText "downloading")
               /\ forall o2 : oracle,
                   fault o2 = None ->
                   spawned (worker_step tid o2 (worker_step tid o s'))
                   = (spawned s
                      ++ [build_cmd (max_speed s) (url row) (format_id row)
                                    (file_path row)])%list)
  /\ (forall (trace : list action) (s : system) (download_id : Z)
             (c : column),
         c = K_url \/ c = K_format_id \/ c = K_file_path ->
         column_of c download_id (run trace s) = column_of c download_id s).
Proof.
  split.
  - intros s download_id cb row Hrow. cbv zeta.
    set (w := {| w_download_id := download_id; w_url := url row;
                 w_format_id := format_id row;
                 w_output_path := file_path row;
                 w_callback := cb; w_pc := AtStart |}).
    set (s' := set_workers (workers s ++ [w])
                 (set_threads
                    (<[download_id := length (workers s)]>
                       (download_threads s)) s)).
    assert (Hret : retry_download download_id cb s
                   = if (max_concurrent s
                         <=? Z.of_nat (size (active_downloads s)))%Z
                     then s else s').
    { unfold retry_download, get_download_by_id, start_download.
      rewrite Hrow. now destruct (_ <=? _)%Z. }
    rewrite !Hret.
    destruct (max_concurrent s <=? Z.of_nat (size (active_downloads s)))%Z
      eqn:Hfull.
    + split; reflexivity.
    + assert (Hw : workers s' !! length (workers s) = Some w)
        by (apply list_lookup_middle; reflexivity).
      split; [reflexivity|]. split; [reflexivity|].
      split; [reflexivity|]. split; [reflexivity|]. intros o.
      assert (Hs1 : worker_step (length (workers s)) o s'
                    = set_pc (length (workers s)) w AtSpawn
                        (snd (db_update download_id
                                [(K_status, VText "downloading")] s'))).
      { unfold worker_step. rewrite Hw. reflexivity. }
      rewrite Hs1. split.
      * rewrite column_of_set_pc.
        assert (Hrow' : rows (db s') !! download_id = Some row) by exact Hrow.
        now rewrite (column_after_update _ _ _ _ _ _ Hrow').
      * intros o2 Hf.
        match goal with |- context [worker_step _ o2 ?t] => set (s1 := t) end.
        assert (Hw1 : workers s1 !! length (workers s) = Some (at_pc w AtSpawn)).
        { subst s1. cbn [set_pc workers set_workers].
          rewrite workers_db_update. apply list_lookup_insert_eq.
          eapply lookup_lt_Some, Hw. }
        unfold worker_step. rewrite Hw1. cbn [at_pc w_pc]. rewrite Hf.
        reflexivity.
  - intros trace s download_id c Hc.
    apply (run_preserves
             (fun t => column_of c download_id t = column_of c download_id s));
      [|reflexivity].
    intros a t Ht. now rewrite step_keeps_descriptor.
Qed.

(** The theorem at the failed job 1 of the counterexample. *)
Lemma retry_restarts_from_the_record_witness :
  let failed :=
    run [start_job 1 "https://youtu.be/a"; Work 0 proceed;
         Work 0 (raises no_such_file); Work 0 proceed; Work 0 proceed]
        limit_three in
  column_of K_status 1 failed = Some (VText "failed")
  /\ db (retry_download 1 None failed) = db failed
  /\ workers (retry_download 1 None failed)
     = (workers failed
        ++ [{| w_download_id := 1; w_url := VText "https://youtu.be/a";
               w_format_id := VText "22";
               w_output_path := VText "/home/u/Downloads/clip.%(ext)s";
               w_callback := None; w_pc := AtStart |}])%list.
Proof.
  cbv zeta. split; [reflexivity|].
  destruct (proj1 retry_restarts_from_the_record
              (run [start_job 1 "https://youtu.be/a"; Work 0 proceed;
                    Work 0 (raises no_such_file); Work 0 proceed;
                    Work 0 proceed] limit_three)
              1%Z None
              (set_col K_error_message (VText (exn_str no_such_file))
                 (set_col K_status (VText "failed")
                    (set_col K_completed_at VNull (set_col K_speed VNull
                      (set_col K_eta VNull
                        (with_id 1 (item "https://youtu.be/a")))))))
              eq_refl) as [Hdb Hrest].
  split; [exact Hdb|]. exact (proj1 Hrest).
Defined.

End RetryProperties.

(* ===================================================================== *)
(** ** Admission                                                          *)
(* ===================================================================== *)

Module AdmissionProperties.
Import Py Store Clock Manager Text Spec Fixtures.
Import StoreProperties ManagerFacts WorkerProperties StepFacts.

Lemma count_insert (f : worker -> bool) (l : list worker) (i : nat)
      (x y : worker) :
  l !! i = Some x ->
  (length (List.filter f (<[i := y]> l)) + (if f x then 1 else 0)
   = length (List.filter f l) + (if f y then 1 else 0))%nat.
Proof.
  revert i; induction l as [|z l IH]; intros [|i] H; try discriminate.
  - injection H as ->. simpl. destruct (f x), (f y); simpl; lia.
  - simpl in *. specialize (IH i H). destruct (f z); simpl; lia.
Qed.

Lemma count_snoc (f : worker -> bool) (l : list worker) (y : worker) :
  length (List.filter f (l ++ [y]))
  = (length (List.filter f l) + (if f y then 1 else 0))%nat.
Proof.
  rewrite List.filter_app, List.length_app. cbn [List.filter].
  now destruct (f y).
Qed.

Lemma size_insert_le (m : gmap Z nat) (i : Z) (x : nat) :
  (size (<[i := x]> m) <= S (size m))%nat.
Proof. rewrite map_size_insert. destruct (m !! i); simpl; lia. Qed.

Lemma size_delete_le (m : gmap Z nat) (i : Z) :
  (size (delete i m) <= size m)%nat.
Proof. rewrite map_size_delete. destruct (m !! i); simpl; lia. Qed.

(** A step of a thread never raises the number of occupied slots. *)
Lemma worker_step_occupied (tid : nat) (o : oracle) (s : system) :
  (occupied (worker_step tid o s) <= occupied s)%nat.
Proof.
  destruct (workers s !! tid) as [w|] eqn:Hw;
    [|unfold worker_step; now rewrite Hw].
  unfold occupied, launching_count.
  destruct (worker_step_follows tid o s w Hw) as (q & Hq & ->).
  rewrite (worker_step_active tid o s w Hw).
  pose proof (count_insert launching (workers s) tid w (at_pc w q) Hw) as Hc.
  set (n1 := length (List.filter launching _)) in *.
  set (n0 := length (List.filter launching (workers s))) in *.
  unfold launching in Hc. cbn [at_pc w_pc] in Hc.
  pose proof (size_insert_le (active_downloads s) (w_download_id w)) as Hi.
  pose proof (size_delete_le (active_downloads s) (w_download_id w)) as Hd.
  remember (w_pc w) as p eqn:Hp.
  destruct Hq; try specialize (Hi process); lia.
Qed.

Lemma start_download_occupied (download_id : Z) (u f p : value)
      (cb : option nat) (s : system) :
  launching_count s = 0%nat ->
  (Z.of_nat (occupied s) <= max_concurrent s)%Z ->
  (Z.of_nat (occupied (snd (start_download download_id u f p cb s)))
   <= max_concurrent s)%Z.
Proof.
  intros H0 Hs. unfold start_download.
  destruct (Z.leb_spec (max_concurrent s) (Z.of_nat (size (active_downloads s))));
    [exact Hs|].
  unfold occupied, launching_count in *. cbn [snd workers set_workers
    active_downloads set_threads]. rewrite count_snoc. cbn. lia.
Qed.

Lemma limit_start_download (download_id : Z) (u f p : value)
      (cb : option nat) (s : system) :
  max_concurrent (snd (start_download download_id u f p cb s))
  = max_concurrent s.
Proof. unfold start_download. now destruct (_ <=? _)%Z. Qed.

Lemma limit_step (a : action) (s : system) :
  max_concurrent (step a s) = max_concurrent s.
Proof.
  destruct a as [i u f p cb|i ok|i ok|i ok|i cb|tid o]; simpl;
    try apply limit_signal_and_mark.
  - apply limit_start_download.
  - unfold retry_download. destruct (get_download_by_id i (db s));
      [apply limit_start_download | reflexivity].
  - apply worker_step_limit.
Qed.

Lemma occupied_signal_and_mark (sig : signal) (st : string) (download_id : Z)
      (sent : bool) (s : system) :
  occupied (snd (signal_and_mark sig st download_id sent s)) = occupied s.
Proof.
  unfold occupied, launching_count.
  now rewrite active_signal_and_mark, workers_signal_and_mark.
Qed.

(** The bound survives every step that is not a start made while some
    admitted thread is still short of registering. *)
Lemma step_within_limit (a : action) (s : system) :
  match a with
  | Start _ _ _ _ _ | Retry _ _ => launching_count s = 0%nat
  | _ => True
  end ->
  (Z.of_nat (occupied s) <= max_concurrent s)%Z ->
  (Z.of_nat (occupied (step a s)) <= max_concurrent (step a s))%Z.
Proof.
  intros Hser Hs. rewrite limit_step.
  destruct a as [i u f p cb|i ok|i ok|i ok|i cb|tid o]; simpl;
    try (unfold pause_download, resume_download, cancel_download;
         now rewrite occupied_signal_and_mark).
  - now apply start_download_occupied.
  - unfold retry_download. destruct (get_download_by_id i (db s));
      [now apply start_download_occupied | exact Hs].
  - pose proof (worker_step_occupied tid o s). lia.
Qed.

(** C1, as the claim states it, fails.  Under a limit of one, job 1 is
    admitted and is downloading, so that the downloading jobs are as many
    as the limit; the start of job 2 is nevertheless admitted, because the
    process of job 1 is not registered yet, and both are then downloading.
    Likewise a manager created over a store in which job 1 was left
    downloading admits job 2: it has no process registered. *)
Lemma start_is_admitted_at_the_limit :
  let r1 := start_download 1 (VText "https://youtu.be/a") (VText "22")
              (VText "/home/u/Downloads/a.%(ext)s") None limit_one in
  let s2 := worker_step 0 proceed (snd r1) in
  let r2 := start_download 2 (VText "https://youtu.be/b") (VText "22")
              (VText "/home/u/Downloads/b.%(ext)s") None s2 in
  let s4 := worker_step 1 proceed (snd r2) in
  let r := start_download 2 (VText "https://youtu.be/b") (VText "22")
             (VText "/home/u/Downloads/b.%(ext)s") None next_session in
  fst r1 = true
  /\ max_concurrent s2 = 1%Z
  /\ count_status "downloading" s2 = 1%nat
  /\ fst r2 = true
  /\ length (workers s2) = 1%nat
  /\ length (workers (snd r2)) = 2%nat
  /\ count_status "downloading" s4 = 2%nat
  /\ max_concurrent s4 = 1%Z
  /\ count_status "downloading" next_session = 1%nat
  /\ max_concurrent next_session = 1%Z
  /\ fst r = true
  /\ length (workers (snd r)) = 1%nat.
Proof. cbv zeta. repeat split; vm_compute; reflexivity. Qed.

(** C1. [start_download] is decided by the number of registered
    processes: when [active_downloads] holds at least [max_concurrent]
    entries the call returns false and changes nothing, and otherwise it
    returns true and only adds the thread of the job.  In every run whose
    starts and retries are each made when no admitted thread is still short
    of registering its process, the registered processes, together with
    such threads, never exceed the limit. *)
Theorem admission_counts_registered_processes :
  (forall (s : system) (download_id : Z) (url format_id output_path : value)
          (cb : option nat),
      (max_concurrent s <= Z.of_nat (size (active_downloads s)))%Z ->
      start_download download_id url format_id output_path cb s = (false, s))
  /\ (forall (s : system) (download_id : Z)
             (url format_id output_path : value) (cb : option nat),
         (Z.of_nat (size (active_downloads s)) < max_concurrent s)%Z ->
         start_download download_id url format_id output_path cb s
         = (true,
            set_workers
              (workers s
               ++ [{| w_download_id := download_id; w_url := url;
                      w_format_id := format_id;
                      w_output_path := output_path;
                      w_callback := cb; w_pc := AtStart |}])
              (set_threads
                 (<[download_id := length (workers s)]> (download_threads s))
                 s)))
  /\ (forall (trace : list action) (s : system),
         starts_are_serialised trace s = true ->
         (Z.of_nat (size (active_downloads s) + launching_count s)
          <= max_concurrent s)%Z ->
         (Z.of_nat (size (active_downloads (run trace s))
                    + launching_count (run trace s))
          <= max_concurrent (run trace s))%Z).
Proof.
  repeat apply conj.
  - intros s download_id url format_id output_path cb H.
    unfold start_download. apply Z.leb_le in H. now rewrite H.
  - intros s download_id url format_id output_path cb H.
    unfold start_download. apply Z.leb_gt in H. now rewrite H.
  - intros trace. unfold run.
    induction trace as [|a rest IH]; intros s Hser Hs; [exact Hs|].
    cbn [starts_are_serialised] in Hser.
    apply andb_true_iff in Hser as [Ha Hrest].
    cbn [fold_left]. apply IH; [exact Hrest|].
    apply step_within_limit; [|exact Hs].
    destruct a; trivial; now apply Nat.eqb_eq.
Qed.

(** The theorem at a run under a limit of one in which job 2 is started
    once job 1 has registered its process, and again once job 1 is done. *)
Lemma admission_counts_registered_processes_witness :
  let trace :=
    [start_job 1 "https://youtu.be/a";
     Work 0 proceed; Work 0 proceed; Work 0 proceed;
     start_job 2 "https://youtu.be/b";
     Work 0 (exited 0); Work 0 proceed; Work 0 proceed;
     start_job 2 "https://youtu.be/b"; Work 1 proceed] in
  (Z.of_nat (size (active_downloads (run trace limit_one))
             + launching_count (run trace limit_one))
   <= max_concurrent (run trace limit_one))%Z
  /\ count_status "downloading" (run trace limit_one) = 1%nat
  /\ count_status "completed" (run trace limit_one) = 1%nat.
Proof.
  cbv zeta. split; [|split; vm_compute; reflexivity].
  apply (proj2 (proj2 admission_counts_registered_processes)).
  - vm_compute; reflexivity.
  - vm_compute. discriminate.
Defined.

End AdmissionProperties.

(* ===================================================================== *)
(** ** The store: adding, reading back and deleting rows                  *)
(* ===================================================================== *)

Module StoreCoverage.
Import Py Store StoreOps Fixtures.

Lemma max_key_bounds (m : gmap Z DownloadItem) (k : Z) (x : DownloadItem) :
  m !! k = Some x -> (k <= max_key m)%Z.
Proof.
  unfold max_key. revert k x.
  apply (map_fold_weak_ind
           (fun r (m : gmap Z DownloadItem) =>
              forall k x, m !! k = Some x -> (k <= r)%Z)).
  - intros k x H. now rewrite lookup_empty in H.
  - intros i y m' r Hi IH k x H.
    destruct (decide (i = k)) as [->|Hne]; [lia|].
    rewrite lookup_insert_ne in H by exact Hne.
    specialize (IH k x H). lia.
Qed.

(** X1. [add_download] gives the row an id that no row has and that
    exceeds every id of the table and the counter; reading that id back
    returns the thirteen inserted fields of the item under this id, with
    [completed_at], [speed], [eta] and [error_message] NULL whatever the
    item held there; and every other id reads as before. *)
Theorem add_download_reads_back :
  forall (item : DownloadItem) (d : database),
    let r := add_download item d in
    rows d !! fst r = None
    /\ (forall k, is_Some (rows d !! k) -> (k < fst r)%Z)
    /\ (last_rowid d < fst r)%Z
    /\ last_rowid (snd r) = fst r
    /\ get_download_by_id (fst r) (snd r)
       = Some {| item_id := Some (fst r);
                 url := url item; title := title item;
                 platform := platform item; format_id := format_id item;
                 quality := quality item; file_type := file_type item;
                 file_path := file_path item; file_size := file_size item;
                 progress := progress item; status := status item;
                 created_at := created_at item;
                 completed_at := VNull; speed := VNull; eta := VNull;
                 error_message := VNull;
                 thumbnail_url := thumbnail_url item;
                 duration := duration item |}
    /\ (forall other,
           other <> fst r ->
           get_download_by_id other (snd r) = get_download_by_id other d).
Proof.
  intros item d. cbv zeta. unfold add_download. cbn [fst snd].
  set (i := (Z.max (last_rowid d) (max_key (rows d)) + 1)%Z).
  assert (Hk : forall k, is_Some (rows d !! k) -> (k < i)%Z).
  { intros k [x Hx]. pose proof (max_key_bounds _ _ _ Hx). lia. }
  repeat apply conj.
  - destruct (rows d !! i) as [x|] eqn:E; [|reflexivity].
    specialize (Hk i (ex_intro _ x E)). lia.
  - exact Hk.
  - lia.
  - reflexivity.
  - unfold get_download_by_id. cbn [rows]. now rewrite lookup_insert_eq.
  - intros other Hne. unfold get_download_by_id. cbn [rows].
    now rewrite lookup_insert_ne by congruence.
Qed.

Lemma alter_absent (f : DownloadItem -> DownloadItem) (i : Z)
      (m : gmap Z DownloadItem) :
  m !! i = None -> alter f i m = m.
Proof.
  intros H. apply map_eq. intros j. rewrite lookup_alter.
  destruct (decide (i = j)) as [<-|]; [now rewrite H | reflexivity].
Qed.

(** X2. [delete_download] removes the row of that id and no other; a
    second delete, or the delete of an id the table does not hold, leaves
    the store as it is; the counter of ids is kept; and an update of the
    deleted id returns normally and writes nothing. *)
Theorem delete_download_removes_one_row :
  forall (d : database) (i : Z),
    get_download_by_id i (delete_download i d) = None
    /\ (forall j, j <> i ->
           get_download_by_id j (delete_download i d) = get_download_by_id j d)
    /\ delete_download i (delete_download i d) = delete_download i d
    /\ (get_download_by_id i d = None -> delete_download i d = d)
    /\ last_rowid (delete_download i d) = last_rowid d
    /\ (forall kv rest,
           update_download i (kv :: rest) (delete_download i d)
           = Ret (delete_download i d)).
Proof.
  intros d i. unfold get_download_by_id, delete_download. cbn [rows last_rowid].
  repeat apply conj.
  - now rewrite lookup_delete_eq.
  - intros j Hne. now rewrite lookup_delete_ne by congruence.
  - f_equal. apply delete_id, lookup_delete_eq.
  - intros H. destruct d as [m n]. cbn [rows last_rowid] in *. f_equal.
    apply delete_id. now destruct (m !! i).
  - reflexivity.
  - intros kv rest. unfold update_download. cbn [rows last_rowid].
    do 2 f_equal. apply alter_absent, lookup_delete_eq.
Qed.

Lemma apply_op_counter (op : store_op) (d : database) :
  (last_rowid d <= last_rowid (snd (apply_op op d)))%Z
  /\ match fst (apply_op op d) with
     | Some i => (last_rowid d < i)%Z /\ last_rowid (snd (apply_op op d)) = i
     | None => True
     end.
Proof.
  destruct op as [item|i kwargs|i]; cbn [apply_op fst snd].
  - unfold add_download. cbn [fst snd last_rowid]. lia.
  - unfold update_download. destruct kwargs; cbn [fst snd last_rowid]; lia.
  - cbn [delete_download last_rowid]. lia.
Qed.

Lemma apply_op_covers (op : store_op) (d : database) :
  counter_covers d -> counter_covers (snd (apply_op op d)).
Proof.
  intros Hd. destruct op as [item|i kwargs|i]; cbn [apply_op snd].
  - destruct (add_download_reads_back item d) as (_ & Hlt & _ & Hl & _).
    cbv zeta in *. intros k [x Hx]. rewrite Hl.
    unfold add_download in *. cbn [fst snd rows] in *.
    destruct (decide (Z.max (last_rowid d) (max_key (rows d)) + 1 = k)%Z)
      as [<-|Hne]; [lia|].
    rewrite lookup_insert_ne in Hx by exact Hne.
    specialize (Hlt k (ex_intro _ x Hx)). lia.
  - unfold update_download. destruct kwargs as [|kv rest]; cbn [snd]; [exact Hd|].
    intros k Hk. cbn [rows last_rowid] in *. apply Hd.
    rewrite lookup_alter in Hk.
    destruct (decide (i = k)) as [<-|]; [|exact Hk].
    destruct (rows d !! i); [eauto | destruct Hk; discriminate].
  - intros k Hk. cbn [delete_download rows last_rowid] in *. apply Hd.
    destruct (decide (i = k)) as [<-|Hne].
    + rewrite lookup_delete_eq in Hk. destruct Hk; discriminate.
    + now rewrite lookup_delete_ne in Hk by exact Hne.
Qed.

Lemma added_ids_above (ops : list store_op) (d : database) :
  StronglySorted Z.lt (added_ids ops d)
  /\ Forall (fun i => (last_rowid d < i)%Z) (added_ids ops d).
Proof.
  revert d; induction ops as [|op rest IH]; intros d; cbn [added_ids].
  - split; constructor.
  - destruct (apply_op_counter op d) as [Hle Hid].
    destruct (apply_op op d) as [[i|] d'] eqn:E; cbn [fst snd] in *.
    + destruct Hid as [Hlt Hl]. destruct (IH d') as [Hs Hf]. split.
      * constructor; [exact Hs|].
        eapply List.Forall_impl; [|exact Hf]. cbv beta. intros a Ha. lia.
      * constructor; [exact Hlt|].
        eapply List.Forall_impl; [|exact Hf]. cbv beta. intros a Ha. lia.
    + destruct (IH d') as [Hs Hf]. split; [exact Hs|].
      eapply List.Forall_impl; [|exact Hf]. cbv beta. intros a Ha. lia.
Qed.

(** X3. Over any sequence of adds, updates and deletes on a table whose ids
    are covered by its counter, the ids that [add_download] returns grow
    strictly, none of them is an id the table held at the start, and the
    ids of the table stay covered: the id of a deleted row is never given
    to a later one. *)
Theorem added_ids_are_never_reused :
  forall (ops : list store_op) (d : database),
    counter_covers d ->
    StronglySorted Z.lt (added_ids ops d)
    /\ Forall (fun i => rows d !! i = None /\ (last_rowid d < i)%Z)
              (added_ids ops d)
    /\ counter_covers (apply_ops ops d).
Proof.
  intros ops d Hd. destruct (added_ids_above ops d) as [Hs Hf].
  split; [exact Hs|]. split.
  - eapply List.Forall_impl; [|exact Hf]. cbv beta. intros i Hi. split; [|exact Hi].
    destruct (rows d !! i) as [x|] eqn:E; [|reflexivity].
    specialize (Hd i (ex_intro _ x E)). lia.
  - clear Hs Hf. revert d Hd.
    induction ops as [|op rest IH]; intros d Hd; cbn [apply_ops].
    + exact Hd.
    + apply IH, apply_op_covers, Hd.
Qed.

(** The theorem on the empty table: the third add gets 3 although row 2 is
    gone by then. *)
Lemma added_ids_are_never_reused_witness :
  StronglySorted Z.lt [1; 2; 3]%Z
  /\ Forall (fun i => rows empty_db !! i = None /\ (last_rowid empty_db < i)%Z)
            [1; 2; 3]%Z
  /\ counter_covers
       (apply_ops [Add (item "https://youtu.be/a");
                   Add (item "https://youtu.be/b");
                   Delete 2; Add (item "https://youtu.be/c")] empty_db).
Proof.
  apply (added_ids_are_never_reused
           [Add (item "https://youtu.be/a"); Add (item "https://youtu.be/b");
            Delete 2; Add (item "https://youtu.be/c")] empty_db).
  intros k [x Hx]. cbn in Hx. now rewrite lookup_empty in Hx.
Defined.

End StoreCoverage.

(* ===================================================================== *)
(** ** The settings table                                                 *)
(* ===================================================================== *)

Module SettingsProperties.
Import Settings.

Lemma lookup_insert_or_ignore (k0 v0 k : string) (t : gmap string string) :
  insert_or_ignore k0 v0 t !! k
  = match t !! k with
    | Some v => Some v
    | None => if String.eqb k0 k then Some v0 else None
    end.
Proof.
  unfold insert_or_ignore. destruct (String.eqb_spec k0 k) as [->|Hne].
  - destruct (t !! k) eqn:E; [now rewrite E|].
    now rewrite lookup_insert_eq.
  - destruct (t !! k0) eqn:E0; [now destruct (t !! k)|].
    rewrite lookup_insert_ne by exact Hne. now destruct (t !! k).
Qed.

Lemma lookup_fold_insert_or_ignore (l : list (string * string))
      (t : gmap string string) (k : string) :
  fold_left (fun acc kv => insert_or_ignore (fst kv) (snd kv) acc) l t !! k
  = match t !! k with
    | Some v => Some v
    | None => first_value k l
    end.
Proof.
  revert t; induction l as [|[k0 v0] rest IH]; intros t; cbn [fold_left].
  - now destruct (t !! k).
  - rewrite IH, lookup_insert_or_ignore. cbn [first_value fst snd].
    destruct (t !! k); [reflexivity|]. now destruct (String.eqb k0 k).
Qed.

Lemma lookup_init (dir : string) (t : gmap string string) (k : string) :
  init_settings dir t !! k
  = match t !! k with
    | Some v => Some v
    | None => first_value k (default_settings dir)
    end.
Proof. apply lookup_fold_insert_or_ignore. Qed.

Lemma first_value_dir (dir dir' k : string) :
  is_Some (first_value k (default_settings dir))
  -> is_Some (first_value k (default_settings dir')).
Proof.
  cbn [first_value default_settings fst snd].
  repeat (destruct (String.eqb _ k); [eauto|]). trivial.
Qed.

(** X4. [init_database] never overwrites a setting that is stored: it gives
    each of the eight default keys that is missing its default and touches
    no other key, so that running it again, also under another home
    directory, changes nothing.  [get_setting] returns what [set_setting]
    stored last under the key, and the empty string for a key that was
    never stored; [set_setting] changes no other key. *)
Theorem settings_survive_initialisation :
  (forall (dir : string) (t : gmap string string) (k v : string),
      t !! k = Some v -> get_setting k (init_settings dir t) = v)
  /\ (forall (dir : string) (t : gmap string string) (k : string),
         t !! k = None ->
         init_settings dir t !! k = first_value k (default_settings dir))
  /\ (forall (dir dir' : string) (t : gmap string string),
         init_settings dir' (init_settings dir t) = init_settings dir t)
  /\ (forall (dir : string) (k v : string),
         get_setting k (init_settings dir (set_setting k v ∅)) = v)
  /\ (forall (t : gmap string string) (k v : string),
         get_setting k (set_setting k v t) = v)
  /\ (forall (t : gmap string string) (k k' v : string),
         k <> k' -> get_setting k' (set_setting k v t) = get_setting k' t)
  /\ (forall k : string, get_setting k ∅ = "")
  /\ List.map (fun k => get_setting k (init_settings "/home/u/Downloads" ∅))
              ["download_path"; "max_concurrent_downloads";
               "max_download_speed"; "clipboard_monitoring"; "theme"]
     = ["/home/u/Downloads"; "3"; "0"; "true"; ""].
Proof.
  repeat apply conj.
  - intros dir t k v H. unfold get_setting. now rewrite lookup_init, H.
  - intros dir t k H. now rewrite lookup_init, H.
  - intros dir dir' t. apply map_eq. intros k.
    rewrite (lookup_init dir'), (lookup_init dir).
    destruct (t !! k) eqn:E; [reflexivity|].
    destruct (first_value k (default_settings dir)) eqn:E1; [reflexivity|].
    destruct (first_value k (default_settings dir')) eqn:E2; [|reflexivity].
    destruct (first_value_dir dir' dir k) as [x Hx]; [eauto|]. congruence.
  - intros dir k v. unfold get_setting, set_setting.
    now rewrite lookup_init, lookup_insert_eq.
  - intros t k v. unfold get_setting, set_setting.
    now rewrite lookup_insert_eq.
  - intros t k k' v Hne. unfold get_setting, set_setting.
    now rewrite lookup_insert_ne.
  - intros k. unfold get_setting. now rewrite lookup_empty.
  - vm_compute. reflexivity.
Qed.

(** The theorem at a table in which the limit was saved as 5. *)
Lemma settings_survive_initialisation_witness :
  get_setting "max_concurrent_downloads"
    (init_settings "/home/u/Downloads"
       (set_setting "max_concurrent_downloads" "5" ∅)) = "5".
Proof.
  apply (proj1 settings_survive_initialisation "/home/u/Downloads"
               (set_setting "max_concurrent_downloads" "5" ∅)
               "max_concurrent_downloads" "5").
  reflexivity.
Defined.

End SettingsProperties.

(* ===================================================================== *)
(** ** The interface: file names, submission and the buttons of a row     *)
(* ===================================================================== *)

Module InterfaceProperties.
Import Py Store Clock Manager Text Paths Interface Fixtures.
Import TextFacts StoreCoverage.

Lemma safe_title_allowed (title : string) : all allowed (safe_title title) = true.
Proof.
  induction title as [|c rest IH]; cbn [safe_title all]; [reflexivity|].
  rewrite IH, andb_true_r. unfold allowed.
  destruct (forbidden c) eqn:E; [reflexivity | now rewrite E].
Qed.

Lemma allowed_not_slash (s : string) :
  all allowed s = true -> all not_slash s = true.
Proof.
  induction s as [|c rest IH]; cbn [all]; [reflexivity|].
  intros H. apply andb_true_iff in H as [Hc Hr]. rewrite (IH Hr), andb_true_r.
  unfold allowed, not_slash in *.
  destruct (Ascii.eqb_spec c "/") as [->|]; [discriminate | reflexivity].
Qed.

Lemma contains_one (sep c : ascii) (s : string) :
  contains (String sep "") (String c s)
  = Ascii.eqb sep c || contains (String sep "") s.
Proof. cbn [contains startswith]. now rewrite andb_true_r. Qed.

Lemma no_slash_not_contained (s : string) :
  all not_slash s = true -> contains "/" s = false.
Proof.
  induction s as [|c rest IH]; [reflexivity|].
  cbn [all]. intros H. apply andb_true_iff in H as [Hc Hr].
  rewrite contains_one, (IH Hr). unfold not_slash in Hc.
  rewrite Ascii.eqb_sym. now destruct (Ascii.eqb c "/").
Qed.

(** X5. Whatever the title of the video, the file name made of it has the
    length of the title, holds none of the nine characters of the pattern,
    a slash in particular, and is the title itself when the title holds
    none; so the output template is the download directory, a slash unless
    the directory is empty or ends with one, the cleaned title and the
    extension placeholder: the title cannot move the file elsewhere. *)
Theorem title_stays_in_the_download_directory :
  forall (download_path title : string),
    String.length (safe_title title) = String.length title
    /\ all allowed (safe_title title) = true
    /\ (all allowed title = true -> safe_title title = title)
    /\ contains "/" (safe_title title ++ ".%(ext)s") = false
    /\ full_path download_path title
       = (if String.eqb download_path "" || endswith "/" download_path
          then download_path else download_path ++ "/")
         ++ safe_title title ++ ".%(ext)s".
Proof.
  intros download_path title. repeat apply conj.
  - induction title as [|c rest IH]; cbn [safe_title String.length];
      [reflexivity | now rewrite IH].
  - apply safe_title_allowed.
  - induction title as [|c rest IH]; cbn [safe_title all]; [reflexivity|].
    intros H. apply andb_true_iff in H as [Hc Hr]. rewrite (IH Hr).
    unfold allowed in Hc. now destruct (forbidden c).
  - apply no_slash_not_contained. rewrite all_app.
    now rewrite (allowed_not_slash _ (safe_title_allowed title)).
  - unfold full_path, join.
    assert (Hs : startswith "/" (safe_title title ++ ".%(ext)s") = false).
    { pose proof (safe_title_allowed title) as Ha.
      destruct (safe_title title) as [|c rest]; [reflexivity|].
      norm_app. cbn [all] in Ha. apply andb_true_iff in Ha as [Hc _].
      cbn [startswith]. unfold allowed in Hc.
      destruct (Ascii.eqb_spec "/" c) as [<-|]; [discriminate | reflexivity]. }
    rewrite Hs.
    destruct (String.eqb download_path "" || endswith "/" download_path);
      [reflexivity|]. now rewrite app_assoc.
Qed.

(** The theorem at a title that needs no cleaning, and the template of a
    title that does. *)
Lemma title_stays_in_the_download_directory_witness :
  safe_title "plain title" = "plain title"
  /\ full_path "/home/u/Downloads" "AC/DC: Back?"
     = "/home/u/Downloads/AC_DC_ Back_.%(ext)s"
  /\ full_path "/srv/media/" ".." = "/srv/media/...%(ext)s".
Proof.
  split; [|split; reflexivity].
  apply (proj1 (proj2 (proj2
           (title_stays_in_the_download_directory "" "plain title")))).
  reflexivity.
Defined.

Lemma split_not_empty (sep : ascii) (s : string) : split sep s <> [].
Proof.
  destruct s as [|c rest]; cbn [split]; [discriminate|].
  destruct (Ascii.eqb c sep); [discriminate|].
  destruct (split sep rest); discriminate.
Qed.

Lemma split_without (sep : ascii) (s : string) :
  contains (String sep "") s = false -> split sep s = [s].
Proof.
  induction s as [|c rest IH]; [reflexivity|].
  rewrite contains_one. intros H. apply orb_false_iff in H as [Hc Hr].
  cbn [split]. rewrite Ascii.eqb_sym, Hc. now rewrite (IH Hr).
Qed.

Lemma last_cons (x : string) (l : list string) :
  l <> [] -> List.last (x :: l) "" = List.last l "".
Proof. destruct l; [contradiction | reflexivity]. Qed.

Lemma split_with (sep : ascii) (s : string) :
  contains (String sep "") s = true ->
  exists h h2 tl, split sep s = h :: h2 :: tl.
Proof.
  induction s as [|c rest IH]; [discriminate|].
  rewrite contains_one. cbn [split]. intros H.
  destruct (Ascii.eqb_spec c sep) as [->|Hne].
  - pose proof (split_not_empty sep rest).
    destruct (split sep rest) as [|h2 tl]; [contradiction | eauto].
  - assert (Hs : Ascii.eqb sep c = false) by (apply Ascii.eqb_neq; congruence).
    rewrite Hs in H. destruct (IH H) as (h & h2 & tl & ->). eauto.
Qed.

(** The last field has no separator, and the text is some fields, the
    separator and the last field, unless it has no separator at all. *)
Lemma last_field (sep : ascii) (s : string) :
  contains (String sep "") (List.last (split sep s) "") = false
  /\ (contains (String sep "") s = true ->
      exists pre, s = pre ++ String sep (List.last (split sep s) "")).
Proof.
  induction s as [|c rest [IH1 IH2]]; [split; [reflexivity | discriminate]|].
  rewrite contains_one. cbn [split].
  destruct (Ascii.eqb_spec c sep) as [->|Hne].
  - rewrite last_cons by apply split_not_empty. split; [exact IH1|].
    intros _. destruct (contains (String sep "") rest) eqn:E.
    + destruct (IH2 eq_refl) as [pre Hpre]. exists (String sep pre).
      norm_app. now rewrite <- Hpre.
    + rewrite (split_without _ _ E). now exists "".
  - assert (Hs : Ascii.eqb sep c = false) by (apply Ascii.eqb_neq; congruence).
    rewrite Hs. cbn [orb].
    destruct (contains (String sep "") rest) eqn:E.
    + destruct (split_with _ _ E) as (h & h2 & tl & Es). rewrite Es in *.
      change (List.last (String c h :: h2 :: tl) "")
        with (List.last (h :: h2 :: tl) "").
      split; [exact IH1|]. intros _. destruct (IH2 eq_refl) as [pre Hpre].
      exists (String c pre). norm_app. now rewrite <- Hpre.
    + rewrite (split_without _ _ E). cbn [List.last]. split.
      * now rewrite contains_one, E, Hs.
      * discriminate.
Qed.

(** X6. The file type recorded for a job is the text after the last dash
    of its format id, a text without a dash, and it is mp4 for every
    format id that has no dash, whatever container that format has. *)
Theorem file_type_is_the_text_after_the_last_dash :
  forall format_id : string,
    if contains "-" format_id then
      contains "-" (file_type_of format_id) = false
      /\ exists pre, format_id = pre ++ "-" ++ file_type_of format_id
    else file_type_of format_id = "mp4".
Proof.
  intros format_id. unfold file_type_of.
  destruct (contains "-" format_id) eqn:E; [|reflexivity].
  destruct (last_field "-" format_id) as [H1 H2]. split; [exact H1|].
  destruct (H2 E) as [pre Hpre]. now exists pre.
Qed.

End InterfaceProperties.

(* ===================================================================== *)
(** ** The interface: submitting a download and the buttons of a row      *)
(* ===================================================================== *)

Module SubmissionProperties.
Import Py Store Clock Manager Text Paths Interface Fixtures.
Import TextFacts StoreCoverage.

(** X7. Submitting with a blank url, or with no format chosen, changes
    nothing.  Any other submission files the job before it asks for
    admission: the store gets exactly one new row, under a fresh id,
    pending, with the stripped url, the format and the output template;
    when the registry is at the limit, the manager answers false and that
    pending row is all that changed, no thread being made for it; below the
    limit the answer is true and the one thread added carries the url, the
    format and the path of the row. *)
Theorem submit_files_the_job_before_admission :
  (forall (url_value : string) (format_value : option string)
          (info : video_info) (quality download_path : string)
          (now : datetime) (observer : nat) (s : system),
      strip url_value = ""
      \/ format_value = None \/ format_value = Some "" ->
      submit url_value format_value info quality download_path now observer s
      = (None, s))
  /\ (forall (url_value format_id : string) (info : video_info)
             (quality download_path : string) (now : datetime)
             (observer : nat) (s : system),
         strip url_value <> "" ->
         format_id <> "" ->
         let path := full_path download_path (v_title info) in
         let item :=
           new_item (strip url_value) format_id quality path info now in
         let i := fst (add_download item (db s)) in
         let r := submit url_value (Some format_id) info quality download_path
                         now observer s in
         rows (db s) !! i = None
         /\ (forall j, j <> i -> rows (db (snd r)) !! j = rows (db s) !! j)
         /\ column_of K_status i (snd r) = Some (VText "pending")
         /\ column_of K_url i (snd r) = Some (VText (strip url_value))
         /\ column_of K_format_id i (snd r) = Some (VText format_id)
         /\ column_of K_file_path i (snd r) = Some (VText path)
         /\ column_of K_created_at i (snd r) = Some (VText (isoformat now))
         /\ column_of K_completed_at i (snd r) = Some VNull
         /\ active_downloads (snd r) = active_downloads s
         /\ if (max_concurrent s <=? Z.of_nat (size (active_downloads s)))%Z
            then
              fst r = Some false
              /\ snd r = set_db (snd (add_download item (db s))) s
            else
              fst r = Some true
              /\ workers (snd r)
                 = (workers s
                    ++ [{| w_download_id := i;
                           w_url := VText (strip url_value);
                           w_format_id := VText format_id;
                           w_output_path := VText path;
                           w_callback := Some observer;
                           w_pc := AtStart |}])%list
              /\ download_threads (snd r)
                 = <[i := length (workers s)]> (download_threads s)).
Proof.
  split.
  - intros url_value format_value info quality download_path now observer s H.
    unfold submit. destruct H as [H | [-> | ->]].
    + rewrite H. now destruct format_value.
    + reflexivity.
    + now rewrite orb_true_r.
  - intros url_value format_id info quality download_path now observer s
           Hurl Hfmt. cbv zeta.
    set (path := full_path download_path (v_title info)).
    set (item := new_item (strip url_value) format_id quality path info now).
    destruct (add_download_reads_back item (db s))
      as (Hfresh & _ & _ & _ & Hget & Hother).
    cbv zeta in *.
    set (added := add_download item (db s)) in *.
    assert (Hsub :
      submit url_value (Some format_id) info quality download_path now
             observer s
      = (Some (fst (start_download (fst added) (VText (strip url_value))
                      (VText format_id) (VText path) (Some observer)
                      (set_db (snd added) s))),
         snd (start_download (fst added) (VText (strip url_value))
                (VText format_id) (VText path) (Some observer)
                (set_db (snd added) s)))).
    { unfold submit.
      apply String.eqb_neq in Hurl. apply String.eqb_neq in Hfmt.
      now rewrite Hurl, Hfmt. }
    rewrite Hsub. clear Hsub Hget Hother.
    assert (Hdb : db (snd (start_download (fst added)
                             (VText (strip url_value)) (VText format_id)
                             (VText path) (Some observer)
                             (set_db (snd added) s))) = snd added)
      by apply ManagerFacts.start_download_db.
    assert (Hi : rows (snd added) !! fst added
                 = Some (set_col K_completed_at VNull
                           (set_col K_speed VNull
                              (set_col K_eta VNull
                                 (set_col K_error_message VNull
                                    (with_id (fst added) item)))))).
    { unfold added, add_download. cbn [fst snd rows].
      now rewrite lookup_insert_eq. }
    assert (Hj : forall j, j <> fst added ->
                           rows (snd added) !! j = rows (db s) !! j).
    { intros j Hne.
      apply (lookup_insert_ne (rows (db s)) (fst added) j). congruence. }
    cbn [fst snd]. unfold column_of. rewrite !Hdb, !Hi.
    split; [exact Hfresh|]. split; [exact Hj|].
    do 6 (split; [reflexivity|]).
    unfold start_download. cbn [max_concurrent active_downloads set_db].
    destruct (max_concurrent s <=? Z.of_nat (size (active_downloads s)))%Z;
      repeat split; reflexivity.
Qed.

(** The theorem at a manager of limit one that is busy with job 1. *)
Lemma submit_files_the_job_before_admission_witness :
  let busy :=
    run [start_job 1 "https://youtu.be/a";
         Work 0 proceed; Work 0 proceed; Work 0 proceed] limit_one in
  let r := submit " https://youtu.be/c " (Some "18")
                  {| v_title := "A/B"; v_platform := "Youtube";
                     v_duration := "3:05"; v_thumbnail := "" |}
                  "360p MP4" "/home/u/Downloads" noon 0 busy in
  fst r = Some false
  /\ column_of K_status 3 (snd r) = Some (VText "pending")
  /\ column_of K_url 3 (snd r) = Some (VText "https://youtu.be/c")
  /\ column_of K_file_path 3 (snd r)
     = Some (VText "/home/u/Downloads/A_B.%(ext)s")
  /\ workers (snd r) = workers busy.
Proof.
  cbv zeta.
  pose proof (proj2 submit_files_the_job_before_admission
                " https://youtu.be/c " "18"
                {| v_title := "A/B"; v_platform := "Youtube";
                   v_duration := "3:05"; v_thumbnail := "" |}
                "360p MP4" "/home/u/Downloads" noon 0%nat
                (run [start_job 1 "https://youtu.be/a";
                      Work 0 proceed; Work 0 proceed; Work 0 proceed]
                     limit_one)) as H.
  cbv zeta in H.
  destruct H as (_ & _ & Hst & Hurl & _ & Hpath & _ & _ & _ & Hadm);
    [discriminate | discriminate |].
  split; [exact (proj1 Hadm)|]. split; [exact Hst|]. split; [exact Hurl|].
  split; [exact Hpath|]. vm_compute. reflexivity.
Defined.

Lemma status_cases (d : DownloadItem) (a b : string) :
  a <> b -> has_status a d = true -> has_status b d = false.
Proof.
  unfold has_status. destruct (status d) as [| | |t]; try discriminate.
  intros Hne Ha. apply String.eqb_eq in Ha. subst t.
  now apply String.eqb_neq.
Qed.

(** X8. No tab ever offers the Retry button: the one place that makes it
    needs a failed row listed with actions, and only the Downloading tab
    lists rows with actions, which lists pending, downloading and paused
    rows only.  A failed row appears in the History tab alone, with
    Download Again and Delete; and a pending row appears in the Downloading
    tab with no button at all. *)
Theorem retry_button_is_never_offered :
  forall d : DownloadItem,
    (forall l, downloading_tab d = Some l -> ~ In Retry_button l)
    /\ (forall l, downloaded_tab d = Some l -> ~ In Retry_button l)
    /\ (forall l, history_tab d = Some l -> ~ In Retry_button l)
    /\ (has_status "failed" d = true ->
        downloading_tab d = None
        /\ downloaded_tab d = None
        /\ history_tab d = Some [Download_again; Delete_from_history])
    /\ (has_status "pending" d = true -> downloading_tab d = Some []).
Proof.
  intros d.
  unfold downloading_tab, downloaded_tab, history_tab, listed_as_active,
    action_buttons.
  repeat apply conj.
  - intros l.
    destruct (has_status "downloading" d) eqn:E1.
    { rewrite orb_true_r. cbn [orb]. intros [= <-].
      destruct (has_status "completed" d); cbn; intuition discriminate. }
    destruct (has_status "paused" d) eqn:E2.
    { rewrite orb_true_r. intros [= <-].
      destruct (has_status "completed" d); cbn; intuition discriminate. }
    rewrite !orb_false_r.
    destruct (has_status "pending" d) eqn:E3; [|discriminate].
    rewrite (status_cases d "pending" "failed") by (discriminate || exact E3).
    intros [= <-].
    destruct (has_status "completed" d); cbn; intuition discriminate.
  - intros l. destruct (has_status "completed" d); [|discriminate].
    intros [= <-]. cbn. intuition discriminate.
  - intros l [= <-].
    destruct (has_status "completed" d); cbn; intuition discriminate.
  - intros H.
    rewrite (status_cases d "failed" "pending") by (discriminate || exact H).
    rewrite (status_cases d "failed" "downloading")
      by (discriminate || exact H).
    rewrite (status_cases d "failed" "paused") by (discriminate || exact H).
    rewrite (status_cases d "failed" "completed") by (discriminate || exact H).
    auto.
  - intros H. rewrite H.
    rewrite (status_cases d "pending" "downloading")
      by (discriminate || exact H).
    rewrite (status_cases d "pending" "paused") by (discriminate || exact H).
    rewrite (status_cases d "pending" "failed") by (discriminate || exact H).
    rewrite (status_cases d "pending" "completed")
      by (discriminate || exact H).
    reflexivity.
Qed.

End SubmissionProperties.

(* ===================================================================== *)
(** ** The clipboard monitor                                              *)
(* ===================================================================== *)

Module ClipboardProperties.
Import Py Text Clipboard TextFacts.

Section Monitor.
Variable netloc_of : string -> outcome string.

Lemma turn_extends (p : outcome string) (m : monitor) :
  exists extra,
    detected (monitor_turn netloc_of p m) = (detected m ++ extra)%list
    /\ Forall (fun u => is_video_url netloc_of u = true) extra
    /\ (length extra <= 1)%nat.
Proof.
  unfold monitor_turn. destruct p as [current|e].
  - destruct (String.eqb current (last_clipboard m)).
    + exists []. rewrite app_nil_r. repeat split; [constructor | cbn; lia].
    + destruct (is_video_url netloc_of current) eqn:E.
      * exists [current]. repeat split; [|cbn; lia].
        constructor; [exact E | constructor].
      * exists []. cbn [detected]. rewrite app_nil_r.
        repeat split; [constructor | cbn; lia].
  - exists []. rewrite app_nil_r. repeat split; [constructor | cbn; lia].
Qed.

Lemma unchanged_turns (c : string) (n : nat) (m : monitor) :
  last_clipboard m = c ->
  monitor_run netloc_of (repeat (Ret c) n) m = m.
Proof.
  intros H. unfold monitor_run.
  induction n as [|n IH]; cbn [repeat fold_left]; [reflexivity|].
  unfold monitor_turn at 2. rewrite H, String.eqb_refl. exact IH.
Qed.

(** X9. However long a text stays on the clipboard, the monitor reports
    it at most once, and only if it counts as a video url; a turn in which
    the clipboard cannot be read changes nothing; every text ever reported
    counted as a video url; and a text counts as one as soon as the host
    part of its url contains one of the eight listed domains anywhere, so
    also as part of a longer host name, and never when the url cannot be
    parsed. *)
Theorem clipboard_text_is_reported_once :
  (forall (c : string) (n : nat) (m : monitor),
      exists extra,
        detected (monitor_run netloc_of (repeat (Ret c) n) m)
        = (detected m ++ extra)%list
        /\ (length extra <= 1)%nat
        /\ Forall (fun u => u = c /\ is_video_url netloc_of u = true) extra)
  /\ (forall (e : exn) (m : monitor),
         monitor_turn netloc_of (Raise e) m = m)
  /\ (forall (pastes : list (outcome string)) (m : monitor),
         exists extra,
           detected (monitor_run netloc_of pastes m)
           = (detected m ++ extra)%list
           /\ Forall (fun u => is_video_url netloc_of u = true) extra)
  /\ (forall (text pre domain post : string),
         In domain video_domains ->
         netloc_of text = Ret (pre ++ domain ++ post) ->
         is_video_url netloc_of text = true)
  /\ (forall (text : string) (e : exn),
         netloc_of text = Raise e -> is_video_url netloc_of text = false).
Proof.
  repeat apply conj.
  - intros c [|n] m.
    + exists []. cbn. rewrite app_nil_r. repeat split; [lia | constructor].
    + cbn [repeat]. unfold monitor_run. cbn [fold_left].
      change (fold_left (fun acc p => monitor_turn netloc_of p acc)
                        (repeat (Ret c) n) ?t)
        with (monitor_run netloc_of (repeat (Ret c) n) t).
      unfold monitor_turn at 1.
      destruct (String.eqb_spec c (last_clipboard m)) as [Heq|Hne].
      * rewrite unchanged_turns by congruence.
        exists []. rewrite app_nil_r. repeat split; [cbn; lia | constructor].
      * destruct (is_video_url netloc_of c) eqn:E;
          rewrite unchanged_turns by reflexivity; cbn [detected].
        -- exists [c]. repeat split; [cbn; lia|].
           constructor; [split; [reflexivity | exact E] | constructor].
        -- exists []. rewrite app_nil_r.
           repeat split; [cbn; lia | constructor].
  - reflexivity.
  - intros pastes. unfold monitor_run.
    induction pastes as [|p rest IH]; intros m; cbn [fold_left].
    + exists []. rewrite app_nil_r. split; [reflexivity | constructor].
    + destruct (IH (monitor_turn netloc_of p m)) as (e2 & H2 & F2).
      destruct (turn_extends p m) as (e1 & H1 & F1 & _).
      exists (e1 ++ e2)%list. split.
      * rewrite H2, H1. now rewrite <- List.app_assoc.
      * apply Forall_app. split; assumption.
  - intros text pre domain post Hin Hn. unfold is_video_url. rewrite Hn.
    unfold is_video_netloc. apply existsb_exists. exists domain.
    split; [exact Hin | apply contains_app].
  - intros text e Hn. unfold is_video_url. now rewrite Hn.
Qed.

End Monitor.

(** The theorem at a host name that merely contains a listed domain. *)
Lemma clipboard_text_is_reported_once_witness :
  is_video_url (fun _ => Ret "notyoutube.com.example.org")
               "https://notyoutube.com.example.org/watch" = true.
Proof.
  apply (proj1 (proj2 (proj2 (proj2
           (clipboard_text_is_reported_once
              (fun _ => Ret "notyoutube.com.example.org")))))
           "https://notyoutube.com.example.org/watch"
           "not" "youtube.com" ".example.org").
  - left. reflexivity.
  - reflexivity.
Defined.

End ClipboardProperties.

(* ===================================================================== *)
(** ** The manager: what a run can and cannot change                      *)
(* ===================================================================== *)

Module FrameProperties.
Import Py Store Clock Manager Text Spec Coverage Fixtures.
Import StoreProperties ManagerFacts WorkerProperties StepFacts.

Lemma written_only_volatile (kwargs : list (column * value)) (c : column) :
  written kwargs -> volatile c = false -> supplied c kwargs = None.
Proof. intros Hw Hc. destruct Hw; destruct c; try reflexivity; discriminate. Qed.

(** A step leaves the store alone or makes one update of the row of the
    job it is about. *)
Lemma step_db_at (a : action) (s : system) :
  db (step a s) = db s
  \/ exists i kwargs,
      job_of a s = Some i
      /\ written kwargs
      /\ db (step a s)
         = {| rows := alter (assign kwargs) i (rows (db s));
              last_rowid := last_rowid (db s) |}.
Proof.
  destruct a as [i u f p cb|i ok|i ok|i ok|i cb|tid o]; cbn [step job_of].
  - left. apply start_download_db.
  - unfold pause_download, signal_and_mark.
    destruct (active_downloads s !! i); [|now left].
    destruct ok; [|now left]. right. exists i, [(K_status, VText "paused")].
    split; [reflexivity|]. split; [now constructor | reflexivity].
  - unfold resume_download, signal_and_mark.
    destruct (active_downloads s !! i); [|now left].
    destruct ok; [|now left].
    right. exists i, [(K_status, VText "downloading")].
    split; [reflexivity|]. split; [now constructor | reflexivity].
  - unfold cancel_download, signal_and_mark.
    destruct (active_downloads s !! i); [|now left].
    destruct ok; [|now left]. right. exists i, [(K_status, VText "cancelled")].
    split; [reflexivity|]. split; [now constructor | reflexivity].
  - left. unfold retry_download. destruct (get_download_by_id i (db s));
      [apply start_download_db | reflexivity].
  - unfold worker_step.
    destruct (workers s !! tid) as [w|]; [|now left].
    destruct (w_pc w) as [| |process|process|process rc|e|u|u].
    + right. exists (w_download_id w), [(K_status, VText "downloading")].
      split; [reflexivity|]. split; [now constructor | reflexivity].
    + left. now destruct (fault o).
    + now left.
    + destruct (fault o); [now left|].
      destruct (String.eqb (output o) ""); [left; now destruct (poll o)|].
      rewrite parse_progress_effect.
      destruct (parse_line _) as [[kwargs|]|e] eqn:E; try now left.
      apply parse_line_shape in E as (p & sp & e & -> & _).
      right. eexists _, _. split; [reflexivity|].
      split; [apply written_progress|]. now rewrite db_call_back.
    + right. destruct (rc =? 0)%Z.
      * eexists _, _. split; [reflexivity|].
        split; [apply (written_completed (now o)) | reflexivity].
      * eexists _, _. split; [reflexivity|].
        split; [apply (written_failed "Download failed") | reflexivity].
    + right. eexists _, _. split; [reflexivity|].
      split; [apply (written_failed (exn_str e)) | reflexivity].
    + left. simpl. now rewrite db_call_back.
    + now left.
Qed.

(** X10. A call of the manager, or a step of a thread, changes no row but
    that of the job it is about.  No run of the manager adds a row, removes
    one, brings a deleted one back or moves the counter of ids; and a run
    writes nothing but the status, the progress, the speed, the eta, the
    completion time and the error message: the eleven other columns of
    every row stay as they were stored. *)
Theorem runs_touch_only_volatile_columns :
  (forall (a : action) (s : system) (j : Z),
      job_of a s <> Some j ->
      rows (db (step a s)) !! j = rows (db s) !! j)
  /\ (forall (trace : list action) (s : system) (j : Z),
         rows (db (run trace s)) !! j = None <-> rows (db s) !! j = None)
  /\ (forall (trace : list action) (s : system) (j : Z) (c : column),
         volatile c = false ->
         column_of c j (run trace s) = column_of c j s)
  /\ (forall (trace : list action) (s : system),
         last_rowid (db (run trace s)) = last_rowid (db s)).
Proof.
  repeat apply conj.
  - intros a s j Hj.
    destruct (step_db_at a s) as [-> | (i & kwargs & Hi & _ & ->)];
      [reflexivity|].
    cbn [rows]. apply lookup_alter_ne. congruence.
  - intros trace s j.
    apply (run_preserves
             (fun t => rows (db t) !! j = None <-> rows (db s) !! j = None));
      [|reflexivity].
    intros a t Ht. rewrite <- Ht.
    destruct (step_db_at a t) as [-> | (i & kwargs & _ & _ & ->)];
      [reflexivity|].
    cbn [rows]. rewrite lookup_alter.
    destruct (decide (i = j)) as [->|]; [|reflexivity].
    destruct (rows (db t) !! j); cbn; split; congruence.
  - intros trace s j c Hc.
    apply (run_preserves (fun t => column_of c j t = column_of c j s));
      [|reflexivity].
    intros a t Ht. rewrite <- Ht. unfold column_of.
    destruct (step_db_at a t) as [-> | (i & kwargs & _ & Hw & ->)];
      [reflexivity|].
    cbn [rows]. rewrite lookup_alter.
    destruct (decide (i = j)) as [->|]; [|reflexivity].
    destruct (rows (db t) !! j); [|reflexivity].
    cbn [fmap option_fmap option_map].
    now rewrite get_assign, (written_only_volatile _ _ Hw Hc).
  - intros trace s.
    apply (run_preserves (fun t => last_rowid (db t) = last_rowid (db s)));
      [|reflexivity].
    intros a t Ht. rewrite <- Ht.
    now destruct (step_db_at a t) as [-> | (i & kwargs & _ & _ & ->)].
Qed.

(** The theorem at the run of the fixture: job 2 and the title of job 1
    are as stored. *)
Lemma runs_touch_only_volatile_columns_witness :
  rows (db (step (Cancel 1 true) job1_reading)) !! 2%Z
  = rows (db job1_reading) !! 2%Z
  /\ column_of K_title 1 job1_reading = column_of K_title 1 limit_three.
Proof.
  split.
  - apply (proj1 runs_touch_only_volatile_columns). discriminate.
  - apply (proj1 (proj2 (proj2 runs_touch_only_volatile_columns))
                 [start_job 1 "https://youtu.be/a";
                  Work 0 proceed; Work 0 proceed; Work 0 proceed]).
    reflexivity.
Defined.

Lemma run_fixed_point (trace : list action) (s : system) :
  (forall a, step a s = s) -> run trace s = s.
Proof.
  intros H. unfold run. induction trace as [|a rest IH]; cbn [fold_left].
  - reflexivity.
  - now rewrite H.
Qed.

(** X11. A limit of zero, or a negative one, does not mean unlimited: a
    manager created with such a limit admits no start and no retry, and so
    no run of it ever makes a thread, spawns a process or writes to the
    store; the system stays exactly as it was created. *)
Theorem nonpositive_limit_admits_nothing :
  forall (trace : list action) (d : database) (limit : Z) (cap : string),
    (limit <= 0)%Z ->
    run trace (new_manager d limit cap) = new_manager d limit cap.
Proof.
  intros trace d limit cap Hl. apply run_fixed_point.
  assert (Hfull : forall i u f p cb,
             start_download i u f p cb (new_manager d limit cap)
             = (false, new_manager d limit cap)).
  { intros. unfold start_download. cbn [max_concurrent active_downloads new_manager].
    rewrite map_size_empty.
    destruct (Z.leb_spec limit (Z.of_nat 0)); [reflexivity | lia]. }
  intros [i u f p cb|i ok|i ok|i ok|i cb|tid o]; cbn [step].
  - now rewrite Hfull.
  - reflexivity.
  - reflexivity.
  - reflexivity.
  - unfold retry_download.
    destruct (get_download_by_id i (db (new_manager d limit cap)));
      [now rewrite Hfull | reflexivity].
  - reflexivity.
Qed.

(** The theorem at a limit of zero over the two pending jobs. *)
Lemma nonpositive_limit_admits_nothing_witness :
  run [start_job 1 "https://youtu.be/a"; Retry 2 None; Work 0 proceed]
      (new_manager two_jobs 0 "0")
  = new_manager two_jobs 0 "0".
Proof. apply nonpositive_limit_admits_nothing. lia. Defined.

Lemma restore_status (row : DownloadItem) (st : value) :
  status row = st ->
  set_col K_status st (set_col K_status (VText "paused") row) = row.
Proof. intros <-. now destruct row. Qed.

(** X12. Pausing and then resuming a registered job whose row says
    downloading restores the store exactly; the process of the job was sent
    SIGSTOP and then SIGCONT, the row said paused in between, and nothing
    else of the system changed.  When the signal call raises instead,
    [pause_download] changes nothing at all. *)
Theorem pause_then_resume_restores_the_row :
  forall (s : system) (i : Z) (process : nat) (row : DownloadItem),
    active_downloads s !! i = Some process ->
    rows (db s) !! i = Some row ->
    status row = VText "downloading" ->
    let paused := snd (pause_download i true s) in
    let resumed := snd (resume_download i true paused) in
    column_of K_status i paused = Some (VText "paused")
    /\ db resumed = db s
    /\ signals resumed
       = (signals s ++ [(process, SIGSTOP); (process, SIGCONT)])%list
    /\ resumed = set_signals (signals resumed) s
    /\ pause_download i false s = (Ret tt, s).
Proof.
  intros s i process row Hreg Hrow Hst. cbv zeta.
  unfold pause_download, resume_download, signal_and_mark.
  rewrite Hreg. cbn [snd db_update update_download set_signals set_db
                     active_downloads db signals].
  rewrite Hreg. cbn [snd].
  assert (Hdb : {| rows :=
                     alter (assign [(K_status, VText "downloading")]) i
                       (alter (assign [(K_status, VText "paused")]) i
                          (rows (db s)));
                   last_rowid := last_rowid (db s) |} = db s).
  { destruct (db s) as [m n] eqn:E. cbn [rows last_rowid] in *. f_equal.
    apply map_eq. intros j.
    destruct (decide (i = j)) as [<-|Hne].
    - rewrite !lookup_alter_eq, Hrow. cbn [fmap option_fmap option_map].
      f_equal. apply (restore_status row). exact Hst.
    - now rewrite !lookup_alter_ne by exact Hne. }
  repeat apply conj.
  - unfold column_of. cbn [db set_db rows]. rewrite lookup_alter_eq, Hrow.
    reflexivity.
  - cbn [db set_db rows last_rowid]. exact Hdb.
  - cbn [signals set_db set_signals]. now rewrite <- List.app_assoc.
  - cbn [signals set_db set_signals db rows last_rowid]. rewrite Hdb.
    now destruct s.
  - reflexivity.
Qed.

(** The theorem at job 1 of the fixture. *)
Lemma pause_then_resume_restores_the_row_witness :
  let paused := snd (pause_download 1 true job1_reading) in
  let resumed := snd (resume_download 1 true paused) in
  column_of K_status 1 paused = Some (VText "paused")
  /\ db resumed = db job1_reading
  /\ signals resumed
     = (signals job1_reading ++ [(0%nat, SIGSTOP); (0%nat, SIGCONT)])%list
  /\ resumed = set_signals (signals resumed) job1_reading
  /\ pause_download 1 false job1_reading = (Ret tt, job1_reading).
Proof.
  cbv zeta.
  refine (pause_then_resume_restores_the_row job1_reading 1 0%nat _ _ _ _);
    reflexivity.
Defined.

End FrameProperties.

(* ===================================================================== *)
(** ** The registry of processes                                          *)
(* ===================================================================== *)

Module RegistryProperties.
Import Py Store Clock Manager Text Spec Coverage Fixtures.
Import ManagerFacts StepFacts.

Lemma finished_at_pc (w : worker) (q : pc) :
  finished (at_pc w q) = match q with Done _ => true | _ => false end.
Proof. reflexivity. Qed.

(** One step of a thread, as the registry sees it. *)
Lemma worker_step_registry (tid : nat) (o : oracle) (s : system) (w : worker) :
  workers s !! tid = Some w ->
  exists q extra,
    workers (worker_step tid o s) = <[tid := at_pc w q]> (workers s)
    /\ spawned (worker_step tid o s) = (spawned s ++ extra)%list
    /\ signals (worker_step tid o s) = signals s
    /\ (forall h, handle_of q = Some h ->
                  handle_of (w_pc w) = Some h
                  \/ (h < length (spawned s ++ extra))%nat)
    /\ (finished (at_pc w q) = true ->
        finished w = true \/ exists u, w_pc w = AtFinally u)
    /\ (forall h, w_pc w = AtRegister h -> q = AtRead h).
Proof.
  intros Hw. unfold worker_step. rewrite Hw.
  assert (Hsame : forall s', workers s' = workers s ->
                             workers s' = <[tid := at_pc w (w_pc w)]> (workers s)).
  { intros s' ->. now apply stay. }
  destruct (w_pc w) as [| |process|process|process rc|e|u|u] eqn:Hpc.
  - exists AtSpawn, []. rewrite app_nil_r. repeat split; try discriminate.
  - destruct (fault o) as [e|].
    + exists (AtExcept e), []. rewrite app_nil_r.
      repeat split; try discriminate.
    + eexists (AtRegister _), [_]. repeat split; try discriminate.
      intros h [= <-]. right. rewrite length_app. cbn. lia.
  - exists (AtRead process), []. rewrite app_nil_r.
    repeat split; try discriminate; [now left | congruence].
  - destruct (fault o) as [e|].
    { exists (AtExcept e), []. rewrite app_nil_r.
      repeat split; try discriminate. }
    destruct (String.eqb (output o) "").
    { destruct (poll o) as [rc|].
      - exists (AtFinal process rc), []. rewrite app_nil_r.
        repeat split; try discriminate. now left.
      - exists (AtRead process), []. rewrite app_nil_r, <- Hpc.
        repeat split; try (rewrite Hpc; discriminate);
          [now apply stay | now left]. }
    exists (AtRead process), []. rewrite app_nil_r, parse_progress_effect.
    destruct (parse_line _) as [[kwargs|]|e] eqn:E.
    + apply parse_line_shape in E as (p & sp & e & -> & _).
      rewrite <- Hpc.
      repeat split; try (rewrite Hpc; discriminate); try now left.
      * rewrite workers_call_back. now apply stay.
      * now destruct (w_callback w).
      * now destruct (w_callback w).
    + rewrite <- Hpc.
      repeat split; try (rewrite Hpc; discriminate);
        [now apply stay | now left].
    + rewrite <- Hpc.
      repeat split; try (rewrite Hpc; discriminate);
        [now apply stay | now left].
  - exists (AtFinally None), []. rewrite app_nil_r.
    destruct (rc =? 0)%Z; repeat split; try discriminate.
  - exists (AtFinally None), []. rewrite app_nil_r.
    repeat split; try discriminate.
  - exists (Done u), []. rewrite app_nil_r.
    cbn [set_pc workers set_workers spawned signals].
    rewrite workers_call_back.
    repeat split; try discriminate.
    + now destruct (w_callback w).
    + now destruct (w_callback w).
    + right. now exists u.
  - exists (Done u), []. rewrite app_nil_r, <- Hpc.
    repeat split; try (rewrite Hpc; discriminate); [now apply stay|].
    intros _. left. unfold finished. now rewrite Hpc.
Qed.

(** A thread that is not at its [finally] keeps its job alive across its
    own step; the steps of the others do not matter. *)
Lemma live_thread_kept (i : Z) (tid : nat) (w : worker) (q : pc)
      (s s' : system) :
  workers s !! tid = Some w ->
  workers s' = <[tid := at_pc w q]> (workers s) ->
  (w_download_id w = i -> finished w = false -> finished (at_pc w q) = false) ->
  has_live_thread i s -> has_live_thread i s'.
Proof.
  intros Hw Hs' Hq (tid' & w' & Hw' & Hid & Hlive).
  destruct (decide (tid' = tid)) as [->|Hne].
  - assert (w' = w) by congruence. subst w'.
    exists tid, (at_pc w q). split; [|split].
    + rewrite Hs'. apply list_lookup_insert_eq. eapply lookup_lt_Some, Hw.
    + exact Hid.
    + now apply Hq.
  - exists tid', w'. split; [|now split].
    rewrite Hs'. now rewrite list_lookup_insert_ne by congruence.
Qed.

Lemma sound_after_worker_step (tid : nat) (o : oracle) (s : system) :
  registry_is_sound s -> registry_is_sound (worker_step tid o s).
Proof.
  intros (Hact & Hhold & Hsig).
  destruct (workers s !! tid) as [w|] eqn:Hw;
    [|unfold worker_step; rewrite Hw; exact (conj Hact (conj Hhold Hsig))].
  destruct (worker_step_registry tid o s w Hw)
    as (q & extra & Hws & Hsp & Hsg & Hh & Hfin & Hreg).
  pose proof (worker_step_active tid o s w Hw) as Ha.
  assert (Hgrow : forall h, (h < length (spawned s))%nat ->
                            (h < length (spawned s ++ extra))%nat)
    by (intros h; rewrite length_app; lia).
  split; [|split].
  - intros i h Hi. rewrite Hsp. rewrite Ha in Hi.
    destruct (w_pc w) as [| |process|process|process rc|e|u|u] eqn:Hpc;
      try (destruct (Hact i h Hi) as [Hlt Hlive]; split; [now apply Hgrow|];
           apply (live_thread_kept i tid w q s _ Hw Hws); [|exact Hlive];
           intros _ Hnot; apply not_true_is_false; intros F;
           destruct (Hfin F) as [F' | [u' Hu]]; congruence).
    + rewrite (Hreg process eq_refl) in *.
      destruct (decide (w_download_id w = i)) as [<-|Hne].
      * rewrite lookup_insert_eq in Hi. injection Hi as <-.
        split; [apply Hgrow, (Hhold tid w); [exact Hw | now rewrite Hpc]|].
        exists tid, (at_pc w (AtRead process)). split; [|now split].
        rewrite Hws. apply list_lookup_insert_eq. eapply lookup_lt_Some, Hw.
      * rewrite lookup_insert_ne in Hi by exact Hne.
        destruct (Hact i h Hi) as [Hlt Hlive]. split; [now apply Hgrow|].
        now apply (live_thread_kept i tid w (AtRead process) s _ Hw Hws).
    + apply lookup_delete_Some in Hi as [Hne Hi].
      destruct (Hact i h Hi) as [Hlt Hlive]. split; [now apply Hgrow|].
      apply (live_thread_kept i tid w q s _ Hw Hws); [|exact Hlive].
      intros Heq. contradiction.
  - intros tid' w' h Hw' Hh'. rewrite Hsp. rewrite Hws in Hw'.
    destruct (decide (tid' = tid)) as [->|Hne].
    + rewrite list_lookup_insert_eq in Hw' by (eapply lookup_lt_Some, Hw).
      injection Hw' as <-. cbn [w_pc at_pc] in Hh'.
      destruct (Hh h Hh') as [Hold | Hnew]; [|exact Hnew].
      apply Hgrow, (Hhold tid w h Hw Hold).
    + rewrite list_lookup_insert_ne in Hw' by congruence.
      apply Hgrow, (Hhold tid' w' h Hw' Hh').
  - rewrite Hsg, Hsp. eapply List.Forall_impl; [|exact Hsig].
    intros sent. apply Hgrow.
Qed.

Lemma sound_after_start (i : Z) (u f p : value) (cb : option nat)
      (s : system) :
  registry_is_sound s -> registry_is_sound (snd (start_download i u f p cb s)).
Proof.
  intros (Hact & Hhold & Hsig). unfold start_download.
  destruct (_ <=? _)%Z; [exact (conj Hact (conj Hhold Hsig))|].
  cbn [snd]. split; [|split].
  - intros j h Hj. destruct (Hact j h Hj) as [Hlt (tid & w & Hw & Hid & Hl)].
    split; [exact Hlt|]. exists tid, w. split; [|now split].
    cbn [workers set_workers]. now apply lookup_app_l_Some.
  - intros tid w h Hw Hh. cbn [workers set_workers] in Hw.
    apply lookup_app_Some in Hw as [Hw | [_ Hw]].
    + exact (Hhold tid w h Hw Hh).
    + destruct (tid - length (workers s))%nat; [|discriminate].
      injection Hw as <-. discriminate.
  - exact Hsig.
Qed.

Lemma sound_after_signal (sig : signal) (st : string) (i : Z) (sent : bool)
      (s : system) :
  registry_is_sound s ->
  registry_is_sound (snd (signal_and_mark sig st i sent s)).
Proof.
  intros (Hact & Hhold & Hsig). unfold signal_and_mark.
  destruct (active_downloads s !! i) as [process|] eqn:Hi;
    [|exact (conj Hact (conj Hhold Hsig))].
  destruct sent; [|exact (conj Hact (conj Hhold Hsig))].
  split; [|split].
  - exact Hact.
  - exact Hhold.
  - cbn. apply Forall_app. split; [exact Hsig|].
    constructor; [|constructor]. exact (proj1 (Hact i process Hi)).
Qed.

Lemma step_keeps_registry (a : action) (s : system) :
  registry_is_sound s -> registry_is_sound (step a s).
Proof.
  intros Hs. destruct a as [i u f p cb|i ok|i ok|i ok|i cb|tid o]; cbn [step].
  - now apply sound_after_start.
  - now apply sound_after_signal.
  - now apply sound_after_signal.
  - now apply sound_after_signal.
  - unfold retry_download. destruct (get_download_by_id i (db s));
      [now apply sound_after_start | exact Hs].
  - now apply sound_after_worker_step.
Qed.

(** X13. In every state a new manager can reach, whatever the interleaving
    of calls and threads: a process registered in [active_downloads] was
    spawned by the manager and some thread of its job has not returned
    yet, and every signal went to a process the manager spawned.  So a job none of whose
    threads is still running cannot be paused, resumed or cancelled: the
    call changes nothing. *)
Theorem registered_processes_have_a_running_thread :
  forall (trace : list action) (d : database) (limit : Z) (cap : string),
    let s := run trace (new_manager d limit cap) in
    registry_is_sound s
    /\ forall (i : Z) (sent : bool),
        ~ has_live_thread i s ->
        pause_download i sent s = (Ret tt, s)
        /\ resume_download i sent s = (Ret tt, s)
        /\ cancel_download i sent s = (Ret tt, s).
Proof.
  intros trace d limit cap s.
  assert (Hs : registry_is_sound s).
  { apply (run_preserves registry_is_sound).
    - intros a t. apply step_keeps_registry.
    - repeat split.
      + cbn in H. now rewrite lookup_empty in H.
      + cbn in H. now rewrite lookup_empty in H.
      + destruct tid; discriminate.
      + constructor. }
  split; [exact Hs|].
  intros i sent Hdead.
  assert (Hi : active_downloads s !! i = None).
  { destruct (active_downloads s !! i) as [h|] eqn:E; [|reflexivity].
    destruct Hdead. exact (proj2 (proj1 Hs i h E)). }
  unfold pause_download, resume_download, cancel_download, signal_and_mark.
  now rewrite Hi.
Qed.

End RegistryProperties.

(* ===================================================================== *)
(** ** What a progress line can store                                     *)
(* ===================================================================== *)

Module ShapeProperties.
Import Py Store Manager Text Regex Patterns Spec Coverage.
Import TextFacts RegexFacts PatternFacts ManagerFacts.

Lemma is_KMG_cases (c : ascii) :
  is_KMG c = true ->
  String c "" = "K" \/ String c "" = "M" \/ String c "" = "G".
Proof.
  unfold is_KMG. intros H.
  apply orb_true_iff in H as [H|H]; [apply orb_true_iff in H as [H|H]|];
    apply Ascii.eqb_eq in H; subst c; auto.
Qed.

Lemma eta_here_sound (s : string) (cap : option string) :
  match_here eta_re s = Some cap -> exists g, cap = Some g /\ eta_text g.
Proof.
  unfold match_here, eta_re. cbn [mt]. intros H.
  apply lit_some in H as (r & -> & H).
  destruct r as [|w r]; [discriminate|].
  destruct (isspace w); [|discriminate].
  apply star_sound in H as (ws & r3 & -> & _ & H).
  destruct r3 as [|n r4]; [discriminate|].
  destruct (is_num_colon n) eqn:Hn; [|discriminate].
  apply star_sound in H as (ns & post & -> & Hns & H).
  injection H as <-. exists (String n ns). split.
  - f_equal. apply (take_suffix (String n (ns ++ post)) (String n ns) post).
    now norm_app.
  - split; [discriminate|]. simpl. now rewrite Hn, Hns.
Qed.

Lemma speed_here_sound (s : string) (cap : option string) :
  match_here speed_re s = Some cap -> exists g, cap = Some g /\ speed_text g.
Proof.
  unfold match_here, speed_re. cbn [mt]. intros H.
  apply lit_some in H as (r & -> & H).
  destruct r as [|w r]; [discriminate|].
  destruct (isspace w); [|discriminate].
  apply star_sound in H as (ws & r3 & -> & _ & H).
  destruct r3 as [|n r4]; [discriminate|].
  destruct (is_num_dot n) eqn:Hn; [|discriminate].
  apply star_sound in H as (ns & r5 & -> & Hns & H).
  assert (Hnum : all is_num_dot (String n ns) = true)
    by (simpl; now rewrite Hn, Hns).
  assert (Hplain : forall post,
             lit "iB/s" r5
                 (fun s' =>
                    Some (Some (take (String.length (String n (ns ++ r5))
                                      - String.length s')
                                     (String n (ns ++ r5))))) = Some cap ->
             r5 = "iB/s" ++ post ->
             exists g, cap = Some g /\ speed_text g).
  { intros post E ->. rewrite lit_app in E. injection E as <-.
    exists (String n ns ++ "" ++ "iB/s"). split.
    - f_equal.
      apply (take_suffix (String n (ns ++ "iB/s" ++ post))
                         (String n ns ++ "" ++ "iB/s") post).
      norm_app. now rewrite !app_assoc.
    - exists (String n ns), "". repeat split; auto; discriminate. }
  destruct r5 as [|k r6].
  - simpl in H. discriminate.
  - destruct (is_KMG k) eqn:Ek.
    + destruct (lit "iB/s" r6 _) as [x|] eqn:E.
      * injection H as ->.
        apply lit_some in E as (post & -> & E). injection E as <-.
        exists (String n ns ++ String k "" ++ "iB/s"). split.
        -- f_equal.
           apply (take_suffix (String n (ns ++ String k ("iB/s" ++ post)))
                              (String n ns ++ String k "" ++ "iB/s") post).
           norm_app. rewrite !app_assoc. now norm_app.
        -- exists (String n ns), (String k "").
           split; [reflexivity|]. split; [discriminate|].
           split; [exact Hnum|]. right. now apply is_KMG_cases.
      * pose proof H as H'. apply lit_some in H' as (post & Hr & _).
        exact (Hplain post H Hr).
    + pose proof H as H'. apply lit_some in H' as (post & Hr & _).
      exact (Hplain post H Hr).
Qed.

(** X14. Whatever line yt-dlp prints, the three keywords of a progress
    update are a percentage that is not negative, a speed and an eta that
    are texts, never NULL; the speed is empty exactly when the line has no
    match of the speed pattern, and otherwise digits and dots, possibly one
    of K, M and G, and the unit iB/s; the eta is empty exactly when the line
    has no match of the eta pattern, and otherwise digits and colons. *)
Theorem progress_update_stores_shaped_texts :
  forall (line : string) (kwargs : list (column * value)),
    parse_line line = Ret (Some kwargs) ->
    exists (p : Q) (sp e : string),
      kwargs = [(K_progress, VReal p); (K_speed, VText sp); (K_eta, VText e)]
      /\ (0 <= p)%Q
      /\ (search speed_re line = None /\ sp = ""
          \/ is_Some (search speed_re line) /\ speed_text sp)
      /\ (search eta_re line = None /\ e = ""
          \/ is_Some (search eta_re line) /\ eta_text e).
Proof.
  intros line kwargs H.
  destruct (parse_line_shape line kwargs H) as (p & sp & e & Hk & Hp).
  unfold parse_line in H.
  destruct (contains "[download]" line); [|discriminate].
  destruct (search percent_re line) as [m|]; [|discriminate].
  destruct (m_group1 m) as [g|]; [|discriminate].
  destruct (float g) as [p'|]; [|discriminate].
  injection H as <-. injection Hk as <- <- <-.
  assert (Hsp : exists spt,
             group_or_empty (search speed_re line) = VText spt
             /\ (search speed_re line = None /\ spt = ""
                 \/ is_Some (search speed_re line) /\ speed_text spt)).
  { destruct (search speed_re line) as [ms|] eqn:E.
    - apply search_from_start in E as (j & _ & _ & Hm & _).
      apply speed_here_sound in Hm as (gs & Hg & Hshape).
      exists gs. cbn [group_or_empty]. rewrite Hg. split; [reflexivity|].
      right. split; [eauto | exact Hshape].
    - exists "". split; [reflexivity|]. now left. }
  assert (Het : exists et,
             group_or_empty (search eta_re line) = VText et
             /\ (search eta_re line = None /\ et = ""
                 \/ is_Some (search eta_re line) /\ eta_text et)).
  { destruct (search eta_re line) as [me|] eqn:E.
    - apply search_from_start in E as (j & _ & _ & Hm & _).
      apply eta_here_sound in Hm as (ge & Hg & Hshape).
      exists ge. cbn [group_or_empty]. rewrite Hg. split; [reflexivity|].
      right. split; [eauto | exact Hshape].
    - exists "". split; [reflexivity|]. now left. }
  destruct Hsp as (spt & -> & Hsp). destruct Het as (et & -> & Het).
  exists p', spt, et. repeat split; assumption.
Qed.

(** The theorem at a line that has a speed and no eta. *)
Lemma progress_update_stores_shaped_texts_witness :
  exists (p : Q) (sp e : string),
    [(K_progress, VReal (Qred 0.1)); (K_speed, VText "512.00KiB/s");
     (K_eta, VText "")]
    = [(K_progress, VReal p); (K_speed, VText sp); (K_eta, VText e)]
    /\ (0 <= p)%Q
    /\ (search speed_re
               "[download]   0.1% of 1.00GiB at 512.00KiB/s ETA Unknown" = None
        /\ sp = ""
        \/ is_Some (search speed_re
               "[download]   0.1% of 1.00GiB at 512.00KiB/s ETA Unknown")
           /\ speed_text sp)
    /\ (search eta_re
               "[download]   0.1% of 1.00GiB at 512.00KiB/s ETA Unknown" = None
        /\ e = ""
        \/ is_Some (search eta_re
               "[download]   0.1% of 1.00GiB at 512.00KiB/s ETA Unknown")
           /\ eta_text e).
Proof.
  apply (progress_update_stores_shaped_texts
           "[download]   0.1% of 1.00GiB at 512.00KiB/s ETA Unknown").
  reflexivity.
Defined.

End ShapeProperties.

(* ===================================================================== *)
(** ** One download from its admission to the return of its thread        *)
(* ===================================================================== *)

Module DownloadRun.
Import Py Store Clock Manager Text Spec Coverage Fixtures.
Import ManagerFacts WorkerProperties StepFacts.

Section Thread.
Variable s : system.
Variable w : worker.

Local Abbreviation tid := (length (workers s)).
Local Abbreviation i := (w_download_id w).

Lemma lookup_last_thread (q : pc) :
  (workers s ++ [at_pc w q])%list !! tid = Some (at_pc w q).
Proof. now rewrite lookup_app_r, Nat.sub_diag by lia. Qed.

Lemma insert_last_thread (q : pc) (w' : worker) :
  <[tid := w']> (workers s ++ [at_pc w q])%list = (workers s ++ [w'])%list.
Proof.
  replace (length (workers s)) with (length (workers s) + 0)%nat at 1
    by lia.
  now rewrite insert_app_r.
Qed.

Lemma alter_row (g : DownloadItem -> DownloadItem) (row : DownloadItem) :
  alter g i (<[i := row]> (rows (db s))) = <[i := g row]> (rows (db s)).
Proof.
  apply map_eq. intros j. destruct (decide (i = j)) as [<-|Hne].
  - now rewrite lookup_alter_eq, !lookup_insert_eq.
  - now rewrite lookup_alter_ne, !lookup_insert_ne by exact Hne.
Qed.

Ltac at_thread :=
  unfold worker_step; cbn [workers stage]; rewrite lookup_last_thread;
  cbn [w_pc at_pc w_download_id w_url w_format_id w_output_path w_callback].

Ltac as_stage :=
  unfold stage, set_pc, set_workers, set_db, set_active, set_threads,
    set_spawned, set_notified;
  cbn [db active_downloads download_threads max_concurrent max_speed workers
       spawned signals notified rows last_rowid
       w_pc at_pc w_download_id w_url w_format_id w_output_path w_callback];
  rewrite ?insert_last_thread, ?alter_row; try reflexivity.

Lemma step_at_start o row act thr sp nt :
  worker_step tid o (stage s w AtStart row act thr sp nt)
  = stage s w AtSpawn (set_col K_status (VText "downloading") row)
          act thr sp nt.
Proof. at_thread. rewrite continue_after_update. cbn [db_update update_download snd]. as_stage. Qed.

Lemma step_at_spawn o row act thr sp nt :
  fault o = None ->
  worker_step tid o (stage s w AtSpawn row act thr sp nt)
  = stage s w (AtRegister (length sp)) row act thr
          (sp ++ [build_cmd (max_speed s) (w_url w) (w_format_id w)
                            (w_output_path w)])%list
          nt.
Proof. intros Ho. at_thread. rewrite Ho. as_stage. Qed.

Lemma step_at_register o h row act thr sp nt :
  worker_step tid o (stage s w (AtRegister h) row act thr sp nt)
  = stage s w (AtRead h) row (<[i := h]> act) thr sp nt.
Proof. at_thread. as_stage. Qed.

Lemma step_at_read t l h row act thr sp nt :
  worker_step tid (line t l) (stage s w (AtRead h) row act thr sp nt)
  = match parse_line (strip l) with
    | Ret (Some kwargs) =>
        stage s w (AtRead h) (assign kwargs row) act thr sp
              (nt ++ notes (w_callback w) i 1)
    | _ => stage s w (AtRead h) row act thr sp nt
    end.
Proof.
  at_thread. cbn [fault output poll line].
  destruct (String.eqb l "") eqn:El.
  - apply String.eqb_eq in El. subst l. reflexivity.
  - rewrite parse_progress_effect.
    destruct (parse_line (strip l)) as [[kwargs|]|e] eqn:E; try reflexivity.
    apply parse_line_shape in E as (p & sp' & e & -> & _).
    cbn [db_update update_download snd db stage].
    destruct (w_callback w) as [f|]; cbn [call_back notes repeat].
    + as_stage.
    + rewrite app_nil_r. as_stage.
Qed.

Lemma step_at_end t rc h row act thr sp nt :
  worker_step tid (exit_with t rc) (stage s w (AtRead h) row act thr sp nt)
  = stage s w (AtFinal h rc) row act thr sp nt.
Proof. at_thread. cbn [fault output poll exit_with String.eqb]. as_stage. Qed.

Lemma step_at_final o h rc row act thr sp nt :
  worker_step tid o (stage s w (AtFinal h rc) row act thr sp nt)
  = stage s w (AtFinally None) (assign (final_kwargs rc (now o)) row)
          act thr sp nt.
Proof.
  at_thread. unfold final_kwargs. destruct (rc =? 0)%Z;
    rewrite continue_after_update; cbn [db_update update_download snd];
    as_stage.
Qed.

Lemma step_at_finally o row act thr sp nt :
  worker_step tid o (stage s w (AtFinally None) row act thr sp nt)
  = stage s w (Done None) row (delete i act) (delete i thr) sp
          (nt ++ notes (w_callback w) i 1).
Proof.
  at_thread. destruct (w_callback w) as [f|]; cbn [call_back notes repeat].
  - as_stage.
  - rewrite app_nil_r. as_stage.
Qed.

Lemma notes_add (cb : option nat) (j : Z) (nt : list (nat * Z)) (n : nat) :
  ((nt ++ notes cb j 1) ++ notes cb j n)%list = (nt ++ notes cb j (S n))%list.
Proof. destruct cb; cbn; [now rewrite <- List.app_assoc | now rewrite !app_nil_r]. Qed.

Lemma notes_none (cb : option nat) (j : Z) (nt : list (nat * Z)) :
  (nt ++ notes cb j 0)%list = nt.
Proof. destruct cb; cbn; now rewrite app_nil_r. Qed.

Lemma run_reads t h act thr sp (lines : list string) :
  forall row nt,
    run (List.map (fun l => Work tid (line t l)) lines)
        (stage s w (AtRead h) row act thr sp nt)
    = stage s w (AtRead h) (after_lines lines row) act thr sp
            (nt ++ notes (w_callback w) i (events lines)).
Proof.
  unfold run, after_lines, events.
  induction lines as [|l rest IH]; intros row nt.
  - cbn [List.map fold_left List.filter length]. now rewrite notes_none.
  - cbn [List.map fold_left List.filter step]. rewrite step_at_read.
    destruct (parse_line (strip l)) as [[kwargs|]|e].
    + rewrite IH. cbn [length]. now rewrite notes_add.
    + apply IH.
    + apply IH.
Qed.

Lemma run_thread t rc (lines : list string) row act thr sp nt :
  run (thread_trace tid lines rc t) (stage s w AtStart row act thr sp nt)
  = stage s w (Done None)
          (assign (final_kwargs rc t)
                  (after_lines lines
                     (set_col K_status (VText "downloading") row)))
          (delete i (<[i := length sp]> act)) (delete i thr)
          (sp ++ [build_cmd (max_speed s) (w_url w) (w_format_id w)
                            (w_output_path w)])%list
          (nt ++ notes (w_callback w) i (S (events lines))).
Proof.
  unfold thread_trace, run. rewrite !fold_left_app. cbn [fold_left step].
  rewrite step_at_start, step_at_spawn, step_at_register by reflexivity.
  fold (run (List.map (fun l => Work tid (line t l)) lines)
            (stage s w (AtRead (length sp))
                   (set_col K_status (VText "downloading") row)
                   (<[i := length sp]> act) thr
                   (sp ++ [build_cmd (max_speed s) (w_url w) (w_format_id w)
                                     (w_output_path w)])%list nt)).
  rewrite run_reads, step_at_end, step_at_final, step_at_finally.
  cbn [now quiet]. f_equal.
  rewrite <- List.app_assoc. f_equal.
  destruct (w_callback w) as [f|]; cbn [notes]; [|reflexivity].
  now rewrite <- repeat_cons.
Qed.

End Thread.

Lemma start_is_a_stage (s : system) (download_id : Z) (u f p : value)
      (cb : option nat) (row : DownloadItem) :
  (Z.of_nat (size (active_downloads s)) < max_concurrent s)%Z ->
  rows (db s) !! download_id = Some row ->
  step (Start download_id u f p cb) s
  = stage s {| w_download_id := download_id; w_url := u; w_format_id := f;
               w_output_path := p; w_callback := cb; w_pc := AtStart |}
          AtStart row (active_downloads s)
          (<[download_id := length (workers s)]> (download_threads s))
          (spawned s) (notified s).
Proof.
  intros Hadm Hrow. cbn [step]. unfold start_download.
  destruct (Z.leb_spec (max_concurrent s) (Z.of_nat (size (active_downloads s))));
    [lia|].
  cbn [snd]. unfold stage. cbn [w_download_id at_pc].
  rewrite (insert_id _ _ _ Hrow). destruct s as [[m n] ? ? ? ? ? ? ? ?].
  reflexivity.
Qed.

(** X15. A download that is admitted and whose thread then runs without
    a fault, from line 266 to its return, reading [lines] and then the end
    of the stream of a process that exited with [rc]: the row of the job is
    the row it had with the status downloading, then the updates of the
    progress lines in their order, then the final write (completed, 100 and
    the time for exit code 0; failed and the message otherwise); nothing
    else of the store changed; the registry and the table of threads no
    longer hold the job; one process was spawned, with the command of the
    job; no signal was sent; and the callback was called once for each
    progress line and once more at the end. *)
Theorem undisturbed_download_runs_to_its_final_write :
  forall (s : system) (download_id : Z) (u f p : value) (cb : option nat)
         (row : DownloadItem) (lines : list string) (rc : Z) (t : datetime),
    (Z.of_nat (size (active_downloads s)) < max_concurrent s)%Z ->
    rows (db s) !! download_id = Some row ->
    let thread := length (workers s) in
    let s' := run (Start download_id u f p cb
                   :: thread_trace thread lines rc t) s in
    db s'
    = {| rows :=
           <[download_id :=
               assign (final_kwargs rc t)
                 (after_lines lines
                    (set_col K_status (VText "downloading") row))]>
             (rows (db s));
         last_rowid := last_rowid (db s) |}
    /\ active_downloads s' = delete download_id (active_downloads s)
    /\ download_threads s' = delete download_id (download_threads s)
    /\ spawned s' = (spawned s ++ [build_cmd (max_speed s) u f p])%list
    /\ signals s' = signals s
    /\ notified s'
       = (notified s ++ notes cb download_id (S (events lines)))%list
    /\ workers s'
       = (workers s
          ++ [{| w_download_id := download_id; w_url := u; w_format_id := f;
                 w_output_path := p; w_callback := cb;
                 w_pc := Done None |}])%list.
Proof.
  intros s download_id u f p cb row lines rc t Hadm Hrow thread s'.
  assert (E : s' = run (thread_trace thread lines rc t)
                       (step (Start download_id u f p cb) s))
    by reflexivity.
  rewrite (start_is_a_stage s download_id u f p cb row Hadm Hrow) in E.
  unfold thread in E. rewrite run_thread in E. rewrite E.
  cbn [stage db active_downloads download_threads spawned signals notified
       workers w_download_id w_url w_format_id w_output_path w_callback at_pc].
  repeat split.
  - now rewrite delete_insert_eq.
  - now rewrite delete_insert_eq.
Qed.

(** The theorem at job 1 of the fixture: a progress line, a line of another
    kind, then exit code 0. *)
Lemma undisturbed_download_runs_to_its_final_write_witness :
  let s' :=
    run (start_job 1 "https://youtu.be/a"
         :: thread_trace 0
              ["[download]  45.2% of 10.00MiB at 1.21MiB/s ETA 00:12";
               "[Merger] Merging formats"] 0 noon)
        limit_three in
  column_of K_status 1 s' = Some (VText "completed")
  /\ column_of K_speed 1 s' = Some (VText "1.21MiB/s")
  /\ active_downloads s' = delete 1%Z (active_downloads limit_three)
  /\ notified s' = [(0%nat, 1%Z); (0%nat, 1%Z)].
Proof.
  cbv zeta.
  assert (Hadm : (Z.of_nat (size (active_downloads limit_three))
                  < max_concurrent limit_three)%Z) by reflexivity.
  assert (Hrow : rows (db limit_three) !! 1%Z
                 = Some (default default_item (rows two_jobs !! 1%Z)))
    by reflexivity.
  pose proof (undisturbed_download_runs_to_its_final_write
                limit_three 1 (VText "https://youtu.be/a") (VText "22")
                (VText "/home/u/Downloads/clip.%(ext)s") (Some 0%nat)
                (default default_item (rows two_jobs !! 1%Z))
                ["[download]  45.2% of 10.00MiB at 1.21MiB/s ETA 00:12";
                 "[Merger] Merging formats"] 0 noon Hadm Hrow) as H.
  cbv zeta in H. change (length (workers limit_three)) with 0%nat in H.
  destruct H as (Hdb & Hact & _ & _ & _ & Hnt & _).
  unfold column_of, start_job. rewrite Hdb, Hact, Hnt.
  repeat split; reflexivity.
Defined.

End DownloadRun.
